(* ===== verification/_CoqProject ===== *)
-Q . S2P
Prelude.v
PyFloat.v
GameState.v
Games.v
PyInt.v
Minimax.v
AlphaBeta.v
NodeCount.v
Calls.v
Expectimax.v
ExpectimaxCalls.v
Evaluation.v
Agents.v
