(* ===== verification/Prelude.v ===== *)
(** * Adversarial search agents of [src/multiAgents.py]: a verification library

    The program is one Python module of the Berkeley Pacman projects.  It
    defines a reflex agent ([ReflexAgent]), three depth-bounded game-tree
    searchers sharing one configuration ([MultiAgentSearchAgent] and its
    subclasses [MinimaxAgent], [AlphaBetaAgent], [ExpectimaxAgent]) and two
    evaluation functions ([scoreEvaluationFunction],
    [betterEvaluationFunction]).  Everything else (the board, legal moves,
    successor generation, scoring) belongs to the simulator ([pacman.py],
    [game.py], [util.py]), which is not part of [src/]; the searchers only
    call it through a handful of methods of a [GameState].

    ** How the program's parts interact

    A game loop asks an agent for [getAction(gameState)].  A search agent
    enumerates Pacman's legal actions at the root, runs its recursive search
    on every successor, and keeps the action with the best value.  The
    recursion alternates agent 0 (Pacman, maximising) with agents
    [1 .. getNumAgents()-1] (ghosts: minimising, or averaging for
    expectimax), advancing the ply counter when the last ghost has moved,
    and scores cut-off nodes with the configured evaluation function.

    ** Files, and what each models

    - [Prelude] (this file): Python's built-ins the code relies on, on
      exact rationals: [max(a, b)], [min(a, b)], [max(list)], [sum(list)]
      of exact values,
      [float('inf')] (the type [xreal]), and the result type [result] for
      the ways a call can fail ([ValueError], [ZeroDivisionError],
      [TypeError], the two exceptions of [util.lookup], and the
      [OutOfFuel] of the fuel-bounded models of the recursions).  Shared
      tactics ([py_cases], [inv_ok]) and the hint database [pacman].
    - [PyFloat]: Python's float arithmetic where the searches depend on
      it, the [sum(...) / float(num_actions)] of expectimax's chance nodes
      (lines 287 and 290): IEEE 754 binary64 rounding to nearest, ties to
      even ([round_binary64]), the float [+] of [sum] ([float_add],
      [float_sum]) and the float [/] ([float_div]).
    - [GameState]: the simulator's interface, as the typeclasses
      [GameState] (the five methods the searchers call) and [PacmanState]
      (the observations the evaluation functions read), the ghost record,
      [manhattanDistance] of [util.py], and the laws Pacman's simulator
      guarantees ([WellFormedGame]) stated as a class of their own so that
      the search theorems that need them say so.
    - [Games]: concrete simulators used only to instantiate the theorems:
      finite game trees ([tree_game]), trees whose leaves are won games
      and which keep the laws, with at most five moves per agent
      ([finished_tree_game]), a game that never
      ends ([endless_game]) and a
      small Pacman world ([world_game], [world_obs]) with the spec's
      scenario of section 8.
    - [Minimax]: [Module MinimaxAgent] models [MinimaxAgent.getAction]
      (lines 130-186): the nested [minimax], its two loops, the root loop.
    - [AlphaBeta]: [Module AlphaBetaAgent] models [AlphaBetaAgent.getAction]
      (lines 194-242): the pruning loops with their [break] and the root's
      early [return]; it is proved against [MinimaxAgent].
    - [Expectimax]: [Module ExpectimaxAgent] models [Max_Value] and
      [Min_Value] (lines 270-290) as one mutual fixpoint, the chance
      nodes' mean on floats ([PyFloat]), and [getAction] (lines 251-269);
      it is compared with [MinimaxAgent].
    - [Evaluation]: [Module ReflexAgent] models
      [ReflexAgent.evaluationFunction] (lines 54-93) and
      [ReflexAgent.getAction] (lines 32-52), whose [random.choice] is the
      relation [getAction] between a state and each action it may return;
      the section [Evaluation] models [scoreEvaluationFunction] (lines
      95-103) and [betterEvaluationFunction] (lines 292-336), split along
      the code's local variables ([foodDistance], [ghostDistance],
      [sumScaredTimes], [reciprocalfoodDistance]).
    - [PyInt]: Python's [int(s)] on the depth string of line 123
      ([py_int]: [strip], an optional sign, decimal digits with single
      underscores) and its inverse [str(n)] ([py_str]).
    - [NodeCount]: [Module NodeCount] models the same two searches and
      their root loops, each call returning with its value the number of
      calls of the evaluation function it makes ([mm_count], [ab_count],
      [mm_root], [ab_root]); they are proved to return the models'
      values.
    - [Calls]: [Module Calls] models the calls of the minimax and
      alpha-beta recursions (lines 155-185, 200-241) as a step relation
      [step] on the arguments [(gameState, depth, agentIndex)], with the
      root's calls ([root_call]) and the calls [reachable] from them; it
      is tied to [MinimaxAgent.minimax] by a theorem.
    - [ExpectimaxCalls]: [Module ExpectimaxCalls] models the calls of
      [Max_Value] and [Min_Value] (lines 259-290) the same way, on the
      calls of [Calls], with expectimax's own [cutoff] (no [isWin] or
      [isLose]; an empty move list for everybody) and [next_turn] (the
      test [agentIndex < getNumAgents() - 1] of line 286); [value] maps a
      call to the method it stands for.
    - [Agents]: [Module MultiAgentSearchAgent] models the configuration
      shared by the search agents, [__init__] (lines 120-123): the record
      [agent] of [self.index], [self.evaluationFunction] and
      [self.depth]; the module's [globals()] as an association list of
      [py_object]s (the imports of lines 15-19, the classes and functions,
      the alias [better] of line 339); [util.lookup] (from [util.py], not
      under [src/]); and the depth read by [py_int].  The search agents
      are then run with the function and depth [__init__] configured.

    The search modules take the evaluation function and the depth as
    section variables, as the methods read [self.evaluationFunction] and
    [self.depth]; [Agents] composes them with [__init__].

    ** What the theorems show

    - Equivalence and refinement of alpha-beta: the pruned recursion
      returns a fail-soft approximation of the minimax value in every
      window [alpha <= beta] (equal to it inside the window), and the two
      agents choose the same action, with equal values, whenever the
      evaluations stay within the sentinels [-9999999] and [9999999];
      above them the root's early [return] makes them differ (proved).
    - Termination: [minimax] returns with a constant number [N >= 2] of
      agents, [depth <= self.depth] and fuel above
      [(self.depth - depth) * N - agentIndex]; [ExpectimaxAgent.getAction]
      returns for [self.depth >= 1] and fuel above [self.depth * N - 1].
      These bounds are the recursion depth of the Python code (one call
      per agent per ply), so the fuel never cuts a search that Python
      completes, and more fuel never changes the result
      ([minimax_fuel_mono]).  With [self.depth <= 0] expectimax runs out of
      every fuel in a game that never ends: it does not terminate, while
      minimax at depth 0 is the one-ply decision.
    - Expectimax against minimax: in a game keeping the simulator's laws,
      with integer evaluations within the sentinels (game scores) and
      fewer than [2^53 / 9999999] moves per agent, every expectimax value
      is at least the minimax value, although each chance node rounds its
      float sum and quotient: rounding is monotone and exact on the
      integers below [2^53].  With fractional evaluations the rounding can
      push a mean below the least of its values (three moves worth the
      float [0.7] average to [0.6999999999999998], shown on a tree).
    - Bounds: with evaluations within the sentinels, so are all minimax
      values; a node that is not finished but has no legal move is worth
      a sentinel, not its evaluation.
    - Reflex agent: the value of a move on each branch ([float('inf')]
      exactly for a win, whatever the ghosts; [float('-inf')] for a deadly
      ghost; the
      score plus the reciprocal of the nearest food's distance), the exact
      condition of its [ZeroDivisionError], and that every action it may
      return is a legal move of maximal value, one existing when Pacman
      can move.
    - [betterEvaluationFunction] never divides by zero, uses the farthest
      food, and flips the sign of the ghost distance with the scared timers.
    - The root's choice: minimax's root returns the first action, in the
      order of [getLegalActions(0)], of greatest value, and [''] exactly
      when no value exceeds [-9999999] - also when Pacman has moves
      (proved on a game); the three agents answer a legal action or the
      placeholder, and expectimax, starting at [float('-inf')], the
      placeholder only when Pacman has no move.
    - Chance nodes average, but the roots of the two searches can
      coincide on a tree with a non-uniform chance node, against the
      spec's section 8 (shown on a tree).
    - Node evaluations ([NodeCount]): alpha-beta never evaluates more
      nodes than minimax, at every node whatever the window and for a
      whole [getAction] (7 against 9 on the textbook tree).
    - The calls of the recursion ([Calls]): with [self.depth >= 1] and a
      constant number [N >= 2] of agents, every call asks for the moves of
      an existing agent ([agentIndex < N]) at a depth in
      [[0, self.depth]]; each call is one turn closer to the bound, the
      depth advancing exactly after the last ghost; nested calls are fewer
      than [self.depth * N], so no chain of them is infinite.
    - The calls of expectimax ([ExpectimaxCalls]): [Max_Value] and
      [Min_Value] are one recursion over their step relation (a call cut
      off returns its evaluation, any other the [max] or the mean of its
      steps); every call reached from the root asks for an existing agent
      at a depth in [[0, self.depth]]; the turn order is minimax's for
      every agent that exists, and differs from it for an index at or
      beyond [getNumAgents()], which a game of one agent (admitted by the
      spec) would reach.
    - Configuration ([PyInt], [Agents]): [int] reads back every integer
      [str] prints, with whitespace around it, and rejects strings without
      a digit; [__init__] resolves [scoreEvaluationFunction],
      [betterEvaluationFunction] and [better] (the same function), fails
      with "not found" before reading the depth and otherwise with
      [int]'s error; the default agents
      all choose the move toward the food on the spec's world; a negative
      depth, which [int] accepts, makes minimax and alpha-beta search
      forever there.

    ** Modelling choices

    - Scores are rationals [Q] (every float is one); [float('inf')] is the
      constructor [PosInf] of [xreal].  The chance nodes' [sum] and [/]
      round as Python floats do ([PyFloat]); the other arithmetic of the
      code (the reflex agent's [1.0/distance], [betterEvaluationFunction])
      is exact, as comparisons are exact.
    - Python: CPython 3 up to 3.11.  [sum] of floats then adds left to
      right with a rounding at each step (3.12 compensates the rounding
      errors), and [util.lookup] finds no module in [globals()] (its test
      [str(type(obj)) == "<type 'module'>"] is Python 2's).
      Python's [max(a, b)] keeps [a] unless [b > a], [min(a, b)] keeps [a]
      unless [b < a]: [py_max] and [py_min] are written that way, so the
      models return the very value the code returns, not only an equal one.
    - The recursions of the code follow the game, not a data structure:
      they are [Fixpoint]s on a fuel argument that decreases at each
      recursive call, returning [Err OutOfFuel] when it runs out.
    - Agent indices are [nat]; [getNumAgents() - 1] is truncated at 0,
      which agrees with Python on every branch where the code compares it
      (the comparison is only reached with [agentIndex >= 1]).
    - The ply counters ([depth], [self.depth]) are [Z], as Python's [int].
    - An action returned at the root is [option A]: [None] is the code's
      initial [resultAction = ''] (or [max_action = None]), kept when no
      action improves on the sentinel.
    - Strings are lists of ASCII characters; [int] is modelled on them
      (Unicode digits and spaces, which Python also accepts, are not).
    - Fuel: the witnesses use fuel 2 to 1000, above the bounds of the
      termination theorems for their games; the divergence theorems hold
      for every fuel.

    ** Not modelled

    - The simulator ([pacman.py], [game.py]): only the interface the agents
      call and its laws; the board, the move rules and the scoring are
      replaced by the games of [Games].  The game loop, the graphics and
      the autograder are I/O outside [src/].
    - [util.lookup] on a dotted name (an [__import__] of a module by name),
      and calling an evaluation function that is not a function of one
      state (a class or a module found by [lookup]): [__init__] stores such
      an object as the code does, but the searches are only run with the
      functions [scoreEvaluationFunction] and [betterEvaluationFunction].
    - Floating-point rounding outside the chance nodes, float overflow to
      [inf] (results of [2^1024] or more), and the [RecursionError] Python
      raises where the models run out of fuel.
    - Node counts for expectimax: it has no pruning and evaluates every
      cut-off call of its step relation, so there is nothing to compare
      with [NodeCount]'s counts. *)

From Stdlib Require Import QArith Qminmax Lqa List ZArith Lia Bool.
Import ListNotations.

Declare Scope pacman_scope.
Delimit Scope pacman_scope with pac.
Open Scope Q_scope.

Create HintDb pacman.
Create Rewrite HintDb pacman_rw.

(** ** Python's comparisons and [max]/[min] on scores *)

(** [x < y] on floats, as a boolean. *)
Definition Qltb (x y : Q) : bool := negb (Qle_bool y x).

(** [max(a, b)]: the first argument unless the second is strictly greater. *)
Definition py_max (a b : Q) : Q := if Qltb a b then b else a.

(** [min(a, b)]: the first argument unless the second is strictly smaller. *)
Definition py_min (a b : Q) : Q := if Qltb b a then b else a.

(** [sum(xs)]: Python adds left to right from the integer [0]. *)
Definition py_sum (xs : list Q) : Q := fold_left Qplus xs 0.

(** The failures a modelled call can end with. *)
Inductive py_error : Type :=
| OutOfFuel           (* the fuel of a recursion model ran out *)
| ValueError          (* [max([])], [int('x')] *)
| ZeroDivisionError   (* [1.0 / 0] *)
| TypeError           (* calling an object that is not a one-argument function *)
| NotFound            (* [util.lookup]: "not found as a method or class" *)
| NameConflict.       (* [util.lookup]: "Name conflict" *)

Inductive result (T : Type) : Type :=
| Ok (v : T)
| Err (e : py_error).
Arguments Ok {T} v.
Arguments Err {T} e.

Definition bind {T U : Type} (m : result T) (k : T -> result U) : result U :=
  match m with
  | Ok v => k v
  | Err e => Err e
  end.

Notation "x <- m ;; k" := (bind m (fun x => k))
  (at level 61, m at next level, right associativity) : pacman_scope.
Open Scope pacman_scope.

(** [max(xs)] on a list: [ValueError] on the empty list, otherwise the
    first maximal element. *)
Definition py_max_list (xs : list Q) : result Q :=
  match xs with
  | [] => Err ValueError
  | x :: rest => Ok (fold_left py_max rest x)
  end.

(** [x / y] on floats: [ZeroDivisionError] when [y == 0]. *)
Definition py_div (x y : Q) : result Q :=
  if Qeq_bool y 0 then Err ZeroDivisionError else Ok (x / y).

(** A list comprehension [[f(a) for a in l]] whose calls may fail. *)
Fixpoint map_result {A B : Type} (f : A -> result B) (l : list A) : result (list B) :=
  match l with
  | [] => Ok []
  | a :: l' => b <- f a;; bs <- map_result f l';; Ok (b :: bs)
  end.

(** ** Extended reals: Python floats with [float('inf')] *)

Inductive xreal : Type :=
| NegInf
| Fin (q : Q)
| PosInf.

(** [x < y] on extended reals. *)
Definition xltb (x y : xreal) : bool :=
  match x, y with
  | NegInf, NegInf => false
  | NegInf, _ => true
  | Fin _, NegInf => false
  | Fin a, Fin b => Qltb a b
  | Fin _, PosInf => true
  | PosInf, _ => false
  end.

(** [x == y] on extended reals. *)
Definition xeqb (x y : xreal) : bool :=
  match x, y with
  | NegInf, NegInf | PosInf, PosInf => true
  | Fin a, Fin b => Qeq_bool a b
  | _, _ => false
  end.

(** [x <= y] on extended reals. *)
Definition xleb (x y : xreal) : bool := negb (xltb y x).

(** [max(a, b)] on extended reals. *)
Definition xmax (a b : xreal) : xreal := if xltb a b then b else a.

(** [max(xs)] on a list of extended reals. *)
Definition xmax_list (xs : list xreal) : result xreal :=
  match xs with
  | [] => Err ValueError
  | x :: rest => Ok (fold_left xmax rest x)
  end.

(** ** Generic lemmas *)

Lemma Qltb_true x y : Qltb x y = true <-> x < y.
Proof.
  unfold Qltb. rewrite negb_true_iff.
  split; intro H.
  - apply Qnot_le_lt. intro Hle. apply Qle_bool_iff in Hle. congruence.
  - destruct (Qle_bool y x) eqn:E; [|reflexivity].
    apply Qle_bool_iff in E. exfalso. apply (Qlt_not_le x y); assumption.
Qed.

Lemma Qltb_false x y : Qltb x y = false <-> y <= x.
Proof.
  unfold Qltb. rewrite negb_false_iff. apply Qle_bool_iff.
Qed.

Lemma bind_Ok {T U} (v : T) (k : T -> result U) : bind (Ok v) k = k v.
Proof. reflexivity. Qed.

Lemma bind_Err {T U} e (k : T -> result U) : bind (Err e) k = Err e.
Proof. reflexivity. Qed.

Lemma bind_eq_Ok {T U} (m : result T) (k : T -> result U) (u : U) :
  bind m k = Ok u <-> exists v, m = Ok v /\ k v = Ok u.
Proof.
  destruct m as [v|e]; simpl; split.
  - intro H. exists v. auto.
  - intros (v' & Hv & Hk). injection Hv as <-. exact Hk.
  - discriminate.
  - intros (v' & Hv & _). discriminate.
Qed.

#[export] Hint Rewrite @bind_Ok @bind_Err : pacman_rw.

(** Destruct every Python comparison of the goal and the hypotheses into
    the order facts it decides, for [lra] to finish. *)
Ltac py_cases :=
  unfold py_max, py_min in *;
  repeat match goal with
  | |- context [Qltb ?x ?y] =>
      let E := fresh "Ecmp" in
      destruct (Qltb x y) eqn:E;
      [apply Qltb_true in E | apply Qltb_false in E]
  | H : context [Qltb ?x ?y] |- _ =>
      let E := fresh "Ecmp" in
      destruct (Qltb x y) eqn:E;
      [apply Qltb_true in E | apply Qltb_false in E]
  end.

(** Split a hypothesis [bind m k = Ok u] into its two calls. *)
Ltac inv_ok :=
  repeat match goal with
  | H : bind ?m ?k = Ok _ |- _ =>
      let v := fresh "v" in
      let Hm := fresh "Hm" in
      apply bind_eq_Ok in H; destruct H as (v & Hm & H)
  | H : Ok _ = Ok _ |- _ => injection H as H; subst
  | H : Err _ = Ok _ |- _ => discriminate H
  end.

Lemma py_max_ge_l a b : a <= py_max a b.
Proof. py_cases; lra. Qed.

Lemma py_max_ge_r a b : b <= py_max a b.
Proof. py_cases; lra. Qed.

Lemma py_max_cases a b : py_max a b = a \/ py_max a b = b.
Proof. unfold py_max. destruct (Qltb a b); auto. Qed.

Lemma py_min_le_l a b : py_min a b <= a.
Proof. py_cases; lra. Qed.

Lemma py_min_le_r a b : py_min a b <= b.
Proof. py_cases; lra. Qed.

Lemma py_min_cases a b : py_min a b = a \/ py_min a b = b.
Proof. unfold py_min. destruct (Qltb b a); auto. Qed.

#[export] Hint Resolve py_max_ge_l py_max_ge_r py_min_le_l py_min_le_r : pacman.

(** A comprehension returns when every call does, with one value per
    element. *)
Lemma map_result_total {A B : Type} (f : A -> result B) (l : list A) :
  (forall a, In a l -> exists b, f a = Ok b) ->
  exists bs, map_result f l = Ok bs /\ length bs = length l.
Proof.
  induction l as [|a l IH]; simpl; intros Hf; [eauto|].
  destruct (Hf a (or_introl eq_refl)) as [b ->].
  destruct IH as (bs & -> & Hlen); [eauto|].
  simpl. eexists; split; [reflexivity|]. simpl. congruence.
Qed.

(** [max(xs)] returns on every non-empty list. *)
Lemma py_max_list_nonempty (xs : list Q) :
  xs <> [] -> exists m, py_max_list xs = Ok m.
Proof. destruct xs; simpl; [congruence|eauto]. Qed.

Lemma map_result_In {A B : Type} (f : A -> result B) l bs a :
  map_result f l = Ok bs -> In a l -> exists b, f a = Ok b /\ In b bs.
Proof.
  revert bs. induction l as [|a' l IH]; simpl; intros bs Hm Ha; [contradiction|].
  inv_ok. destruct Ha as [<-|Ha]; [eauto with datatypes|].
  edestruct IH as (b & Hb & Hin); [eassumption|eassumption|].
  eauto with datatypes.
Qed.

Lemma map_result_In_inv {A B : Type} (f : A -> result B) l bs b :
  map_result f l = Ok bs -> In b bs -> exists a, In a l /\ f a = Ok b.
Proof.
  revert bs. induction l as [|a l IH]; simpl; intros bs Hm Hb; inv_ok;
    [contradiction|].
  destruct Hb as [<-|Hb]; [eauto|].
  edestruct IH as (a' & Ha' & Hf); [eassumption|eassumption|]. eauto.
Qed.

Lemma map_result_length {A B : Type} (f : A -> result B) l bs :
  map_result f l = Ok bs -> length bs = length l.
Proof.
  revert bs. induction l as [|a l IH]; simpl; intros bs Hm; inv_ok; [reflexivity|].
  simpl. f_equal. auto.
Qed.

(** [max(xs)] is an element of [xs] and bounds every element. *)
Lemma py_max_list_spec (xs : list Q) m :
  py_max_list xs = Ok m -> In m xs /\ forall x, In x xs -> x <= m.
Proof.
  destruct xs as [|x0 xs]; simpl; intros Hm; inv_ok.
  assert (Hgen : forall acc, In (fold_left py_max xs acc) (acc :: xs) /\
            acc <= fold_left py_max xs acc /\
            forall x, In x xs -> x <= fold_left py_max xs acc).
  { induction xs as [|x xs IH]; simpl; intros acc.
    - split; [auto|]. split; [apply Qle_refl|contradiction].
    - destruct (IH (py_max acc x)) as (Hin & Hacc & Hall).
      pose proof (py_max_ge_l acc x). pose proof (py_max_ge_r acc x).
      split; [|split].
      + simpl. destruct Hin as [Hf|Hf]; [|auto].
        rewrite <- Hf. destruct (py_max_cases acc x) as [-> | ->]; auto.
      + eapply Qle_trans; eassumption.
      + intros y [<-|Hy]; [eapply Qle_trans; eassumption|auto]. }
  destruct (Hgen x0) as (Hin & Hacc & Hall).
  split; [exact Hin|]. intros x [<-|Hx]; auto.
Qed.

(** [(n + 1) * L == n * L + L] for a list length [n]. *)
Lemma inject_length_succ (n : nat) (L : Q) :
  inject_Z (Z.of_nat (S n)) * L == inject_Z (Z.of_nat n) * L + L.
Proof.
  rewrite Nat2Z.inj_succ, <- Z.add_1_r, inject_Z_plus. unfold inject_Z at 2. ring.
Qed.

(** A sum of [n] values each at least [L] is at least [n * L]. *)
Lemma fold_plus_ge (L : Q) (xs : list Q) (acc : Q) :
  (forall x, In x xs -> L <= x) ->
  acc + inject_Z (Z.of_nat (length xs)) * L <= fold_left Qplus xs acc.
Proof.
  revert acc. induction xs as [|x xs IH]; simpl length; simpl fold_left; intros acc Hx.
  - simpl. unfold inject_Z. lra.
  - pose proof (IH (acc + x) (fun y Hy => Hx y (or_intror Hy))).
    pose proof (Hx x (or_introl eq_refl)). rewrite inject_length_succ. lra.
Qed.

Lemma length_eqb_0_nonempty {A : Type} (l : list A) :
  l <> [] -> (length l =? 0)%nat = false.
Proof. destruct l; simpl; [congruence|reflexivity]. Qed.

(** A sum of values each at most [U] is at most [n * U]. *)
Lemma fold_plus_le (U : Q) (xs : list Q) (acc : Q) :
  (forall x, In x xs -> x <= U) ->
  fold_left Qplus xs acc <= acc + inject_Z (Z.of_nat (length xs)) * U.
Proof.
  revert acc. induction xs as [|x xs IH]; simpl length; simpl fold_left; intros acc Hx.
  - simpl. unfold inject_Z. lra.
  - pose proof (IH (acc + x) (fun y Hy => Hx y (or_intror Hy))).
    pose proof (Hx x (or_introl eq_refl)). rewrite inject_length_succ. lra.
Qed.

(** A sum of non-negative values is at least each of them. *)
Lemma fold_plus_ge_elem (xs : list Q) (acc x : Q) :
  (forall y, In y xs -> 0 <= y) -> In x xs -> acc + x <= fold_left Qplus xs acc.
Proof.
  revert acc. induction xs as [|y xs IH]; simpl; intros acc Hy Hx; [contradiction|].
  pose proof (fold_plus_ge 0 xs (acc + y) (fun z Hz => Hy z (or_intror Hz))).
  destruct Hx as [<-|Hx].
  - unfold inject_Z in *. lra.
  - pose proof (IH (acc + y) (fun z Hz => Hy z (or_intror Hz)) Hx).
    pose proof (Hy y (or_introl eq_refl)). lra.
Qed.

(** ** Extended reals *)

(** Case on extended reals and on the comparisons of their finite parts. *)
Ltac xcases :=
  intros;
  repeat match goal with x : xreal |- _ => destruct x end;
  unfold xmax, xleb in *;
  do 3 (simpl in *; py_cases;
        repeat match goal with
        | H : Qeq_bool _ _ = true |- _ => apply Qeq_bool_iff in H
        end);
  try lra; try discriminate; auto.

Lemma xleb_refl x : xleb x x = true.
Proof. xcases. Qed.

Lemma xleb_trans x y z : xleb x y = true -> xleb y z = true -> xleb x z = true.
Proof. xcases. Qed.

Lemma xleb_xmax_l a b : xleb a (xmax a b) = true.
Proof. xcases. Qed.

Lemma xleb_xmax_r a b : xleb b (xmax a b) = true.
Proof. xcases. Qed.

Lemma xeqb_refl x : xeqb x x = true.
Proof. destruct x; simpl; auto. apply Qeq_bool_refl. Qed.

(** Below one of two equal values is below the other. *)
Lemma xleb_xeqb x y z : xeqb x z = true -> xleb y z = true -> xleb y x = true.
Proof. xcases. Qed.

(** [max(xs)] of extended reals is an element of [xs] and bounds them. *)
Lemma xmax_list_spec (xs : list xreal) m :
  xmax_list xs = Ok m -> In m xs /\ forall x, In x xs -> xleb x m = true.
Proof.
  destruct xs as [|x0 xs]; simpl; intros Hm; inv_ok.
  assert (Hgen : forall acc, In (fold_left xmax xs acc) (acc :: xs) /\
            xleb acc (fold_left xmax xs acc) = true /\
            forall x, In x xs -> xleb x (fold_left xmax xs acc) = true).
  { induction xs as [|x xs IH]; simpl; intros acc.
    - split; [auto|]. split; [apply xleb_refl|contradiction].
    - destruct (IH (xmax acc x)) as (Hin & Hacc & Hall).
      split; [|split].
      + simpl. destruct Hin as [Hf|Hf]; [|auto].
        rewrite <- Hf. unfold xmax. destruct (xltb acc x); auto.
      + eapply xleb_trans; [apply xleb_xmax_l|exact Hacc].
      + intros y [<-|Hy]; [eapply xleb_trans; [apply xleb_xmax_r|exact Hacc]|auto]. }
  destruct (Hgen x0) as (Hin & Hacc & Hall).
  split; [exact Hin|]. intros x [<-|Hx]; auto.
Qed.

(** The calls of a comprehension, position by position. *)
Lemma map_result_nth_error {A B : Type} (f : A -> result B) l bs :
  map_result f l = Ok bs ->
  forall i b, nth_error bs i = Some b -> exists a, nth_error l i = Some a /\ f a = Ok b.
Proof.
  revert bs. induction l as [|a l IH]; simpl; intros bs Hm; inv_ok;
    intros [|i] b Hb; simpl in *; try discriminate.
  - injection Hb as <-. eauto.
  - eauto.
Qed.
