(* ===== verification/PyFloat.v ===== *)
(** Python's [float] arithmetic where the agents rely on it: the chance
    nodes of [ExpectimaxAgent] (lines 287 and 290) add their children's
    values with [sum(...)] and divide by [float(num_actions)].  A Python
    float is an IEEE 754 binary64 number, and each [+] and [/] rounds its
    exact result to the nearest binary64 value, ties to an even
    significand.  The values are kept as rationals [Q] (every binary64
    number is one), and [round_binary64] is that rounding: a significand
    of 53 bits at the binade [2^e <= |q| < 2^(e+1)], and the fixed
    quantum [2^-1074] of the subnormals below [2^-1022].  [sum] is
    CPython's left-to-right accumulation from [0] (up to CPython 3.11;
    3.12 compensates the rounding errors of the additions).

    The theorems: rounding is monotone and leaves every integer below
    [2^53] unchanged; so a float sum of values at least an integer [m] is
    at least [n * m], and the float mean at least [m], while [n * m] stays
    below [2^53].  Results of [2^1024] or more, which Python rounds to
    [inf], are not modelled. *)

From Stdlib Require Import QArith Qround Qpower Lqa ZArith Lia List Morphisms.
From S2P Require Import Prelude.
Import ListNotations.

Local Open Scope Q_scope.

(** [2^s] for an integer [s]. *)
Definition pow2 (s : Z) : Q := Qpower (2 # 1) s.

(** The exponent [e] with [2^e <= q < 2^(e+1)], for [q > 0]. *)
Definition floor_log2 (q : Q) : Z :=
  let e := (Z.log2 (Qnum q) - Z.log2 (Zpos (Qden q)))%Z in
  if Qle_bool (pow2 e) q then e else (e - 1)%Z.

(** The exponent of the last significand bit of binary64 at [q > 0]: a
    53-bit significand, and [2^-1074] below the normal range. *)
Definition quantum (q : Q) : Z := Z.max (floor_log2 q - 52) (-1074).

(** Rounding to the nearest integer, ties to the even one. *)
Definition round_half_even (x : Q) : Z :=
  let f := Qfloor x in
  match Qcompare (x - inject_Z f) (1 # 2) with
  | Lt => f
  | Gt => (f + 1)%Z
  | Eq => if Z.even f then f else (f + 1)%Z
  end.

(** Rounding a positive rational to binary64. *)
Definition round_pos (q : Q) : Q :=
  let s := quantum q in inject_Z (round_half_even (q / pow2 s)) * pow2 s.

(** Rounding to the nearest binary64 value, ties to even. *)
Definition round_binary64 (q : Q) : Q :=
  match Qcompare q 0 with
  | Eq => 0
  | Gt => round_pos q
  | Lt => - round_pos (- q)
  end.

(** Python's [x + y] and [x / y] on floats. *)
Definition float_add (x y : Q) : Q := round_binary64 (x + y).
Definition float_div (x y : Q) : Q := round_binary64 (x / y).

(** [sum(values)] on floats: left to right from [0]. *)
Definition float_sum (values : list Q) : Q := fold_left float_add values 0.

(** ** Powers of two *)

Lemma two_nonzero : ~ (2 # 1) == 0.
Proof. discriminate. Qed.

Lemma pow2_pos s : 0 < pow2 s.
Proof. apply Qpower_0_lt. reflexivity. Qed.

Lemma pow2_plus a b : pow2 (a + b) == pow2 a * pow2 b.
Proof. apply Qpower_plus, two_nonzero. Qed.

Lemma pow2_le a b : (a <= b)%Z -> pow2 a <= pow2 b.
Proof. intros H. apply Qpower_le_compat_l; [exact H|discriminate]. Qed.

Lemma pow2_lt a b : (a < b)%Z -> pow2 a < pow2 b.
Proof. intros H. apply Qpower_lt_compat_l; [exact H|reflexivity]. Qed.

Lemma pow2_Z a : (0 <= a)%Z -> pow2 a == inject_Z (2 ^ a).
Proof. intros H. unfold pow2. rewrite Zpower_Qpower by exact H. reflexivity. Qed.

Lemma pow2_le_inv a b : pow2 a <= pow2 b -> (a <= b)%Z.
Proof. intros H. apply (Qpower_le_compat_l_inv (2 # 1)); [exact H|reflexivity]. Qed.

Lemma pow2_lt_inv a b : pow2 a < pow2 b -> (a < b)%Z.
Proof. intros H. apply (Qpower_lt_compat_l_inv (2 # 1)); [exact H|reflexivity]. Qed.

#[export] Hint Resolve pow2_pos : pacman.

(** ** The binade *)

Lemma floor_log2_spec q :
  0 < q -> pow2 (floor_log2 q) <= q /\ q < pow2 (floor_log2 q + 1).
Proof.
  destruct q as [n d]. intros Hq.
  assert (Hn : (0 < n)%Z) by (unfold Qlt in Hq; simpl in Hq; lia).
  unfold floor_log2. cbn [Qnum Qden].
  set (a := Z.log2 n). set (b := Z.log2 (Zpos d)).
  destruct (Z.log2_spec n Hn) as [Ha1 Ha2].
  destruct (Z.log2_spec (Zpos d) ltac:(lia)) as [Hb1 Hb2].
  fold a in Ha1, Ha2. fold b in Hb1, Hb2.
  assert (Ha : (0 <= a)%Z) by apply Z.log2_nonneg.
  assert (Hb : (0 <= b)%Z) by apply Z.log2_nonneg.
  rewrite Zle_Qle in Ha1, Hb1. rewrite Zlt_Qlt in Ha2, Hb2.
  rewrite <- !pow2_Z in Ha1, Ha2, Hb1, Hb2 by lia.
  assert (Hq' : n # d == inject_Z n / inject_Z (Zpos d)) by apply Qmake_Qdiv.
  assert (Hd : 0 < inject_Z (Zpos d)) by reflexivity.
  (* [2^(a-b-1) <= n/d < 2^(a-b+1)] *)
  assert (Hlo : pow2 (a - b - 1) <= inject_Z n / inject_Z (Zpos d)).
  { apply Qle_shift_div_l; [exact Hd|].
    apply Qle_trans with (pow2 (a - b - 1) * pow2 (Z.succ b)).
    - apply Qmult_le_l; [apply pow2_pos|]. apply Qlt_le_weak, Hb2.
    - rewrite <- pow2_plus. replace (a - b - 1 + Z.succ b)%Z with a by lia. exact Ha1. }
  assert (Hhi : inject_Z n / inject_Z (Zpos d) < pow2 (a - b + 1)).
  { apply Qlt_shift_div_r; [exact Hd|].
    apply Qlt_le_trans with (pow2 (Z.succ a)); [exact Ha2|].
    replace (Z.succ a) with (a - b + 1 + b)%Z by lia. rewrite pow2_plus.
    apply Qmult_le_l; [apply pow2_pos|exact Hb1]. }
  destruct (Qle_bool (pow2 (a - b)) (n # d)) eqn:E; rewrite Hq'.
  - apply Qle_bool_iff in E. rewrite Hq' in E. split; [exact E|exact Hhi].
  - split; [exact Hlo|]. replace (a - b - 1 + 1)%Z with (a - b)%Z by lia.
    apply Qnot_le_lt. intros C. rewrite <- Hq' in C. apply Qle_bool_iff in C. congruence.
Qed.

(** A larger number is in the same binade or a higher one. *)
Lemma floor_log2_mono q q' :
  0 < q -> q <= q' -> (floor_log2 q <= floor_log2 q')%Z.
Proof.
  intros Hq Hle.
  destruct (floor_log2_spec q Hq) as [H1 _].
  destruct (floor_log2_spec q' ltac:(lra)) as [_ H2].
  apply Z.lt_succ_r, pow2_lt_inv. unfold Z.succ. lra.
Qed.

Lemma quantum_mono q q' : 0 < q -> q <= q' -> (quantum q <= quantum q')%Z.
Proof. intros Hq Hle. unfold quantum. pose proof (floor_log2_mono q q' Hq Hle). lia. Qed.

(** ** Rounding to an integer *)

Lemma round_half_even_bounds x :
  (Qfloor x <= round_half_even x <= Qfloor x + 1)%Z.
Proof.
  unfold round_half_even.
  destruct (_ ?= _); [destruct (Z.even _)|..]; lia.
Qed.

Lemma round_half_even_Z z : round_half_even (inject_Z z) = z.
Proof.
  unfold round_half_even. rewrite Qfloor_Z.
  destruct (Qcompare_spec (inject_Z z - inject_Z z) (1 # 2)) as [H|H|H];
    [exfalso; lra|reflexivity|exfalso; lra].
Qed.

Lemma round_half_even_mono x y : x <= y -> (round_half_even x <= round_half_even y)%Z.
Proof.
  intros Hxy. pose proof (Qfloor_resp_le x y Hxy) as Hf.
  pose proof (round_half_even_bounds x). pose proof (round_half_even_bounds y).
  destruct (Z.eq_dec (Qfloor x) (Qfloor y)) as [E|]; [|lia].
  unfold round_half_even. rewrite <- E.
  assert (Hr : x - inject_Z (Qfloor x) <= y - inject_Z (Qfloor x)) by lra.
  destruct (Qcompare_spec (x - inject_Z (Qfloor x)) (1 # 2));
    destruct (Qcompare_spec (y - inject_Z (Qfloor x)) (1 # 2));
    try (destruct (Z.even _)); lia || lra.
Qed.

(** The integer bounds of a rational bound its rounding. *)
Lemma round_half_even_le x k : x <= inject_Z k -> (round_half_even x <= k)%Z.
Proof. intros H. rewrite <- (round_half_even_Z k). apply round_half_even_mono, H. Qed.

Lemma round_half_even_ge x k : inject_Z k <= x -> (k <= round_half_even x)%Z.
Proof. intros H. rewrite <- (round_half_even_Z k). apply round_half_even_mono, H. Qed.

Lemma round_half_even_Qeq x y : x == y -> round_half_even x = round_half_even y.
Proof.
  intros E. apply Z.le_antisymm; apply round_half_even_mono; rewrite E; apply Qle_refl.
Qed.

(** ** Rounding positive numbers *)

Lemma round_pos_nonneg q : 0 < q -> 0 <= round_pos q.
Proof.
  intros Hq. unfold round_pos.
  apply Qmult_le_0_compat; [|apply Qlt_le_weak, pow2_pos].
  change 0 with (inject_Z 0). rewrite <- Zle_Qle.
  apply round_half_even_ge. apply Qle_shift_div_l; [apply pow2_pos|].
  change (inject_Z 0) with 0. lra.
Qed.

(** A power of two on the grid of [q] bounds the rounding of [q] when it
    bounds [q]. *)
Lemma round_pos_le_pow2 q k :
  0 < q -> q <= pow2 k -> (quantum q <= k)%Z -> round_pos q <= pow2 k.
Proof.
  intros Hq Hk Hs. unfold round_pos. set (s := quantum q) in *.
  assert (E : pow2 k == inject_Z (2 ^ (k - s)) * pow2 s).
  { rewrite <- pow2_Z by lia. rewrite <- pow2_plus. now replace (k - s + s)%Z with k by lia. }
  rewrite E. apply Qmult_le_compat_r; [|apply Qlt_le_weak, pow2_pos].
  rewrite <- Zle_Qle. apply round_half_even_le.
  apply Qle_shift_div_r; [apply pow2_pos|]. rewrite <- E. exact Hk.
Qed.

Lemma round_pos_ge_pow2 q k :
  0 < q -> pow2 k <= q -> (quantum q <= k)%Z -> pow2 k <= round_pos q.
Proof.
  intros Hq Hk Hs. unfold round_pos. set (s := quantum q) in *.
  assert (E : pow2 k == inject_Z (2 ^ (k - s)) * pow2 s).
  { rewrite <- pow2_Z by lia. rewrite <- pow2_plus. now replace (k - s + s)%Z with k by lia. }
  rewrite E. apply Qmult_le_compat_r; [|apply Qlt_le_weak, pow2_pos].
  rewrite <- Zle_Qle. apply round_half_even_ge.
  apply Qle_shift_div_l; [apply pow2_pos|]. rewrite <- E. exact Hk.
Qed.

(** Rounding is monotone on positive numbers: within one quantum by the
    monotony of [round_half_even], across binades because the rounding
    of the lower number stays below the power of two that starts the
    higher binade. *)
Lemma round_pos_mono q q' : 0 < q -> q <= q' -> round_pos q <= round_pos q'.
Proof.
  intros Hq Hle. pose proof (quantum_mono q q' Hq Hle) as Hs.
  destruct (Z.eq_dec (quantum q) (quantum q')) as [E|Hne].
  - unfold round_pos. rewrite <- E.
    apply Qmult_le_compat_r; [|apply Qlt_le_weak, pow2_pos].
    rewrite <- Zle_Qle. apply round_half_even_mono.
    apply Qmult_le_compat_r; [exact Hle|]. apply Qlt_le_weak, Qinv_lt_0_compat, pow2_pos.
  - set (e' := floor_log2 q').
    assert (He : (floor_log2 q < e')%Z) by (unfold e', quantum in *; lia).
    assert (Hs' : quantum q' = (e' - 52)%Z) by (unfold e', quantum in *; lia).
    destruct (floor_log2_spec q Hq) as [_ Hq2].
    destruct (floor_log2_spec q' ltac:(lra)) as [Hq'1 _]. fold e' in Hq'1.
    apply Qle_trans with (pow2 e').
    + apply round_pos_le_pow2; [exact Hq| |lia].
      apply Qle_trans with (pow2 (floor_log2 q + 1)); [lra|apply pow2_le; lia].
    + apply round_pos_ge_pow2; [lra|exact Hq'1|lia].
Qed.

(** ** Rounding *)

(** Rounding is monotone: a Python float operation never reverses the
    order of the exact results. *)
Lemma round_binary64_mono q q' : q <= q' -> round_binary64 q <= round_binary64 q'.
Proof.
  intros Hle. unfold round_binary64.
  destruct (Qcompare_spec q 0) as [H|H|H]; destruct (Qcompare_spec q' 0) as [H'|H'|H'];
    try (exfalso; lra).
  - apply Qle_refl.
  - apply round_pos_nonneg, H'.
  - pose proof (round_pos_nonneg (- q) ltac:(lra)). lra.
  - pose proof (round_pos_mono (- q') (- q) ltac:(lra) ltac:(lra)). lra.
  - pose proof (round_pos_nonneg (- q) ltac:(lra)).
    pose proof (round_pos_nonneg q' H'). lra.
  - apply round_pos_mono; [exact H|exact Hle].
Qed.

Lemma round_binary64_Qeq q q' : q == q' -> round_binary64 q == round_binary64 q'.
Proof. intros E. apply Qle_antisym; apply round_binary64_mono; rewrite E; apply Qle_refl. Qed.

#[export] Instance round_binary64_Proper : Proper (Qeq ==> Qeq) round_binary64.
Proof. intros q q' E. apply round_binary64_Qeq, E. Qed.

(** The integers below [2^53] are binary64 numbers: rounding keeps them. *)
Lemma round_pos_Z z : (0 < z < 2 ^ 53)%Z -> round_pos (inject_Z z) == inject_Z z.
Proof.
  intros Hz.
  assert (Hq : 0 < inject_Z z) by (change 0 with (inject_Z 0); rewrite <- Zlt_Qlt; lia).
  destruct (floor_log2_spec _ Hq) as [H1 _].
  assert (He : (floor_log2 (inject_Z z) < 53)%Z).
  { apply pow2_lt_inv. apply Qle_lt_trans with (inject_Z z); [exact H1|].
    rewrite pow2_Z by lia. rewrite <- Zlt_Qlt. lia. }
  unfold round_pos. set (s := quantum (inject_Z z)).
  assert (Hs : (s <= 0)%Z) by (unfold s, quantum; lia).
  assert (E : inject_Z z / pow2 s == inject_Z (z * 2 ^ (- s))).
  { rewrite inject_Z_mult, <- pow2_Z by lia. unfold Qdiv, pow2. rewrite Qpower_opp. reflexivity. }
  rewrite (round_half_even_Qeq _ _ E), round_half_even_Z.
  rewrite inject_Z_mult, <- pow2_Z by lia. rewrite <- Qmult_assoc, <- pow2_plus.
  replace (- s + s)%Z with 0%Z by lia. unfold pow2. simpl. ring.
Qed.

Lemma round_binary64_Z z : (Z.abs z < 2 ^ 53)%Z -> round_binary64 (inject_Z z) == inject_Z z.
Proof.
  intros Hz. unfold round_binary64.
  destruct (Qcompare_spec (inject_Z z) 0) as [H|H|H].
  - rewrite H. reflexivity.
  - change 0 with (inject_Z 0) in H. rewrite <- Zlt_Qlt in H.
    rewrite <- inject_Z_opp, round_pos_Z by lia. rewrite inject_Z_opp. ring.
  - change 0 with (inject_Z 0) in H. rewrite <- Zlt_Qlt in H.
    apply round_pos_Z. lia.
Qed.

(** ** Sums and means *)

Lemma float_add_mono x y x' y' : x <= x' -> y <= y' -> float_add x y <= float_add x' y'.
Proof. intros. unfold float_add. apply round_binary64_mono. lra. Qed.

Lemma fold_float_add_Qeq values acc acc' :
  acc == acc' -> fold_left float_add values acc == fold_left float_add values acc'.
Proof.
  revert acc acc'. induction values as [|x values IH]; simpl; intros acc acc' E; [exact E|].
  apply IH. unfold float_add. rewrite E. reflexivity.
Qed.

(** A float sum of values at least [m] is at least the float sum of as
    many copies of [m]. *)
Lemma fold_float_add_ge (m : Q) values acc acc' :
  acc' <= acc -> (forall x, In x values -> m <= x) ->
  fold_left float_add (repeat m (length values)) acc' <= fold_left float_add values acc.
Proof.
  revert acc acc'. induction values as [|x values IH]; simpl; intros acc acc' Hacc Hx;
    [exact Hacc|].
  apply IH; [apply float_add_mono; [exact Hacc|apply Hx; left; reflexivity]|].
  intros y Hy. apply Hx. right. exact Hy.
Qed.

(** Copies of an integer add up exactly while the sums stay below [2^53]. *)
Lemma fold_float_add_repeat (m : Z) k : forall j : Z,
  (0 <= j)%Z -> ((j + Z.of_nat k) * Z.abs m < 2 ^ 53)%Z ->
  fold_left float_add (repeat (inject_Z m) k) (inject_Z (j * m))
    == inject_Z ((j + Z.of_nat k) * m).
Proof.
  induction k as [|k IH]; simpl; intros j Hj Hb.
  - rewrite Z.add_0_r. reflexivity.
  - rewrite Zpos_P_of_succ_nat in Hb.
    assert (E : float_add (inject_Z (j * m)) (inject_Z m) == inject_Z ((j + 1) * m)).
    { unfold float_add. rewrite <- inject_Z_plus.
      replace (j * m + m)%Z with ((j + 1) * m)%Z by ring.
      apply round_binary64_Z. rewrite Z.abs_mul. nia. }
    rewrite (fold_float_add_Qeq _ _ _ E), IH by nia.
    rewrite Zpos_P_of_succ_nat. now replace (j + 1 + Z.of_nat k)%Z with (j + Z.succ (Z.of_nat k))%Z by lia.
Qed.

(** The float mean of [n] values each at least an integer [m] is at least
    [m], while [n * |m| < 2^53]: the partial sums of [n] copies of [m] are
    exact, and rounding is monotone. *)
Lemma float_mean_ge (m : Z) values :
  values <> [] -> (forall x, In x values -> inject_Z m <= x) ->
  (Z.of_nat (length values) * Z.abs m < 2 ^ 53)%Z ->
  inject_Z m <= float_div (float_sum values) (inject_Z (Z.of_nat (length values))).
Proof.
  intros Hne Hx Hb.
  assert (Hn : (0 < Z.of_nat (length values))%Z) by (destruct values; [congruence|simpl; lia]).
  assert (Hsum : inject_Z (Z.of_nat (length values) * m) <= float_sum values).
  { unfold float_sum.
    apply Qle_trans with (fold_left float_add (repeat (inject_Z m) (length values)) (inject_Z (0 * m))).
    - rewrite (fold_float_add_repeat m (length values) 0) by lia. apply Qle_refl.
    - apply fold_float_add_ge; [rewrite Z.mul_0_l; apply Qle_refl|exact Hx]. }
  rewrite <- (round_binary64_Z m) by nia.
  unfold float_div. apply round_binary64_mono.
  apply Qle_shift_div_l; [change 0 with (inject_Z 0); rewrite <- Zlt_Qlt; exact Hn|].
  rewrite <- inject_Z_mult, Z.mul_comm. exact Hsum.
Qed.
