(* ===== verification/GameState.v ===== *)
(** The simulator's side of [src/multiAgents.py]: the methods of a
    [GameState] that the agents call, as typeclasses, the ghost record the
    evaluation functions read, [util.manhattanDistance], and the laws that
    Pacman's simulator guarantees, kept apart so that a theorem that needs
    one of them says so. *)

From Stdlib Require Import QArith Qabs Lqa List ZArith Lia Bool.
From S2P Require Import Prelude.
Import ListNotations.
Open Scope Q_scope.

(** ** The search interface

    What [MinimaxAgent], [AlphaBetaAgent] and [ExpectimaxAgent] call on a
    game state (the docstring of [MinimaxAgent.getAction] lists exactly
    these five methods).  [GS] is the type of game states, [A] the type of
    actions ([Directions.X] strings in the simulator). *)
Class GameState (GS A : Type) := {
  getLegalActions : GS -> nat -> list A;
  generateSuccessor : GS -> nat -> A -> GS;
  getNumAgents : GS -> nat;
  isWin : GS -> bool;
  isLose : GS -> bool
}.

(** ** The observation interface

    What the evaluation functions read: [getScore], [getPacmanPosition],
    [getGhostStates], [getFood().asList()], [getCapsules()], and the
    single-agent [generatePacmanSuccessor] of the reflex agent.  Positions
    are pairs of rationals: a ghost moving at half speed sits between two
    cells. *)
Definition Pos : Type := (Q * Q)%type.

(** [game.AgentState] as far as the evaluation functions look at it:
    [getPosition()] and [scaredTimer]. *)
Record GhostState : Type := mkGhostState {
  ghostPosition : Pos;
  scaredTimer : Z
}.

Class PacmanState (GS A : Type) `{GameState GS A} := {
  getScore : GS -> Q;
  getPacmanPosition : GS -> Pos;
  getGhostStates : GS -> list GhostState;
  getFood : GS -> list Pos;
  getCapsules : GS -> list Pos;
  generatePacmanSuccessor : GS -> A -> GS
}.

(** [util.manhattanDistance(xy1, xy2)]: [abs(x1 - x2) + abs(y1 - y2)]. *)
Definition manhattanDistance (xy1 xy2 : Pos) : Q :=
  Qabs (fst xy1 - fst xy2) + Qabs (snd xy1 - snd xy2).

(** Python's [==] on position tuples of floats. *)
Definition pos_eqb (p1 p2 : Pos) : bool :=
  Qeq_bool (fst p1) (fst p2) && Qeq_bool (snd p1) (snd p2).

(** ** The simulator's laws

    [pacman.py] keeps the number of agents along a game, and refuses every
    move in a finished game ([getLegalActions] returns [[]] when
    [isWin() or isLose()]); in an unfinished game every agent has a move
    (Pacman can always [STOP], a ghost can always turn back).  The search
    agents never check these; the theorems that rely on them take this class
    as an argument. *)
Class WellFormedGame (GS A : Type) `{GameState GS A} : Prop := {
  numAgents_successor : forall s i a,
    getNumAgents (generateSuccessor s i a) = getNumAgents s;
  legal_nil_iff_over : forall s i, (i < getNumAgents s)%nat ->
    (getLegalActions s i = [] <-> isWin s || isLose s = true)
}.

(** ** Generic lemmas *)

Lemma manhattanDistance_nonneg p q : 0 <= manhattanDistance p q.
Proof.
  unfold manhattanDistance.
  pose proof (Qabs_nonneg (fst p - fst q)).
  pose proof (Qabs_nonneg (snd p - snd q)).
  lra.
Qed.

Lemma manhattanDistance_self p : manhattanDistance p p == 0.
Proof.
  unfold manhattanDistance.
  setoid_replace (fst p - fst p) with 0 by ring.
  setoid_replace (snd p - snd p) with 0 by ring.
  reflexivity.
Qed.

Lemma pos_eqb_true p q : pos_eqb p q = true <-> fst p == fst q /\ snd p == snd q.
Proof.
  unfold pos_eqb. rewrite andb_true_iff, !Qeq_bool_iff. reflexivity.
Qed.

#[export] Hint Resolve manhattanDistance_nonneg : pacman.
