(* ===== verification/Games.v ===== *)
(** Two concrete simulators implementing [GameState], on which the search
    theorems are instantiated: finite game trees, where the same moves are
    offered to every agent, and a game that never ends.  They model no code
    of the repository; they stand for the simulator in the witnesses. *)

From Stdlib Require Import QArith Qround Lqa List ZArith Lia Bool.
From S2P Require Import Prelude GameState.
Import ListNotations.
Open Scope Q_scope.

(** ** Finite game trees

    A node carries its score (the value the evaluation function reads), a
    flag for a won game, and its successors; action [k] leads to the
    [k]-th successor, whoever moves.  Two agents play: Pacman and one ghost. *)
Inductive gtree : Type :=
| GNode (score : Q) (won : bool) (kids : list gtree).

Definition gt_score (t : gtree) : Q := let '(GNode q _ _) := t in q.
Definition gt_won (t : gtree) : bool := let '(GNode _ w _) := t in w.
Definition gt_kids (t : gtree) : list gtree := let '(GNode _ _ ks) := t in ks.

#[export] Instance tree_game : GameState gtree nat := {
  getLegalActions t _ := seq 0 (length (gt_kids t));
  generateSuccessor t _ a := nth a (gt_kids t) t;
  getNumAgents _ := 2%nat;
  isWin := gt_won;
  isLose _ := false
}.

(** A leaf scored [q]. *)
Definition leaf (q : Q) : gtree := GNode q false [].

(** An evaluation function for trees: the node's score, clamped to
    [[-100, 100]]. *)
Definition gt_eval (t : gtree) : Q := py_max (-100) (py_min 100 (gt_score t)).

(** The two-ply tree of the textbook example: Pacman picks one of three
    ghost nodes, the ghost one of three leaves. *)
Definition example_tree : gtree :=
  GNode 0 false
    [ GNode 0 false [leaf 3; leaf 12; leaf 8];
      GNode 0 false [leaf 2; leaf 4; leaf 6];
      GNode 0 false [leaf 14; leaf 5; leaf 2] ].

(** Pacman chooses between a ghost whose moves all score 3 and a ghost
    with one bad move and two very good ones. *)
Definition risky_tree : gtree :=
  GNode 0 false
    [ GNode 0 false [leaf 3; leaf 3; leaf 3];
      GNode 0 false [leaf 2; leaf 100; leaf 100] ].

(** Pacman's only move wins the game (score 50), yet the simulator still
    offers moves from there. *)
Definition won_tree : gtree :=
  GNode 0 false [GNode 50 true [leaf 1; leaf 2]].

(** Two moves leading to positions scored above the code's sentinel. *)
Definition huge_tree : gtree :=
  GNode 0 false [leaf 10000000; leaf 10000005].

(** Two ghost nodes, the first with equal leaves (10 and 10), the second
    with unequal ones (0 and 2). *)
Definition nonuniform_tree : gtree :=
  GNode 0 false
    [ GNode 0 false [leaf 10; leaf 10];
      GNode 0 false [leaf 0; leaf 2] ].

(** Pacman's only move leads to a ghost whose only move scores
    [-10000000], below the search's sentinel [-9999999]. *)
Definition sentinel_tree : gtree :=
  GNode 0 false [GNode 0 false [leaf (-10000000)]].

(** The float nearest to [0.7], and a ghost whose three moves all lead to
    it. *)
Definition float_0_7 : Q := 3152519739159347 # 4503599627370496.

Definition point7_tree : gtree :=
  GNode 0 false [GNode 0 false [leaf float_0_7; leaf float_0_7; leaf float_0_7]].

(** ** A game that never ends

    The state counts the moves made; every agent has the one move [tt]. *)
#[export] Instance endless_game : GameState nat unit := {
  getLegalActions _ _ := [tt];
  generateSuccessor n _ _ := S n;
  getNumAgents _ := 2%nat;
  isWin _ := false;
  isLose _ := false
}.

(** ** Finite game trees that end at their leaves

    The same trees, where a node without successors is a won game and an
    agent has at most five moves (the first five successors), as in
    Pacman: they satisfy the simulator's laws [WellFormedGame]. *)
Inductive ftree : Type :=
| FNode (score : Q) (kids : list ftree).

Definition ft_score (t : ftree) : Q := let '(FNode q _) := t in q.
Definition ft_kids (t : ftree) : list ftree := let '(FNode _ ks) := t in ks.

#[export] Instance finished_tree_game : GameState ftree nat := {
  getLegalActions t _ := seq 0 (Nat.min 5 (length (ft_kids t)));
  generateSuccessor t _ a := nth a (ft_kids t) t;
  getNumAgents _ := 2%nat;
  isWin t := match ft_kids t with [] => true | _ => false end;
  isLose _ := false
}.

(** The score of a node as an integer, like Pacman's game scores, kept
    within [-100, 100]. *)
Definition ft_eval (t : ftree) : Q :=
  inject_Z (Z.max (-100) (Z.min 100 (Qfloor (ft_score t)))).

Definition fleaf (q : Q) : ftree := FNode q [].

Definition example_ftree : ftree :=
  FNode 0
    [ FNode 0 [fleaf 3; fleaf 12; fleaf 8];
      FNode 0 [fleaf 2; fleaf 4; fleaf 6];
      FNode 0 [fleaf 14; fleaf 5; fleaf 2] ].

(** ** A small Pacman world

    Pacman moves one cell per action and eats the food it lands on (10
    points, and 1 point lost per move); the ghosts and capsules stay; the
    game is won when no food is left and lost when Pacman stands on a ghost
    that is not scared. *)
Inductive Direction : Type := North | South | East | West | Stop.

Record world : Type := mkWorld {
  w_pos : Pos;
  w_ghosts : list GhostState;
  w_food : list Pos;
  w_capsules : list Pos;
  w_score : Q
}.

Definition dir_vec (d : Direction) : Pos :=
  match d with
  | North => (0, 1) | South => (0, -1) | East => (1, 0) | West => (-1, 0)
  | Stop => (0, 0)
  end.

Definition pacman_step (w : world) (d : Direction) : world :=
  let p := (fst (w_pos w) + fst (dir_vec d), snd (w_pos w) + snd (dir_vec d)) in
  let eaten := existsb (pos_eqb p) (w_food w) in
  mkWorld p (w_ghosts w) (filter (fun f => negb (pos_eqb p f)) (w_food w))
    (w_capsules w) (w_score w - 1 + (if eaten then 10 else 0)).

Definition w_won (w : world) : bool :=
  match w_food w with [] => true | _ => false end.

Definition w_lost (w : world) : bool :=
  existsb (fun g => pos_eqb (ghostPosition g) (w_pos w) && (scaredTimer g =? 0)%Z)
    (w_ghosts w).

#[export] Instance world_game : GameState world Direction := {
  getLegalActions _ _ := [North; South; East; West; Stop];
  generateSuccessor w i d := if (i =? 0)%nat then pacman_step w d else w;
  getNumAgents w := S (length (w_ghosts w));
  isWin := w_won;
  isLose := w_lost
}.

#[export] Instance world_obs : PacmanState world Direction := {
  getScore := w_score;
  getPacmanPosition := w_pos;
  getGhostStates := w_ghosts;
  getFood := w_food;
  getCapsules := w_capsules;
  generatePacmanSuccessor := pacman_step
}.

(** The scenario of the spec (section 8): a ghost that is not scared two
    cells east of Pacman, a food one cell west, and one more food farther. *)
Definition spec_world : world :=
  mkWorld (2, 1) [mkGhostState (4, 1) 0] [(1, 1); (1, 5)] [] 0.

(** The last food is one cell west, where a ghost that is not scared
    stands. *)
Definition last_food_world : world :=
  mkWorld (2, 1) [mkGhostState (1, 1) 0] [(1, 1)] [] 0.

(** The same board with a scared ghost, one cell or three cells away. *)
Definition scared_near : world :=
  mkWorld (2, 1) [mkGhostState (3, 1) 5] [(1, 1)] [] 0.
Definition scared_far : world :=
  mkWorld (2, 1) [mkGhostState (5, 1) 5] [(1, 1)] [] 0.

(** ** Lemmas *)

Lemma gt_eval_bounded t : -100 <= gt_eval t <= 100.
Proof. unfold gt_eval. py_cases; lra. Qed.

Lemma tree_game_numAgents (s : gtree) i (a : nat) :
  getNumAgents (generateSuccessor s i a) = getNumAgents s.
Proof. reflexivity. Qed.

#[export] Instance finished_tree_game_wf : WellFormedGame ftree nat.
Proof.
  split; [reflexivity|].
  intros [q ks] i _. simpl. destruct ks; simpl; split; congruence.
Qed.

Lemma ft_eval_int (t : ftree) :
  exists z, ft_eval t == inject_Z z /\ (-9999999 <= z <= 9999999)%Z.
Proof. eexists. split; [reflexivity|lia]. Qed.

(** At most five moves per agent, as in Pacman. *)
Lemma ft_branching (t : ftree) (i : nat) :
  (Z.of_nat (length (getLegalActions t i)) * 9999999 < 2 ^ 53)%Z.
Proof. change (getLegalActions t i) with (seq 0 (Nat.min 5 (length (ft_kids t)))).
  rewrite length_seq. lia. Qed.

(** ** A path of the spec's world that never ends

    Moving north from column 2 of [spec_world] never reaches a food (both
    are in column 1) nor the ghost (column 4), and the ghosts' moves leave
    the world as it is. *)
Definition on_column2 (w : world) : Prop :=
  fst (w_pos w) == 2 /\ w_ghosts w = [mkGhostState (4, 1) 0] /\
  w_food w = [(1, 1); (1, 5)].

Lemma on_column2_spec_world : on_column2 spec_world.
Proof. repeat split; reflexivity. Qed.

Lemma on_column2_playing w :
  on_column2 w -> isWin w = false /\ isLose w = false.
Proof.
  intros (Hx & Hg & Hf). simpl. unfold w_won, w_lost. rewrite Hg, Hf.
  split; [reflexivity|]. simpl. unfold pos_eqb. simpl.
  replace (Qeq_bool 4 (fst (w_pos w))) with false; [reflexivity|].
  symmetry. apply not_true_iff_false. rewrite Qeq_bool_iff. lra.
Qed.

Lemma on_column2_north w i :
  on_column2 w -> on_column2 (generateSuccessor w i North).
Proof.
  intros (Hx & Hg & Hf). simpl. destruct (i =? 0)%nat; [|repeat split; assumption].
  unfold pacman_step, on_column2. simpl. rewrite Hg, Hf. simpl.
  unfold pos_eqb. simpl.
  replace (Qeq_bool (fst (w_pos w) + 0) 1) with false
    by (symmetry; apply not_true_iff_false; rewrite Qeq_bool_iff; lra).
  split; [simpl; lra | split; reflexivity].
Qed.
