(* ===== verification/PyInt.v ===== *)
(** Python's [int(s)] on a string, as [MultiAgentSearchAgent.__init__]
    applies it to its [depth] argument (line 123), and [str(n)], its
    inverse.  Strings are lists of ASCII characters: [int] strips the
    whitespace around its argument ([str.isspace] on ASCII: tab, line
    feed, vertical tab, form feed, carriage return, the four separators
    [\x1c]-[\x1f] and the space), reads an optional sign and decimal digits
    with single underscores between digits (PEP 515), and raises
    [ValueError] on anything else.  The theorems: [int] reads back what
    [str] prints, padded with any whitespace (a round trip), and rejects
    every string without a digit. *)

From Stdlib Require Import ZArith Lia List Bool Ascii String.
From S2P Require Import Prelude.
Import ListNotations.
Open Scope Z_scope.

(** ** Characters *)

(** The ASCII characters [str.isspace] accepts. *)
Definition is_space (c : ascii) : bool :=
  let n := Z.of_nat (nat_of_ascii c) in
  ((9 <=? n) && (n <=? 13)) || ((28 <=? n) && (n <=? 32)).

(** The value of a decimal digit. *)
Definition digit (c : ascii) : option Z :=
  let n := Z.of_nat (nat_of_ascii c) in
  if (48 <=? n) && (n <=? 57) then Some (n - 48) else None.

(** The character of a digit value [0 <= d < 10]. *)
Definition ascii_of_digit (d : Z) : ascii := ascii_of_nat (Z.to_nat (48 + d)).

(** ** [int(s)] *)

(** [str.lstrip()], and [str.strip()] as [lstrip] of both ends. *)
Fixpoint lstrip (s : list ascii) : list ascii :=
  match s with
  | c :: r => if is_space c then lstrip r else s
  | [] => []
  end.

Definition strip (s : list ascii) : list ascii := rev (lstrip (rev (lstrip s))).

(** The digits after the first one, [acc] the value read so far: a digit
    extends it; an underscore must be followed by a digit. *)
Fixpoint digits_acc (acc : Z) (s : list ascii) : option Z :=
  match s with
  | [] => Some acc
  | c :: r =>
      match digit c with
      | Some d => digits_acc (10 * acc + d) r
      | None =>
          if Ascii.eqb c "_"%char then
            match r with
            | c' :: r' =>
                match digit c' with
                | Some d => digits_acc (10 * acc + d) r'
                | None => None
                end
            | [] => None
            end
          else None
      end
  end.

(** An unsigned literal: a digit first, then [digits_acc]. *)
Definition parse_unsigned (s : list ascii) : option Z :=
  match s with
  | c :: r => match digit c with Some d => digits_acc d r | None => None end
  | [] => None
  end.

Definition of_option (o : option Z) : result Z :=
  match o with Some z => Ok z | None => Err ValueError end.

(** [int(s)] for a string [s], base 10. *)
Definition py_int (s : string) : result Z :=
  match strip (list_ascii_of_string s) with
  | c :: r =>
      if Ascii.eqb c "-"%char then of_option (option_map Z.opp (parse_unsigned r))
      else if Ascii.eqb c "+"%char then of_option (parse_unsigned r)
      else of_option (parse_unsigned (c :: r))
  | [] => Err ValueError
  end.

(** ** [str(n)] *)

(** The decimal digits of [n >= 0] in front of [acc], most significant
    first; [fuel] bounds the number of digits. *)
Fixpoint decimal (fuel : nat) (n : Z) (acc : list ascii) : list ascii :=
  match fuel with
  | O => acc
  | S f =>
      if n <? 10 then ascii_of_digit n :: acc
      else decimal f (n / 10) (ascii_of_digit (n mod 10) :: acc)
  end.

(** A number has at most [log2 n + 1] decimal digits. *)
Definition digits_fuel (n : Z) : nat := S (Z.to_nat (Z.log2 n)).

Definition py_str (z : Z) : string :=
  string_of_list_ascii
    (if z <? 0 then "-"%char :: decimal (digits_fuel (- z)) (- z) []
     else decimal (digits_fuel z) z []).

(** ** Lemmas on characters *)

Lemma digit_ascii_of_digit d : 0 <= d < 10 -> digit (ascii_of_digit d) = Some d.
Proof.
  intros Hd. unfold digit, ascii_of_digit.
  rewrite nat_ascii_embedding by lia. rewrite Z2Nat.id by lia.
  replace ((48 <=? 48 + d) && (48 + d <=? 57)) with true
    by (symmetry; apply andb_true_iff; split; apply Z.leb_le; lia).
  f_equal. lia.
Qed.

Lemma digit_not_space c : digit c <> None -> is_space c = false.
Proof.
  unfold digit, is_space. set (n := Z.of_nat (nat_of_ascii c)).
  destruct ((48 <=? n) && (n <=? 57)) eqn:E; [|congruence]. intros _.
  apply andb_true_iff in E as [E1 E2]. apply Z.leb_le in E1, E2.
  apply orb_false_iff; split; apply andb_false_iff;
    right; apply Z.leb_gt; lia.
Qed.

Lemma digit_not_sign c : digit c <> None -> Ascii.eqb c "-"%char = false /\ Ascii.eqb c "+"%char = false.
Proof.
  unfold digit. intros H.
  split; apply Ascii.eqb_neq; intros ->; simpl in H; congruence.
Qed.

Lemma log2_div10 n : 10 <= n -> Z.log2 (n / 10) < Z.log2 n.
Proof.
  intros Hn.
  assert (Hle : Z.log2 (n / 10) <= Z.log2 (n / 2))
    by (apply Z.log2_le_mono, Z.div_le_compat_l; lia).
  replace (n / 2) with (Z.shiftr n 1) in Hle
    by (rewrite Z.shiftr_div_pow2 by lia; reflexivity).
  rewrite Z.log2_shiftr in Hle by lia.
  assert (1 <= Z.log2 n) by (apply Z.log2_le_pow2; lia). lia.
Qed.

(** ** Lemmas on [decimal] *)

(** [decimal] puts a non-empty block of digits in front of [acc], which
    [digits_acc] reads as the number [n]. *)
Lemma decimal_spec fuel : forall n acc,
  0 <= n -> Z.log2 n < Z.of_nat fuel ->
  exists ds, decimal fuel n acc = ds ++ acc /\ ds <> [] /\
    Forall (fun c => digit c <> None) ds /\
    forall a r, digits_acc a (ds ++ r) = digits_acc (a * 10 ^ Z.of_nat (List.length ds) + n) r.
Proof.
  induction fuel as [|f IH]; intros n acc Hn Hf.
  { pose proof (Z.log2_nonneg n). lia. }
  simpl. destruct (Z.ltb_spec n 10).
  - exists [ascii_of_digit n]. repeat split; [discriminate| |].
    + constructor; [rewrite digit_ascii_of_digit by lia; discriminate | constructor].
    + intros a r. cbn [digits_acc app]. rewrite digit_ascii_of_digit by lia.
      change (Z.of_nat (List.length [ascii_of_digit n])) with 1. f_equal. lia.
  - destruct (IH (n / 10) (ascii_of_digit (n mod 10) :: acc)) as (ds & Hd & Hne & Hall & Hv).
    + apply Z.div_pos; lia.
    + pose proof (log2_div10 n). lia.
    + pose proof (Z.mod_pos_bound n 10).
      exists (ds ++ [ascii_of_digit (n mod 10)]). rewrite <- app_assoc. repeat split.
      * exact Hd.
      * destruct ds; [congruence|discriminate].
      * apply Forall_app; split; [exact Hall|].
        constructor; [rewrite digit_ascii_of_digit by lia; discriminate | constructor].
      * intros a r. rewrite <- app_assoc, Hv. cbn [digits_acc app].
        rewrite digit_ascii_of_digit by lia. f_equal.
        rewrite length_app, Nat2Z.inj_add, Z.pow_add_r by lia.
        change (Z.of_nat (List.length [ascii_of_digit (n mod 10)])) with 1.
        pose proof (Z.div_mod n 10). lia.
Qed.

Lemma digits_fuel_enough n : 0 <= n -> Z.log2 n < Z.of_nat (digits_fuel n).
Proof. intros. unfold digits_fuel. pose proof (Z.log2_nonneg n). lia. Qed.

(** A block of digits read from [0] by [parse_unsigned]. *)
Lemma parse_unsigned_digits ds n :
  ds <> [] -> Forall (fun c => digit c <> None) ds ->
  digits_acc 0 ds = Some n -> parse_unsigned ds = Some n.
Proof.
  destruct ds as [|c r]; [congruence|]. intros _ Hall. inversion Hall; subst.
  simpl. destruct (digit c); congruence.
Qed.

(** ** Lemmas on [strip] *)

Lemma lstrip_spaces pre s :
  forallb is_space pre = true -> lstrip (pre ++ s) = lstrip s.
Proof.
  induction pre as [|c pre IH]; simpl; [reflexivity|].
  intros H. apply andb_true_iff in H as [-> H]. exact (IH H).
Qed.

Lemma lstrip_nonspace c s : is_space c = false -> lstrip (c :: s) = c :: s.
Proof. simpl. intros ->. reflexivity. Qed.

Lemma forallb_rev {T} (f : T -> bool) l : forallb f (rev l) = forallb f l.
Proof.
  induction l as [|x l IH]; simpl; [reflexivity|].
  rewrite forallb_app, IH. simpl. rewrite andb_true_r, andb_comm. reflexivity.
Qed.

(** [strip] removes whitespace padding around a body that starts and ends
    with a character other than whitespace. *)
Lemma strip_padded pre body post c c' :
  forallb is_space pre = true -> forallb is_space post = true ->
  hd_error body = Some c -> is_space c = false ->
  hd_error (rev body) = Some c' -> is_space c' = false ->
  strip (pre ++ body ++ post) = body.
Proof.
  intros Hpre Hpost Hc Hsc Hc' Hsc'. unfold strip.
  rewrite lstrip_spaces by exact Hpre.
  destruct body as [|b body]; [discriminate|]. simpl in Hc. injection Hc as ->.
  rewrite <- app_comm_cons, lstrip_nonspace by exact Hsc.
  rewrite app_comm_cons, rev_app_distr, lstrip_spaces by (rewrite forallb_rev; exact Hpost).
  destruct (rev (c :: body)) as [|b' rb] eqn:E; [discriminate|].
  simpl in Hc'. injection Hc' as ->.
  rewrite lstrip_nonspace by exact Hsc'. rewrite <- E, rev_involutive. reflexivity.
Qed.

Lemma list_ascii_of_string_app s t :
  list_ascii_of_string (s ++ t) = list_ascii_of_string s ++ list_ascii_of_string t.
Proof. induction s as [|c s IH]; simpl; [reflexivity|]. now rewrite IH. Qed.

(** [decimal] digits are non-empty, start and end with a digit, and read
    back as [n]. *)
Lemma decimal_digits n :
  0 <= n ->
  exists ds, decimal (digits_fuel n) n [] = ds /\ ds <> [] /\
    Forall (fun c => digit c <> None) ds /\ parse_unsigned ds = Some n.
Proof.
  intros Hn. destruct (decimal_spec (digits_fuel n) n [] Hn (digits_fuel_enough n Hn))
    as (ds & Hd & Hne & Hall & Hv).
  rewrite app_nil_r in Hd. exists ds. repeat split; auto.
  apply parse_unsigned_digits; auto.
  specialize (Hv 0 []). rewrite app_nil_r in Hv. rewrite Hv. cbn [digits_acc]. f_equal.
Qed.

Lemma Forall_hd_last {T} (P : T -> Prop) (l : list T) :
  l <> [] -> Forall P l ->
  exists c c', hd_error l = Some c /\ P c /\ hd_error (rev l) = Some c' /\ P c'.
Proof.
  intros Hne Hall. destruct l as [|c r]; [congruence|].
  destruct (rev (c :: r)) as [|c' rr] eqn:E.
  { apply (f_equal (@List.length T)) in E. rewrite length_rev in E. discriminate. }
  exists c, c'. repeat split; [inversion Hall; auto|].
  assert (In c' (c :: r)) by (apply in_rev; rewrite E; left; reflexivity).
  rewrite Forall_forall in Hall. auto.
Qed.

Lemma hd_rev_cons {T} (x : T) l : l <> [] -> hd_error (rev (x :: l)) = hd_error (rev l).
Proof.
  intros Hne. simpl. destruct (rev l) as [|y rl] eqn:E; [|reflexivity].
  apply (f_equal (@rev T)) in E. rewrite rev_involutive in E. simpl in E. congruence.
Qed.

Lemma In_lstrip x s : In x (lstrip s) -> In x s.
Proof.
  induction s as [|c s IH]; simpl; [tauto|].
  destruct (is_space c); [auto|simpl; tauto].
Qed.

Lemma In_strip x s : In x (strip s) -> In x s.
Proof.
  unfold strip. intros H. apply in_rev, In_lstrip, in_rev, In_lstrip in H. exact H.
Qed.

(** ** [int] against [str] *)

(** [int] reads back every integer [str] prints, with any whitespace
    around it: [int(pre + str(z) + post) == z]. *)
Theorem py_int_str (z : Z) (pre post : string) :
  forallb is_space (list_ascii_of_string pre) = true ->
  forallb is_space (list_ascii_of_string post) = true ->
  py_int (pre ++ py_str z ++ post) = Ok z.
Proof.
  intros Hpre Hpost. unfold py_int, py_str.
  rewrite !list_ascii_of_string_app, list_ascii_of_string_of_list_ascii.
  destruct (Z.ltb_spec z 0) as [Hz|Hz].
  - destruct (decimal_digits (- z)) as (ds & -> & Hne & Hall & Hp); [lia|].
    destruct (Forall_hd_last _ _ Hne Hall) as (c & c' & _ & Hc & Hc' & Hd').
    rewrite (strip_padded _ _ _ "-"%char c') by
      (reflexivity || (rewrite ?hd_rev_cons by exact Hne; eauto using digit_not_space)).
    simpl. rewrite Hp. simpl. rewrite Z.opp_involutive. reflexivity.
  - destruct (decimal_digits z) as (ds & -> & Hne & Hall & Hp); [lia|].
    destruct (Forall_hd_last _ _ Hne Hall) as (c & c' & Hc0 & Hc & Hc' & Hd').
    rewrite (strip_padded _ _ _ c c') by eauto using digit_not_space.
    destruct ds as [|d r]; [congruence|]. simpl in Hc0. injection Hc0 as ->.
    destruct (digit_not_sign c Hc) as [-> ->]. rewrite Hp. reflexivity.
Qed.

(** A depth string without a decimal digit raises [ValueError]. *)
Theorem py_int_no_digit (s : string) :
  (forall c, In c (list_ascii_of_string s) -> digit c = None) ->
  py_int s = Err ValueError.
Proof.
  intros Hnd. unfold py_int.
  assert (Hs : forall c, In c (strip (list_ascii_of_string s)) -> digit c = None)
    by (intros c Hc; apply Hnd, In_strip, Hc).
  destruct (strip (list_ascii_of_string s)) as [|c r]; [reflexivity|].
  assert (Hr : parse_unsigned r = None).
  { destruct r as [|c' r]; [reflexivity|]. simpl. rewrite (Hs c') by (right; left; reflexivity).
    reflexivity. }
  simpl parse_unsigned. rewrite (Hs c) by (left; reflexivity).
  rewrite Hr. destruct (Ascii.eqb c "-"%char), (Ascii.eqb c "+"%char); reflexivity.
Qed.

(** [int] on depth strings a command line may give: leading zeros,
    signs, whitespace and single underscores between digits are read;
    doubled, leading or trailing underscores, a decimal point, a space
    after the sign and the empty string raise [ValueError]. *)
Example py_int_examples :
  py_int "3" = Ok 3 /\ py_int " -1 " = Ok (-1) /\ py_int "+2" = Ok 2 /\
  py_int "007" = Ok 7 /\ py_int "1_000" = Ok 1000 /\
  py_int "1__0" = Err ValueError /\ py_int "_1" = Err ValueError /\
  py_int "1_" = Err ValueError /\ py_int "2.5" = Err ValueError /\
  py_int "- 1" = Err ValueError /\ py_int "" = Err ValueError.
Proof. repeat split; vm_compute; reflexivity. Qed.

Lemma py_int_str_witness :
  py_int (" " ++ py_str (-12) ++ String (ascii_of_nat 10) EmptyString) = Ok (-12).
Proof. apply py_int_str; reflexivity. Defined.

Lemma py_int_no_digit_witness : py_int "two" = Err ValueError.
Proof. apply py_int_no_digit. intros c [<-|[<-|[<-|[]]]]; reflexivity. Defined.
