(* ===== verification/Minimax.v ===== *)
(** [MinimaxAgent.getAction] of [src/multiAgents.py] (lines 130-186): the
    nested recursive [minimax], its two [for] loops, and the root loop that
    picks Pacman's action.  The recursion is modelled on fuel; the theorems
    show that enough fuel makes it return (and that more fuel changes
    nothing), that its values stay between the code's sentinels, and what
    it computes on a concrete tree. *)

From Stdlib Require Import QArith Lqa List ZArith Lia Bool.
From S2P Require Import Prelude GameState Games.
Import ListNotations.
Open Scope Q_scope.
Open Scope pacman_scope.

Module MinimaxAgent.

Section Minimax.

Context {GS A : Type} `{GameState GS A}.

(** [self.evaluationFunction] and [self.depth] of the agent. *)
Variable evaluationFunction : GS -> Q.
Variable self_depth : Z.

(** Lines 161-164: [maxEval = max(maxEval, eval)] over the legal actions,
    [child action] being the recursive call on the successor. *)
Fixpoint max_loop (child : A -> result Q) (maxEval : Q) (actions : list A)
  : result Q :=
  match actions with
  | [] => Ok maxEval
  | action :: rest =>
      eval <- child action;;
      max_loop child (py_max maxEval eval) rest
  end.

(** Lines 169-175: [minEval = min(minEval, eval)]. *)
Fixpoint min_loop (child : A -> result Q) (minEval : Q) (actions : list A)
  : result Q :=
  match actions with
  | [] => Ok minEval
  | action :: rest =>
      eval <- child action;;
      min_loop child (py_min minEval eval) rest
  end.

(** Lines 155-176: [minimax(gameState, depth, agentIndex)]. *)
Fixpoint minimax (fuel : nat) (gameState : GS) (depth : Z) (agentIndex : nat)
  : result Q :=
  match fuel with
  | O => Err OutOfFuel
  | S fuel =>
      if isWin gameState || isLose gameState || (depth =? self_depth)%Z then
        Ok (evaluationFunction gameState)
      else if (agentIndex =? 0)%nat then
        max_loop
          (fun action =>
             minimax fuel (generateSuccessor gameState agentIndex action) depth 1)
          (-9999999) (getLegalActions gameState agentIndex)
      else
        min_loop
          (fun action =>
             let nextState := generateSuccessor gameState agentIndex action in
             if (agentIndex =? getNumAgents gameState - 1)%nat then
               minimax fuel nextState (depth + 1) 0
             else
               minimax fuel nextState depth (agentIndex + 1))
          9999999 (getLegalActions gameState agentIndex)
  end.

(** Lines 180-185: the root loop over Pacman's actions, carrying
    [(eval, resultAction)]; an action replaces the best one only when its
    value is strictly greater. *)
Fixpoint root_loop (fuel : nat) (gameState : GS) (best : Q * option A)
  (actions : list A) : result (Q * option A) :=
  match actions with
  | [] => Ok best
  | action :: rest =>
      nextEval <- minimax fuel (generateSuccessor gameState 0 action) 0 1;;
      let best' := if Qltb (fst best) nextEval then (nextEval, Some action)
                   else best in
      root_loop fuel gameState best' rest
  end.

(** Lines 178-185: [eval = -9999999], [resultAction = ''], then the loop. *)
Definition root_search (fuel : nat) (gameState : GS) : result (Q * option A) :=
  root_loop fuel gameState (-9999999, None) (getLegalActions gameState 0).

(** Lines 130-186: [getAction] returns [resultAction]. *)
Definition getAction (fuel : nat) (gameState : GS) : result (option A) :=
  best <- root_search fuel gameState;; Ok (snd best).

(** The one-ply decision the spec asks for at depth 0 (section 8): the
    root loop of lines 178-185 with each successor scored by the
    evaluation function itself. *)
Fixpoint one_ply_loop (gameState : GS) (best : Q * option A) (actions : list A)
  : Q * option A :=
  match actions with
  | [] => best
  | action :: rest =>
      let v := evaluationFunction (generateSuccessor gameState 0 action) in
      one_ply_loop gameState (if Qltb (fst best) v then (v, Some action) else best) rest
  end.

Definition one_ply_search (gameState : GS) : Q * option A :=
  one_ply_loop gameState (-9999999, None) (getLegalActions gameState 0).

(** ** Loop lemmas *)

(** A property of scores that holds of the start value and of every
    child's value holds of the loops' results: [max] and [min] of two
    values return one of them. *)
Lemma max_loop_preserves (P : Q -> Prop) child m l r :
  max_loop child m l = Ok r ->
  P m -> (forall a v, In a l -> child a = Ok v -> P v) -> P r.
Proof.
  revert m. induction l as [|a l IH]; simpl; intros m Hl Hm Hc; inv_ok; auto.
  apply (IH (py_max m v) Hl).
  - destruct (py_max_cases m v) as [->| ->]; [assumption|].
    eapply Hc; [left; reflexivity|eassumption].
  - intros a' v' Ha'. apply Hc. right. exact Ha'.
Qed.

Lemma min_loop_preserves (P : Q -> Prop) child m l r :
  min_loop child m l = Ok r ->
  P m -> (forall a v, In a l -> child a = Ok v -> P v) -> P r.
Proof.
  revert m. induction l as [|a l IH]; simpl; intros m Hl Hm Hc; inv_ok; auto.
  apply (IH (py_min m v) Hl).
  - destruct (py_min_cases m v) as [->| ->]; [assumption|].
    eapply Hc; [left; reflexivity|eassumption].
  - intros a' v' Ha'. apply Hc. right. exact Ha'.
Qed.

(** The loops return when every child returns. *)
Lemma max_loop_total child m l :
  (forall a, In a l -> exists v, child a = Ok v) ->
  exists r, max_loop child m l = Ok r.
Proof.
  revert m. induction l as [|a l IH]; simpl; intros m Hc; eauto.
  destruct (Hc a (or_introl eq_refl)) as [v ->]. simpl. eauto.
Qed.

Lemma min_loop_total child m l :
  (forall a, In a l -> exists v, child a = Ok v) ->
  exists r, min_loop child m l = Ok r.
Proof.
  revert m. induction l as [|a l IH]; simpl; intros m Hc; eauto.
  destruct (Hc a (or_introl eq_refl)) as [v ->]. simpl. eauto.
Qed.

(** The loops only move their running value up (Pacman) or down
    (ghosts). *)
Lemma max_loop_ge_start (child : A -> result Q) M (l : list A) m :
  max_loop child M l = Ok m -> M <= m.
Proof.
  revert M. induction l as [|a l IH]; simpl; intros M Hl; inv_ok; [lra|].
  pose proof (IH _ Hl). pose proof (py_max_ge_l M v). lra.
Qed.

Lemma min_loop_le_start (child : A -> result Q) M (l : list A) m :
  min_loop child M l = Ok m -> m <= M.
Proof.
  revert M. induction l as [|a l IH]; simpl; intros M Hl; inv_ok; [lra|].
  pose proof (IH _ Hl). pose proof (py_min_le_l M v). lra.
Qed.

(** When a loop returns, every child it called returned. *)
Lemma min_loop_child_ok (child : A -> result Q) m (l : list A) r a :
  min_loop child m l = Ok r -> In a l -> exists v, child a = Ok v.
Proof.
  revert m. induction l as [|a' l IH]; simpl; intros m Hl Ha; [contradiction|].
  inv_ok. destruct Ha as [<-|Ha]; eauto.
Qed.

(** A ghost's value is at most the value of each of its moves. *)
Lemma min_loop_le_child (child : A -> result Q) m (l : list A) r a v :
  min_loop child m l = Ok r -> In a l -> child a = Ok v -> r <= v.
Proof.
  revert m. induction l as [|a' l IH]; simpl; intros m Hl Ha Hc; [contradiction|].
  inv_ok. destruct Ha as [<-|Ha]; [|eauto].
  rewrite Hc in *. inv_ok.
  eapply Qle_trans; [eapply min_loop_le_start; eassumption | apply py_min_le_r].
Qed.

Lemma max_loop_child_ok (child : A -> result Q) m (l : list A) r a :
  max_loop child m l = Ok r -> In a l -> exists v, child a = Ok v.
Proof.
  revert m. induction l as [|a' l IH]; simpl; intros m Hl Ha; [contradiction|].
  inv_ok. destruct Ha as [<-|Ha]; eauto.
Qed.

(** Pacman's value is at least the value of each of its moves. *)
Lemma max_loop_ge_child (child : A -> result Q) m (l : list A) r a v :
  max_loop child m l = Ok r -> In a l -> child a = Ok v -> v <= r.
Proof.
  revert m. induction l as [|a' l IH]; simpl; intros m Hl Ha Hc; [contradiction|].
  inv_ok. destruct Ha as [<-|Ha]; [|eauto].
  rewrite Hc in *. inv_ok.
  eapply Qle_trans; [apply py_max_ge_r | eapply max_loop_ge_start; eassumption].
Qed.

(** Replacing the children by ones that return the same values whenever
    the first ones return does not change the loops' results. *)
Lemma max_loop_mono child1 child2 m l r :
  (forall a v, child1 a = Ok v -> child2 a = Ok v) ->
  max_loop child1 m l = Ok r -> max_loop child2 m l = Ok r.
Proof.
  revert m. induction l as [|a l IH]; simpl; intros m Hc Hl; auto.
  inv_ok. rewrite (Hc _ _ Hm). simpl. auto.
Qed.

Lemma min_loop_mono child1 child2 m l r :
  (forall a v, child1 a = Ok v -> child2 a = Ok v) ->
  min_loop child1 m l = Ok r -> min_loop child2 m l = Ok r.
Proof.
  revert m. induction l as [|a l IH]; simpl; intros m Hc Hl; auto.
  inv_ok. rewrite (Hc _ _ Hm). simpl. auto.
Qed.

(** ** Fuel *)

(** More fuel never changes what [minimax] returns. *)
Lemma minimax_fuel_mono fuel fuel' gameState depth agentIndex v :
  (fuel <= fuel')%nat ->
  minimax fuel gameState depth agentIndex = Ok v ->
  minimax fuel' gameState depth agentIndex = Ok v.
Proof.
  revert fuel' gameState depth agentIndex v.
  induction fuel as [|fuel IH]; intros [|fuel'] s d i v Hle Hv; try discriminate;
    [lia|].
  simpl in *. destruct (_ || _ || _); [exact Hv|].
  destruct (i =? 0)%nat.
  - eapply max_loop_mono; [|exact Hv]. intros a w. apply IH. lia.
  - eapply min_loop_mono; [|exact Hv]. intros a w.
    destruct (_ =? _)%nat; apply IH; lia.
Qed.

(** The cut-off test of line 156 fails only below the ply bound. *)
Lemma no_cutoff_below gameState depth :
  (depth <= self_depth)%Z ->
  isWin gameState || isLose gameState || (depth =? self_depth)%Z = false ->
  (depth < self_depth)%Z.
Proof.
  intros Hd Hcut. rewrite !orb_false_iff, Z.eqb_neq in Hcut. lia.
Qed.

(** C4: with a non-negative ply bound, a number of agents that is at
    least 2 and never changes, and fuel above
    [(self.depth - depth) * getNumAgents() - agentIndex] (and above 0),
    [minimax]
    returns a value: the recursion of lines 155-176 terminates. *)
Theorem minimax_terminates
  (Hconst : forall s i a, getNumAgents (generateSuccessor s i a) = getNumAgents s) :
  forall fuel gameState depth agentIndex,
  (2 <= getNumAgents gameState)%nat ->
  (agentIndex < getNumAgents gameState)%nat ->
  (depth <= self_depth)%Z ->
  (0 < fuel)%nat ->
  ((self_depth - depth) * Z.of_nat (getNumAgents gameState)
     - Z.of_nat agentIndex < Z.of_nat fuel)%Z ->
  exists v, minimax fuel gameState depth agentIndex = Ok v.
Proof.
  induction fuel as [|fuel IH]; intros s d i HN Hi Hd Hf0 Hf; [lia|].
  simpl. destruct (_ || _ || _) eqn:Hcut; [eauto|].
  pose proof (no_cutoff_below s d Hd Hcut) as Hlt.
  destruct (Nat.eqb_spec i 0) as [->|Hi0].
  - apply max_loop_total. intros a _. apply IH; rewrite ?Hconst; nia.
  - apply min_loop_total. intros a _.
    destruct (Nat.eqb_spec i (getNumAgents s - 1)); apply IH; rewrite ?Hconst; nia.
Qed.

(** ** Bounds *)

(** Every value [minimax] returns is an evaluation or one of the loops'
    start values: a property of all of them is one of its values. *)
Lemma minimax_preserves (P : Q -> Prop)
  (Heval : forall s, P (evaluationFunction s)) (Hlo : P (-9999999)) (Hhi : P 9999999) :
  forall fuel gameState depth agentIndex v,
  minimax fuel gameState depth agentIndex = Ok v -> P v.
Proof.
  induction fuel as [|fuel IH]; intros s d i v Hv; simpl in Hv; [discriminate|].
  destruct (_ || _ || _); [inv_ok; apply Heval|].
  destruct (i =? 0)%nat.
  - refine (max_loop_preserves P _ _ _ _ Hv Hlo _). intros a w _. apply IH.
  - refine (min_loop_preserves P _ _ _ _ Hv Hhi _). intros a w _. destruct (_ =? _)%nat; apply IH.
Qed.

Lemma minimax_in_sentinels
  (Heval : forall s, -9999999 <= evaluationFunction s <= 9999999) :
  forall fuel gameState depth agentIndex v,
  minimax fuel gameState depth agentIndex = Ok v -> -9999999 <= v <= 9999999.
Proof. apply minimax_preserves; [exact Heval|cbv beta; lra|cbv beta; lra]. Qed.

(** C27: when the evaluation function stays within the code's sentinels
    [-9999999] and [9999999], so does every value [minimax] returns, at
    every node (a node without legal actions returns a sentinel), and so
    does the value [eval] the root loop ends on. *)
Theorem minimax_bounded
  (Heval : forall s, -9999999 <= evaluationFunction s <= 9999999) fuel gameState :
  (forall depth agentIndex v,
     minimax fuel gameState depth agentIndex = Ok v -> -9999999 <= v <= 9999999) /\
  (forall v r, root_search fuel gameState = Ok (v, r) -> -9999999 <= v <= 9999999).
Proof.
  pose proof (minimax_preserves (fun q => -9999999 <= q <= 9999999) Heval
                ltac:(cbv beta; lra) ltac:(cbv beta; lra) fuel) as Hm.
  split; [intros; eapply Hm; eassumption|intros v r].
  unfold root_search.
  assert (Hgen : forall l best, -9999999 <= fst best <= 9999999 ->
            root_loop fuel gameState best l = Ok (v, r) -> -9999999 <= v <= 9999999).
  { induction l as [|a l IH]; simpl; intros best Hb Hl; inv_ok; [exact Hb|].
    refine (IH _ _ Hl). destruct (Qltb _ _); simpl; [eapply Hm; eassumption|exact Hb]. }
  apply Hgen. simpl. lra.
Qed.

(** C28: a node that is neither won nor lost, below the ply bound, where the
    agent to move has no legal action, is not scored by the evaluation
    function, against the spec's implicit leaf (section 7): Pacman's loop
    returns its start value [-9999999], a ghost's [9999999]. *)
Theorem minimax_no_moves_sentinel fuel gameState depth agentIndex :
  isWin gameState = false -> isLose gameState = false -> depth <> self_depth ->
  getLegalActions gameState agentIndex = [] ->
  minimax (S fuel) gameState depth agentIndex
    = Ok (if (agentIndex =? 0)%nat then -9999999 else 9999999).
Proof.
  intros Hw Hl Hd Hnil. cbn [minimax]. rewrite Hw, Hl.
  replace (depth =? self_depth)%Z with false by (symmetry; apply Z.eqb_neq; exact Hd).
  simpl. rewrite Hnil. destruct (agentIndex =? 0)%nat; reflexivity.
Qed.

(** ** Depth zero *)

(** C22: configured with depth 0, [MinimaxAgent]'s root search scores
    every successor of the root with the evaluation function and keeps the
    first best one: it is the one-ply decision. *)
Theorem root_search_depth0 (Hd : self_depth = 0%Z) fuel gameState :
  root_search (S fuel) gameState = Ok (one_ply_search gameState).
Proof.
  unfold root_search, one_ply_search.
  generalize (-9999999 : Q, @None A) as best.
  induction (getLegalActions gameState 0) as [|a l IH]; intros best; [reflexivity|].
  simpl. rewrite Hd. simpl. rewrite !orb_true_r. simpl. apply IH.
Qed.

(** ** The root's choice *)

(** The root loop keeps the first action of strictly greatest value: every
    action's value [minimax(nextState, 0, 1)] (line 182) is at most the
    result, and either no value beat the start [E] or the result is the
    first action reaching it. *)
Lemma root_loop_first_best fuel gameState l : forall E r v r',
  root_loop fuel gameState (E, r) l = Ok (v, r') ->
  (forall a, In a l -> exists x,
     minimax fuel (generateSuccessor gameState 0 a) 0 1 = Ok x /\ x <= v) /\
  ((v = E /\ r' = r) \/
   (exists pre a post, l = pre ++ a :: post /\ E < v /\ r' = Some a /\
      minimax fuel (generateSuccessor gameState 0 a) 0 1 = Ok v /\
      forall b y, In b pre ->
        minimax fuel (generateSuccessor gameState 0 b) 0 1 = Ok y -> y < v)).
Proof.
  induction l as [|a l IH]; simpl; intros E r v r' Hl.
  { injection Hl as <- <-. split; [intros _ []|left; auto]. }
  inv_ok. rename v0 into x. rename Hm into Hx.
  destruct (Qltb E x) eqn:Ecmp; [apply Qltb_true in Ecmp|apply Qltb_false in Ecmp];
    destruct (IH _ _ _ _ Hl) as [Hall Hcase].
  - split.
    + intros b [<-|Hb]; [|exact (Hall b Hb)].
      exists x. split; [exact Hx|]. destruct Hcase as [[-> _]|(pre & c & post & _ & Hv & _)];
        lra.
    + right. destruct Hcase as [[-> ->]|(pre & c & post & -> & Hv & -> & Hc & Hpre)].
      * exists [], a, l. repeat split; auto. intros b y [].
      * exists (a :: pre), c, post. repeat split; [lra|exact Hc|].
        intros b y [<-|Hb] Hy; [congruence|eauto].
  - split.
    + intros b [<-|Hb]; [|exact (Hall b Hb)].
      exists x. split; [exact Hx|]. destruct Hcase as [[-> _]|(pre & c & post & _ & Hv & _)];
        lra.
    + destruct Hcase as [[-> ->]|(pre & c & post & -> & Hv & -> & Hc & Hpre)]; [left; auto|].
      right. exists (a :: pre), c, post. repeat split; [exact Hv|exact Hc|].
      intros b y [<-|Hb] Hy; [|eauto]. rewrite Hx in Hy. injection Hy as <-. lra.
Qed.

(** C3: the root's choice (lines 178-186): when [getAction] returns, its
    value is the greatest of [-9999999] and the values of Pacman's
    actions; it returns [''] ([None]) exactly when no action's value
    exceeds [-9999999], and otherwise the first action, in the order of
    [getLegalActions(0)], whose value is the greatest: ties go to the
    earliest action. *)
Theorem root_search_first_best fuel gameState v r :
  root_search fuel gameState = Ok (v, r) ->
  (forall a, In a (getLegalActions gameState 0) -> exists x,
     minimax fuel (generateSuccessor gameState 0 a) 0 1 = Ok x /\ x <= v) /\
  ((v = -9999999 /\ r = None) \/
   (exists pre a post, getLegalActions gameState 0 = pre ++ a :: post /\
      -9999999 < v /\ r = Some a /\
      minimax fuel (generateSuccessor gameState 0 a) 0 1 = Ok v /\
      forall b y, In b pre ->
        minimax fuel (generateSuccessor gameState 0 b) 0 1 = Ok y -> y < v)).
Proof. apply root_loop_first_best. Qed.

End Minimax.

End MinimaxAgent.

(** ** Witnesses on concrete trees *)

(** The minimax value of the textbook tree is the maximum over the ghost
    nodes of the minimum of their leaves, [max(min(3,12,8), min(2,4,6),
    min(14,5,2)) = 3], reached by the first action. *)
Example example_tree_root :
  MinimaxAgent.root_search gt_eval 1 3 example_tree = Ok (3, Some 0%nat).
Proof. vm_compute. reflexivity. Qed.

Lemma minimax_terminates_witness :
  exists v, MinimaxAgent.minimax gt_eval 1 3 example_tree 0 0 = Ok v.
Proof.
  apply (MinimaxAgent.minimax_terminates gt_eval 1 tree_game_numAgents);
    vm_compute; try reflexivity; try discriminate; lia.
Defined.

Lemma minimax_bounded_witness :
  -9999999 <= 3 <= 9999999.
Proof.
  assert (Hr : MinimaxAgent.root_search gt_eval 1 3 example_tree = Ok (3, Some 0%nat))
    by (vm_compute; reflexivity).
  exact (proj2 (MinimaxAgent.minimax_bounded gt_eval 1
                  (fun t => ltac:(pose proof (gt_eval_bounded t); lra)) 3 example_tree)
           3 (Some 0%nat) Hr).
Defined.

Lemma minimax_no_moves_sentinel_witness :
  MinimaxAgent.minimax gt_eval 1 2 (leaf 5) 0 0 = Ok (-9999999).
Proof. apply (MinimaxAgent.minimax_no_moves_sentinel gt_eval 1 1 (leaf 5) 0 0);
  reflexivity || discriminate. Defined.

Lemma root_search_depth0_witness :
  MinimaxAgent.root_search gt_eval 0 1 example_tree
    = Ok (MinimaxAgent.one_ply_search gt_eval example_tree).
Proof. apply (MinimaxAgent.root_search_depth0 gt_eval 0 eq_refl 0 example_tree). Defined.

Lemma root_search_first_best_witness :
  exists pre post, getLegalActions example_tree 0 = pre ++ 0%nat :: post /\
    -9999999 < 3.
Proof.
  assert (Hr : MinimaxAgent.root_search gt_eval 1 3 example_tree = Ok (3, Some 0%nat))
    by (vm_compute; reflexivity).
  destruct (MinimaxAgent.root_search_first_best gt_eval 1 3 example_tree 3 (Some 0%nat) Hr)
    as [_ [[E _]|(pre & a & post & Hl & Hv & Ha & _)]].
  - discriminate.
  - injection Ha as <-. exists pre, post. split; [exact Hl|exact Hv].
Defined.
