(* ===== verification/AlphaBeta.v ===== *)
(** [AlphaBetaAgent.getAction] of [src/multiAgents.py] (lines 194-242): the
    recursive [minimax] with [alpha] and [beta], whose loops [break] as soon
    as [alpha > beta], and the root loop with its early [return].  The
    theorems relate it to [MinimaxAgent]: the pruned recursion returns a
    fail-soft approximation of the minimax value in every window, and the
    two agents choose the same action when the evaluations stay within the
    code's sentinels. *)

From Stdlib Require Import QArith Lqa List ZArith Lia Bool.
From S2P Require Import Prelude GameState Games Minimax.
Import ListNotations.
Open Scope Q_scope.
Open Scope pacman_scope.

Module AlphaBetaAgent.

Section AlphaBeta.

Context {GS A : Type} `{GameState GS A}.

Variable evaluationFunction : GS -> Q.
Variable self_depth : Z.

(** Lines 206-212: Pacman's loop.  [child alpha action] is the recursive
    call on the successor with the current [alpha]; after each child,
    [maxEval] and then [alpha] are updated, and the loop breaks when
    [alpha > beta]. *)
Fixpoint max_loop (child : Q -> A -> result Q) (beta maxEval alpha : Q)
  (actions : list A) : result Q :=
  match actions with
  | [] => Ok maxEval
  | action :: rest =>
      eval <- child alpha action;;
      let maxEval := py_max maxEval eval in
      let alpha := py_max alpha maxEval in
      if Qltb beta alpha then Ok maxEval
      else max_loop child beta maxEval alpha rest
  end.

(** Lines 217-226: a ghost's loop, symmetric on [beta] and [minEval]. *)
Fixpoint min_loop (child : Q -> A -> result Q) (alpha minEval beta : Q)
  (actions : list A) : result Q :=
  match actions with
  | [] => Ok minEval
  | action :: rest =>
      eval <- child beta action;;
      let minEval := py_min minEval eval in
      let beta := py_min beta minEval in
      if Qltb beta alpha then Ok minEval
      else min_loop child alpha minEval beta rest
  end.

(** Lines 200-227: [minimax(gameState, depth, alpha, beta, agentIndex)]. *)
Fixpoint minimax (fuel : nat) (gameState : GS) (depth : Z) (alpha beta : Q)
  (agentIndex : nat) : result Q :=
  match fuel with
  | O => Err OutOfFuel
  | S fuel =>
      if isWin gameState || isLose gameState || (depth =? self_depth)%Z then
        Ok (evaluationFunction gameState)
      else if (agentIndex =? 0)%nat then
        max_loop
          (fun alpha action =>
             minimax fuel (generateSuccessor gameState agentIndex action)
               depth alpha beta 1)
          beta (-9999999) alpha (getLegalActions gameState agentIndex)
      else
        min_loop
          (fun beta action =>
             let nextState := generateSuccessor gameState agentIndex action in
             if (agentIndex =? getNumAgents gameState - 1)%nat then
               minimax fuel nextState (depth + 1) alpha beta 0
             else
               minimax fuel nextState depth alpha beta (agentIndex + 1))
          alpha 9999999 beta (getLegalActions gameState agentIndex)
  end.

(** Lines 233-241: the root loop, carrying [(eval, resultAction)] and
    [alpha]; it returns at once when a value exceeds [beta]. *)
Fixpoint root_loop (fuel : nat) (gameState : GS) (best : Q * option A)
  (alpha beta : Q) (actions : list A) : result (Q * option A) :=
  match actions with
  | [] => Ok best
  | action :: rest =>
      nextEval <- minimax fuel (generateSuccessor gameState 0 action) 0 alpha beta 1;;
      let best := if Qltb (fst best) nextEval then (nextEval, Some action)
                  else best in
      if Qltb beta nextEval then Ok best
      else root_loop fuel gameState best (py_max alpha nextEval) beta rest
  end.

(** Lines 229-241: [eval = alpha = -9999999], [beta = 9999999],
    [resultAction = ''], then the loop. *)
Definition root_search (fuel : nat) (gameState : GS) : result (Q * option A) :=
  root_loop fuel gameState (-9999999, None) (-9999999) 9999999
    (getLegalActions gameState 0).

(** Lines 194-242: [getAction] returns [resultAction]. *)
Definition getAction (fuel : nat) (gameState : GS) : result (option A) :=
  best <- root_search fuel gameState;; Ok (snd best).

(** ** The window property

    [fail_soft alpha beta v m]: the pruned value [v] agrees with the
    minimax value [m] inside the window, is an upper bound of [m] below it
    and a lower bound of [m] above it.  The window is closed because the
    code prunes on the strict [alpha > beta]. *)
Definition fail_soft (alpha beta v m : Q) : Prop :=
  (v < alpha -> m <= v) /\ (alpha <= v <= beta -> m == v) /\ (beta < v -> v <= m).

Section Loops.

(** A minimax child and its pruned counterpart, related by the window
    property in every window [[w, b]] (Pacman) or [[a, w]] (ghost). *)
Variables (mchild : A -> result Q) (achild : Q -> A -> result Q) (a b : Q).

(** Pacman's loop: the invariant relates the minimax running maximum [M],
    the pruned one [V] and the current [alpha]. *)
Lemma max_loop_fail_soft
  (Hchild : forall act al m, al <= b -> mchild act = Ok m ->
            exists v, achild al act = Ok v /\ fail_soft al b v m) :
  forall l M V al m,
  a <= al -> al <= b -> (al <= a \/ al <= V) -> M <= V ->
  (a <= V -> M == V) -> (b < V -> V <= M) ->
  MinimaxAgent.max_loop mchild M l = Ok m ->
  exists v, max_loop achild b V al l = Ok v /\ fail_soft a b v m.
Proof.
  unfold fail_soft in *.
  induction l as [|act l IH]; simpl; intros M V al m Ha Hb Hal HMV HJ HK Hl.
  - inv_ok. eexists; split; [reflexivity|]. lra.
  - inv_ok. rename v into mi.
    destruct (Hchild act al mi Hb Hm) as (vi & -> & Hw1 & Hw2 & Hw3). simpl.
    pose proof (MinimaxAgent.max_loop_ge_start _ _ _ _ Hl).
    py_cases;
      solve [ eexists; split; [reflexivity|]; lra
            | eapply IH; [ .. | exact Hl ]; lra ].
Qed.

(** A ghost's loop: the symmetric invariant on the running minima and
    the current [beta]. *)
Lemma min_loop_fail_soft
  (Hchild : forall act be m, a <= be -> mchild act = Ok m ->
            exists v, achild be act = Ok v /\ fail_soft a be v m) :
  forall l M V be m,
  a <= be -> be <= b -> (b <= be \/ V <= be) -> V <= M ->
  (V <= b -> M == V) -> (V < a -> M <= V) ->
  MinimaxAgent.min_loop mchild M l = Ok m ->
  exists v, min_loop achild a V be l = Ok v /\ fail_soft a b v m.
Proof.
  unfold fail_soft in *.
  induction l as [|act l IH]; simpl; intros M V be m Ha Hb Hbe HVM HJ HK Hl.
  - inv_ok. eexists; split; [reflexivity|]. lra.
  - inv_ok. rename v into mi.
    destruct (Hchild act be mi Ha Hm) as (vi & -> & Hw1 & Hw2 & Hw3). simpl.
    pose proof (MinimaxAgent.min_loop_le_start _ _ _ _ Hl).
    py_cases;
      solve [ eexists; split; [reflexivity|]; lra
            | eapply IH; [ .. | exact Hl ]; lra ].
Qed.

End Loops.

(** In every window [alpha <= beta], whenever [MinimaxAgent]'s recursion
    returns the value [m] at a node, [AlphaBetaAgent]'s recursion returns,
    with the same fuel, a value [v] with [fail_soft alpha beta v m]. *)
Lemma pruned_fail_soft :
  forall fuel gameState depth alpha beta agentIndex m,
  alpha <= beta ->
  MinimaxAgent.minimax evaluationFunction self_depth fuel gameState depth agentIndex
    = Ok m ->
  exists v, minimax fuel gameState depth alpha beta agentIndex = Ok v
            /\ fail_soft alpha beta v m.
Proof.
  induction fuel as [|fuel IH]; intros s d al be i m Hab Hm; simpl in *;
    [discriminate|].
  destruct (_ || _ || _).
  - inv_ok. eexists; split; [reflexivity|]. unfold fail_soft; lra.
  - destruct (i =? 0)%nat.
    + eapply (max_loop_fail_soft _ _ al be); [ | .. | exact Hm ]; try lra.
      intros act w m' Hw Hc. apply IH; assumption.
    + eapply (min_loop_fail_soft _ _ al be); [ | .. | exact Hm ]; try lra.
      intros act w m' Hw Hc. destruct (_ =? _)%nat; apply IH; assumption.
Qed.

(** C1: in every window [alpha <= beta], whenever [MinimaxAgent]'s
    recursion returns the value [m] at a node, [AlphaBetaAgent]'s recursion
    returns, with the same fuel, a value [v]: equal to [m] when [m] lies in
    the window, strictly above [beta] and at most [m] when [m] lies above,
    at least [m] and strictly below [alpha] when [m] lies below.  Pruning
    never changes a value that can matter to the caller. *)
Theorem minimax_fail_soft fuel gameState depth alpha beta agentIndex m :
  alpha <= beta ->
  MinimaxAgent.minimax evaluationFunction self_depth fuel gameState depth agentIndex
    = Ok m ->
  exists v, minimax fuel gameState depth alpha beta agentIndex = Ok v /\
    (alpha <= m <= beta -> v == m) /\
    (beta < m -> beta < v <= m) /\
    (m < alpha -> m <= v < alpha).
Proof.
  intros Hab Hm.
  destruct (pruned_fail_soft _ _ _ _ _ _ _ Hab Hm) as (v & Hv & H1 & H2 & H3).
  exists v. split; [exact Hv|]. repeat split; intros; lra.
Qed.

(** ** The root loops *)

Section Root.

Hypothesis Heval : forall s, -9999999 <= evaluationFunction s <= 9999999.

(** The two root loops keep equal best values and the same action, the
    pruned one's [alpha] being its best value; its early [return] never
    fires, as no value exceeds [beta = 9999999]. *)
Lemma root_loop_agree fuel gameState :
  forall l E r al E' v r',
  al == E' -> E' == E -> E' <= 9999999 ->
  MinimaxAgent.root_loop evaluationFunction self_depth fuel gameState (E, r) l
    = Ok (v, r') ->
  exists v', root_loop fuel gameState (E', r) al 9999999 l = Ok (v', r')
             /\ v' == v.
Proof.
  induction l as [|act l IH]; simpl; intros E r al E' v r' Hal HE Hb Hl.
  - inv_ok. eauto.
  - inv_ok. rename v0 into mi.
    pose proof (MinimaxAgent.minimax_in_sentinels _ _ Heval _ _ _ _ _ Hm) as Hmi.
    destruct (pruned_fail_soft _ _ _ al 9999999 _ _ ltac:(lra) Hm)
      as (vi & -> & Hw1 & Hw2 & Hw3).
    simpl. py_cases;
      solve [ lra | eapply IH; [ .. | exact Hl ]; lra ].
Qed.

(** C2: when the evaluation function stays within the sentinels, the
    root loop of [AlphaBetaAgent] ends, with the same fuel, on the action
    [MinimaxAgent]'s root loop ends on, with an equal value. *)
Theorem root_search_minimax fuel gameState v r :
  MinimaxAgent.root_search evaluationFunction self_depth fuel gameState = Ok (v, r) ->
  exists v', root_search fuel gameState = Ok (v', r) /\ v' == v.
Proof.
  unfold root_search, MinimaxAgent.root_search. intros Hl.
  eapply root_loop_agree; [ .. | exact Hl ]; lra.
Qed.

End Root.

(** The root returns its initial action or one of the actions it
    scanned. *)
Lemma root_loop_action fuel gameState l : forall E r alpha beta v r',
  root_loop fuel gameState (E, r) alpha beta l = Ok (v, r') ->
  r' = r \/ exists a, r' = Some a /\ In a l.
Proof.
  induction l as [|a l IH]; simpl; intros E r alpha beta v r' Hl.
  { injection Hl as _ <-. auto. }
  inv_ok. destruct (Qltb E v0); destruct (Qltb beta v0);
    try (injection Hl as _ <-; eauto);
    destruct (IH _ _ _ _ _ _ Hl) as [->|(b & -> & Hb)]; eauto.
Qed.

End AlphaBeta.

End AlphaBetaAgent.

(** ** Witnesses and the counterexample *)

Lemma gt_eval_in_sentinels t : -9999999 <= gt_eval t <= 9999999.
Proof. pose proof (gt_eval_bounded t). lra. Qed.

Lemma minimax_fail_soft_witness :
  exists v, AlphaBetaAgent.minimax gt_eval 1 3 example_tree 0 (-10) 10 0 = Ok v /\
    (-10 <= 3 <= 10 -> v == 3) /\ (10 < 3 -> 10 < v <= 3) /\ (3 < -10 -> 3 <= v < -10).
Proof.
  apply (AlphaBetaAgent.minimax_fail_soft gt_eval 1 3 example_tree 0 (-10) 10 0 3).
  - vm_compute. discriminate.
  - vm_compute. reflexivity.
Defined.

Lemma root_search_minimax_witness :
  exists v', AlphaBetaAgent.root_search gt_eval 1 3 example_tree = Ok (v', Some 0%nat)
             /\ v' == 3.
Proof.
  apply (AlphaBetaAgent.root_search_minimax gt_eval 1 gt_eval_in_sentinels).
  vm_compute. reflexivity.
Defined.

(** With evaluations above the sentinel [9999999] the root's early
    [return] of line 240 fires: at ply bound 0, on two moves scored
    [10000000] and [10000005], [MinimaxAgent] picks the second and
    [AlphaBetaAgent] the first. *)
Theorem getAction_differs_above_sentinel :
  MinimaxAgent.getAction gt_score 0 2 huge_tree = Ok (Some 1%nat) /\
  AlphaBetaAgent.getAction gt_score 0 2 huge_tree = Ok (Some 0%nat).
Proof. split; vm_compute; reflexivity. Qed.
