(* ===== verification/NodeCount.v ===== *)
(** The number of node evaluations (calls of [self.evaluationFunction]) of
    the minimax and alpha-beta searches.  [mm_count] and [ab_count] are
    [MinimaxAgent.minimax] and [AlphaBetaAgent.minimax] (lines 155-176 and
    200-227) returning, with the value, the number of evaluations the call
    makes; [mm_root] and [ab_root] are the root loops of their [getAction]
    (lines 178-185 and 229-241).  The theorems: the counted searches return
    the models' values, and alpha-beta never evaluates more nodes than
    minimax (spec, section 8), at every node and at the root; on the
    textbook tree it evaluates 7 leaves where minimax evaluates 9. *)

From Stdlib Require Import QArith Lqa ZArith Lia List Bool.
From S2P Require Import Prelude GameState Games Minimax AlphaBeta.
Import ListNotations.

Module NodeCount.

Section Count.

Context {GS A : Type} `{GameState GS A}.

Variable evaluationFunction : GS -> Q.
Variable self_depth : Z.

(** ** Minimax *)

(** Lines 161-164 and 169-175: a loop of [minimax] with the evaluations
    of its children added to [n]; [op] is [max] for Pacman and [min] for a
    ghost. *)
Fixpoint mm_loop (op : Q -> Q -> Q) (child : A -> result (Q * nat)) (acc : Q) (n : nat)
  (actions : list A) : result (Q * nat) :=
  match actions with
  | [] => Ok (acc, n)
  | action :: rest =>
      r <- child action;;
      mm_loop op child (op acc (fst r)) (n + snd r) rest
  end.

(** Lines 155-176: [minimax] and its number of evaluations. *)
Fixpoint mm_count (fuel : nat) (gameState : GS) (depth : Z) (agentIndex : nat)
  : result (Q * nat) :=
  match fuel with
  | O => Err OutOfFuel
  | S fuel =>
      if isWin gameState || isLose gameState || (depth =? self_depth)%Z then
        Ok (evaluationFunction gameState, 1%nat)
      else if (agentIndex =? 0)%nat then
        mm_loop py_max
          (fun action =>
             mm_count fuel (generateSuccessor gameState agentIndex action) depth 1)
          (-9999999) 0 (getLegalActions gameState agentIndex)
      else
        mm_loop py_min
          (fun action =>
             let nextState := generateSuccessor gameState agentIndex action in
             if (agentIndex =? getNumAgents gameState - 1)%nat then
               mm_count fuel nextState (depth + 1) 0
             else
               mm_count fuel nextState depth (agentIndex + 1))
          9999999 0 (getLegalActions gameState agentIndex)
  end.

(** Lines 178-185: the root loop and the evaluations of its calls. *)
Fixpoint mm_root (fuel : nat) (gameState : GS) (best : Q * option A) (n : nat)
  (actions : list A) : result (Q * option A * nat) :=
  match actions with
  | [] => Ok (best, n)
  | action :: rest =>
      r <- mm_count fuel (generateSuccessor gameState 0 action) 0 1;;
      let nextEval := fst r in
      let best' := if Qltb (fst best) nextEval then (nextEval, Some action)
                   else best in
      mm_root fuel gameState best' (n + snd r) rest
  end.

(** ** Alpha-beta *)

(** Lines 206-212: Pacman's loop with its [break]. *)
Fixpoint ab_max_loop (child : Q -> A -> result (Q * nat)) (beta maxEval alpha : Q)
  (n : nat) (actions : list A) : result (Q * nat) :=
  match actions with
  | [] => Ok (maxEval, n)
  | action :: rest =>
      r <- child alpha action;;
      let maxEval := py_max maxEval (fst r) in
      let alpha := py_max alpha maxEval in
      if Qltb beta alpha then Ok (maxEval, (n + snd r)%nat)
      else ab_max_loop child beta maxEval alpha (n + snd r) rest
  end.

(** Lines 217-226: a ghost's loop with its [break]. *)
Fixpoint ab_min_loop (child : Q -> A -> result (Q * nat)) (alpha minEval beta : Q)
  (n : nat) (actions : list A) : result (Q * nat) :=
  match actions with
  | [] => Ok (minEval, n)
  | action :: rest =>
      r <- child beta action;;
      let minEval := py_min minEval (fst r) in
      let beta := py_min beta minEval in
      if Qltb beta alpha then Ok (minEval, (n + snd r)%nat)
      else ab_min_loop child alpha minEval beta (n + snd r) rest
  end.

(** Lines 200-227: [minimax(gameState, depth, alpha, beta, agentIndex)]
    and its number of evaluations. *)
Fixpoint ab_count (fuel : nat) (gameState : GS) (depth : Z) (alpha beta : Q)
  (agentIndex : nat) : result (Q * nat) :=
  match fuel with
  | O => Err OutOfFuel
  | S fuel =>
      if isWin gameState || isLose gameState || (depth =? self_depth)%Z then
        Ok (evaluationFunction gameState, 1%nat)
      else if (agentIndex =? 0)%nat then
        ab_max_loop
          (fun alpha action =>
             ab_count fuel (generateSuccessor gameState agentIndex action)
               depth alpha beta 1)
          beta (-9999999) alpha 0 (getLegalActions gameState agentIndex)
      else
        ab_min_loop
          (fun beta action =>
             let nextState := generateSuccessor gameState agentIndex action in
             if (agentIndex =? getNumAgents gameState - 1)%nat then
               ab_count fuel nextState (depth + 1) alpha beta 0
             else
               ab_count fuel nextState depth alpha beta (agentIndex + 1))
          alpha 9999999 beta 0 (getLegalActions gameState agentIndex)
  end.

(** Lines 233-241: the root loop with its early return. *)
Fixpoint ab_root (fuel : nat) (gameState : GS) (best : Q * option A)
  (alpha beta : Q) (n : nat) (actions : list A) : result (Q * option A * nat) :=
  match actions with
  | [] => Ok (best, n)
  | action :: rest =>
      r <- ab_count fuel (generateSuccessor gameState 0 action) 0 alpha beta 1;;
      let nextEval := fst r in
      let best := if Qltb (fst best) nextEval then (nextEval, Some action)
                  else best in
      if Qltb beta nextEval then Ok (best, (n + snd r)%nat)
      else ab_root fuel gameState best (py_max alpha nextEval) beta (n + snd r) rest
  end.

(** The evaluations of a whole [getAction]. *)
Definition mm_getAction_count (fuel : nat) (gameState : GS) : result (Q * option A * nat) :=
  mm_root fuel gameState (-9999999, None) 0 (getLegalActions gameState 0).

Definition ab_getAction_count (fuel : nat) (gameState : GS) : result (Q * option A * nat) :=
  ab_root fuel gameState (-9999999, None) (-9999999) 9999999 0
    (getLegalActions gameState 0).

(** The value of a counted call. *)
Definition value_of {T : Type} (r : result (T * nat)) : result T :=
  x <- r;; Ok (fst x).

(** ** The counted searches return the models' values *)

Lemma mm_loop_max_value child' child m n l :
  (forall a, value_of (child' a) = child a) ->
  value_of (mm_loop py_max child' m n l) = MinimaxAgent.max_loop child m l.
Proof.
  intros Hc. revert m n. induction l as [|a l IH]; intros m n; [reflexivity|].
  simpl. rewrite <- Hc. destruct (child' a) as [[x c]|e]; simpl; [apply IH|reflexivity].
Qed.

Lemma mm_loop_min_value child' child m n l :
  (forall a, value_of (child' a) = child a) ->
  value_of (mm_loop py_min child' m n l) = MinimaxAgent.min_loop child m l.
Proof.
  intros Hc. revert m n. induction l as [|a l IH]; intros m n; [reflexivity|].
  simpl. rewrite <- Hc. destruct (child' a) as [[x c]|e]; simpl; [apply IH|reflexivity].
Qed.

Lemma mm_count_value fuel : forall gameState depth agentIndex,
  value_of (mm_count fuel gameState depth agentIndex)
  = MinimaxAgent.minimax evaluationFunction self_depth fuel gameState depth agentIndex.
Proof.
  induction fuel as [|fuel IH]; intros s d i; [reflexivity|]. simpl.
  destruct (_ || _ || _); [reflexivity|]. destruct (i =? 0)%nat.
  - apply mm_loop_max_value. intros a. apply IH.
  - apply mm_loop_min_value. intros a. simpl. destruct (i =? _)%nat; apply IH.
Qed.

Lemma ab_max_loop_value child' child beta m alpha n l :
  (forall alpha a, value_of (child' alpha a) = child alpha a) ->
  value_of (ab_max_loop child' beta m alpha n l)
  = AlphaBetaAgent.max_loop child beta m alpha l.
Proof.
  intros Hc. revert m alpha n. induction l as [|a l IH]; intros m alpha n; [reflexivity|].
  simpl. rewrite <- Hc. destruct (child' alpha a) as [[x c]|e]; simpl; [|reflexivity].
  destruct (Qltb _ _); [reflexivity|apply IH].
Qed.

Lemma ab_min_loop_value child' child alpha m beta n l :
  (forall beta a, value_of (child' beta a) = child beta a) ->
  value_of (ab_min_loop child' alpha m beta n l)
  = AlphaBetaAgent.min_loop child alpha m beta l.
Proof.
  intros Hc. revert m beta n. induction l as [|a l IH]; intros m beta n; [reflexivity|].
  simpl. rewrite <- Hc. destruct (child' beta a) as [[x c]|e]; simpl; [|reflexivity].
  destruct (Qltb _ _); [reflexivity|apply IH].
Qed.

Lemma ab_count_value fuel : forall gameState depth alpha beta agentIndex,
  value_of (ab_count fuel gameState depth alpha beta agentIndex)
  = AlphaBetaAgent.minimax evaluationFunction self_depth fuel gameState depth
      alpha beta agentIndex.
Proof.
  induction fuel as [|fuel IH]; intros s d alpha beta i; [reflexivity|]. simpl.
  destruct (_ || _ || _); [reflexivity|]. destruct (i =? 0)%nat.
  - apply ab_max_loop_value. intros al a. apply IH.
  - apply ab_min_loop_value. intros be a. simpl. destruct (i =? _)%nat; apply IH.
Qed.

(** ** Counting *)

(** A loop's count only grows. *)
Lemma mm_loop_count_ge op child m n l v k :
  mm_loop op child m n l = Ok (v, k) -> (n <= k)%nat.
Proof.
  revert m n. induction l as [|a l IH]; simpl; intros m n Hl.
  - injection Hl as _ <-. lia.
  - inv_ok. pose proof (IH _ _ Hl). lia.
Qed.

(** An alpha-beta loop, which visits a prefix of the actions, counts no
    more than the minimax loop over all of them when each child does. *)
Lemma ab_max_loop_le child_ab child_mm beta m alpha n l op m' n' v k v' k' :
  (forall alpha a x c x' c', In a l -> child_ab alpha a = Ok (x, c) ->
     child_mm a = Ok (x', c') -> (c <= c')%nat) ->
  ab_max_loop child_ab beta m alpha n l = Ok (v, k) ->
  mm_loop op child_mm m' n' l = Ok (v', k') -> (n <= n')%nat -> (k <= k')%nat.
Proof.
  revert m alpha n m' n'. induction l as [|a l IH]; simpl; intros m alpha n m' n' Hc Hab Hmm Hn.
  - injection Hab as _ <-. injection Hmm as _ <-. exact Hn.
  - apply bind_eq_Ok in Hab as ([x c] & Ha & Hab).
    apply bind_eq_Ok in Hmm as ([x' c'] & Hm & Hmm).
    pose proof (Hc alpha a x c x' c' (or_introl eq_refl) Ha Hm). simpl in *.
    destruct (Qltb _ _).
    + injection Hab as _ <-. pose proof (mm_loop_count_ge _ _ _ _ _ _ _ Hmm). lia.
    + refine (IH _ _ _ _ _ _ Hab Hmm _); [|lia].
      intros; eapply Hc; eauto; right; assumption.
Qed.

Lemma ab_min_loop_le child_ab child_mm alpha m beta n l op m' n' v k v' k' :
  (forall beta a x c x' c', In a l -> child_ab beta a = Ok (x, c) ->
     child_mm a = Ok (x', c') -> (c <= c')%nat) ->
  ab_min_loop child_ab alpha m beta n l = Ok (v, k) ->
  mm_loop op child_mm m' n' l = Ok (v', k') -> (n <= n')%nat -> (k <= k')%nat.
Proof.
  revert m beta n m' n'. induction l as [|a l IH]; simpl; intros m beta n m' n' Hc Hab Hmm Hn.
  - injection Hab as _ <-. injection Hmm as _ <-. exact Hn.
  - apply bind_eq_Ok in Hab as ([x c] & Ha & Hab).
    apply bind_eq_Ok in Hmm as ([x' c'] & Hm & Hmm).
    pose proof (Hc beta a x c x' c' (or_introl eq_refl) Ha Hm). simpl in *.
    destruct (Qltb _ _).
    + injection Hab as _ <-. pose proof (mm_loop_count_ge _ _ _ _ _ _ _ Hmm). lia.
    + refine (IH _ _ _ _ _ _ Hab Hmm _); [|lia].
      intros; eapply Hc; eauto; right; assumption.
Qed.

(** The evaluations of the pruned search against minimax's, by induction
    on the fuel. *)
Lemma evaluations_le fuel : forall gameState depth alpha beta agentIndex v n v' n',
  ab_count fuel gameState depth alpha beta agentIndex = Ok (v, n) ->
  mm_count fuel gameState depth agentIndex = Ok (v', n') -> (n <= n')%nat.
Proof.
  induction fuel as [|fuel IH]; intros s d alpha beta i v n v' n' Hab Hmm; [discriminate|].
  simpl in Hab, Hmm. destruct (_ || _ || _).
  - injection Hab as _ <-. injection Hmm as _ <-. lia.
  - destruct (i =? 0)%nat.
    + refine (ab_max_loop_le _ _ _ _ _ _ _ _ _ _ _ _ _ _ _ Hab Hmm (le_n 0)).
      intros al a x c x' c' _. apply IH.
    + refine (ab_min_loop_le _ _ _ _ _ _ _ _ _ _ _ _ _ _ _ Hab Hmm (le_n 0)).
      intros be a x c x' c' _. simpl. destruct (i =? _)%nat; apply IH.
Qed.

(** C11: alpha-beta evaluates no more nodes than minimax: whatever the
    window, a call of the pruned search makes at most as many calls of
    the evaluation function as the same call of minimax. *)
Theorem ab_count_le fuel : forall gameState depth alpha beta agentIndex v n v' n',
  ab_count fuel gameState depth alpha beta agentIndex = Ok (v, n) ->
  mm_count fuel gameState depth agentIndex = Ok (v', n') -> (n <= n')%nat.
Proof. exact (evaluations_le fuel). Qed.

(** ** The root *)

Lemma mm_root_value fuel gameState best n l :
  value_of (mm_root fuel gameState best n l)
  = MinimaxAgent.root_loop evaluationFunction self_depth fuel gameState best l.
Proof.
  revert best n. induction l as [|a l IH]; intros best n; [reflexivity|]. simpl.
  rewrite <- mm_count_value. destruct (mm_count _ _ _ _) as [[x c]|e]; simpl; [apply IH|reflexivity].
Qed.

Lemma ab_root_value fuel gameState best alpha beta n l :
  value_of (ab_root fuel gameState best alpha beta n l)
  = AlphaBetaAgent.root_loop evaluationFunction self_depth fuel gameState best alpha beta l.
Proof.
  revert best alpha n. induction l as [|a l IH]; intros best alpha n; [reflexivity|]. simpl.
  rewrite <- ab_count_value. destruct (ab_count _ _ _ _ _ _) as [[x c]|e]; simpl; [|reflexivity].
  destruct (Qltb beta x); [reflexivity|apply IH].
Qed.

Lemma mm_root_count_ge fuel gameState best n l b k :
  mm_root fuel gameState best n l = Ok (b, k) -> (n <= k)%nat.
Proof.
  revert best n. induction l as [|a l IH]; simpl; intros best n Hl.
  - injection Hl as _ <-. lia.
  - inv_ok. pose proof (IH _ _ Hl). lia.
Qed.

Lemma ab_root_le fuel gameState best alpha beta n l best' n' b k b' k' :
  ab_root fuel gameState best alpha beta n l = Ok (b, k) ->
  mm_root fuel gameState best' n' l = Ok (b', k') -> (n <= n')%nat -> (k <= k')%nat.
Proof.
  revert best alpha n best' n'.
  induction l as [|a l IH]; simpl; intros best alpha n best' n' Hab Hmm Hn.
  - injection Hab as _ <-. injection Hmm as _ <-. exact Hn.
  - apply bind_eq_Ok in Hab as ([x c] & Ha & Hab).
    apply bind_eq_Ok in Hmm as ([x' c'] & Hm & Hmm).
    pose proof (evaluations_le _ _ _ _ _ _ _ _ _ _ Ha Hm). simpl in *.
    destruct (Qltb beta x).
    + injection Hab as _ <-. pose proof (mm_root_count_ge _ _ _ _ _ _ _ Hmm). lia.
    + refine (IH _ _ _ _ _ Hab Hmm _). lia.
Qed.

(** C10: a whole [AlphaBetaAgent.getAction] evaluates no more nodes than
    the [MinimaxAgent.getAction] of the same configuration on the same
    state (spec, section 8), and the counted root loops end on the
    models' results. *)
Theorem alphabeta_fewer_evaluations fuel gameState r n r' n' :
  ab_getAction_count fuel gameState = Ok (r, n) ->
  mm_getAction_count fuel gameState = Ok (r', n') ->
  (n <= n')%nat /\
  AlphaBetaAgent.root_search evaluationFunction self_depth fuel gameState = Ok r /\
  MinimaxAgent.root_search evaluationFunction self_depth fuel gameState = Ok r'.
Proof.
  unfold ab_getAction_count, mm_getAction_count. intros Hab Hmm.
  split; [exact (ab_root_le _ _ _ _ _ _ _ _ _ _ _ _ _ Hab Hmm (le_n 0))|].
  unfold AlphaBetaAgent.root_search, MinimaxAgent.root_search.
  rewrite <- (ab_root_value fuel gameState _ _ _ 0), <- (mm_root_value fuel gameState _ 0),
    Hab, Hmm. split; reflexivity.
Qed.

End Count.

End NodeCount.

Lemma ab_count_le_witness :
  NodeCount.ab_count gt_eval 1 3 (nth 1 (gt_kids example_tree) example_tree) 0 3 9999999 1
    = Ok (2, 1%nat) /\
  NodeCount.mm_count gt_eval 1 3 (nth 1 (gt_kids example_tree) example_tree) 0 1
    = Ok (2, 3%nat) /\ (1 <= 3)%nat.
Proof.
  assert (H1 : NodeCount.ab_count gt_eval 1 3 (nth 1 (gt_kids example_tree) example_tree)
                 0 3 9999999 1 = Ok (2, 1%nat)) by (vm_compute; reflexivity).
  assert (H2 : NodeCount.mm_count gt_eval 1 3 (nth 1 (gt_kids example_tree) example_tree)
                 0 1 = Ok (2, 3%nat)) by (vm_compute; reflexivity).
  split; [exact H1|]. split; [exact H2|].
  exact (NodeCount.ab_count_le gt_eval 1 3 _ _ _ _ _ _ _ _ _ H1 H2).
Defined.

Lemma alphabeta_fewer_evaluations_witness :
  NodeCount.ab_getAction_count gt_eval 1 3 example_tree = Ok (3, Some 0%nat, 7%nat) /\
  NodeCount.mm_getAction_count gt_eval 1 3 example_tree = Ok (3, Some 0%nat, 9%nat) /\
  (7 <= 9)%nat.
Proof.
  assert (H1 : NodeCount.ab_getAction_count gt_eval 1 3 example_tree
                 = Ok (3, Some 0%nat, 7%nat)) by (vm_compute; reflexivity).
  assert (H2 : NodeCount.mm_getAction_count gt_eval 1 3 example_tree
                 = Ok (3, Some 0%nat, 9%nat)) by (vm_compute; reflexivity).
  split; [exact H1|]. split; [exact H2|].
  exact (proj1 (NodeCount.alphabeta_fewer_evaluations gt_eval 1 3 example_tree _ _ _ _ H1 H2)).
Defined.
