(* ===== verification/Calls.v ===== *)
(** The calls the minimax and alpha-beta searches make (lines 155-185 and
    200-241), as a step relation on the arguments [(gameState, depth,
    agentIndex)] of [minimax]: a call that is not cut off calls [minimax]
    on the successor of every legal action, with the depth and agent of
    the next turn.  The theorems: the relation is the recursion of
    [MinimaxAgent.minimax] (a node's value bounds its children's); every
    call reached from the root has an agent index below
    [getNumAgents()] and a depth between [0] and [self.depth]; each call
    is one turn further than its caller, the depth advancing exactly after
    the last ghost; chains of nested calls are shorter than
    [self.depth * getNumAgents()], so none is infinite. *)

From Stdlib Require Import QArith Lqa ZArith Lia List Bool.
From S2P Require Import Prelude GameState Games Minimax AlphaBeta.
Import ListNotations.

Module Calls.

Section Calls.

Context {GS A : Type} `{GameState GS A}.

Variable self_depth : Z.

(** The arguments of a call [minimax(gameState, depth, agentIndex)]. *)
Record call : Type := mkCall {
  c_state : GS;
  c_depth : Z;
  c_agent : nat
}.

(** Lines 156 and 201: [isWin() or isLose() or depth == self.depth]. *)
Definition cutoff (c : call) : bool :=
  isWin (c_state c) || isLose (c_state c) || (c_depth c =? self_depth)%Z.

(** Lines 162 and 170-173 (208 and 219-222): the depth and agent of the
    calls made once [agentIndex] has moved. *)
Definition next_turn (gameState : GS) (depth : Z) (agentIndex : nat) : Z * nat :=
  if (agentIndex =? 0)%nat then (depth, 1%nat)
  else if (agentIndex =? getNumAgents gameState - 1)%nat then ((depth + 1)%Z, 0%nat)
  else (depth, (agentIndex + 1)%nat).

(** Lines 161-162 and 169-173: the call made for one legal action. *)
Definition child (c : call) (action : A) : call :=
  let nextState := generateSuccessor (c_state c) (c_agent c) action in
  let '(d, i) := next_turn (c_state c) (c_depth c) (c_agent c) in
  mkCall nextState d i.

Inductive step (c : call) : call -> Prop :=
| step_child action :
    cutoff c = false -> In action (getLegalActions (c_state c) (c_agent c)) ->
    step c (child c action).

(** Lines 180-182: the root calls [minimax(nextState, 0, 1)] on the
    successor of each of Pacman's legal actions. *)
Definition root_call (root : GS) (action : A) : call :=
  mkCall (generateSuccessor root 0 action) 0 1.

Inductive reachable (root : GS) : call -> Prop :=
| reach_root action :
    In action (getLegalActions root 0) -> reachable root (root_call root action)
| reach_step c c' : reachable root c -> step c c' -> reachable root c'.

(** [n] nested calls. *)
Inductive steps : nat -> call -> call -> Prop :=
| steps_refl c : steps 0 c c
| steps_cons n c c' c'' : step c c' -> steps n c' c'' -> steps (S n) c c''.

(** The turns left before the ply bound: [(self.depth - depth) *
    getNumAgents() - agentIndex]. *)
Definition turns_left (N : nat) (c : call) : Z :=
  ((self_depth - c_depth c) * Z.of_nat N - Z.of_nat (c_agent c))%Z.

(** ** Lemmas *)

Lemma step_inv c c' :
  step c c' ->
  exists action, cutoff c = false /\
    In action (getLegalActions (c_state c) (c_agent c)) /\ c' = child c action.
Proof. intros [action Hc Ha]. eauto. Qed.

Lemma child_fields c action :
  c_state (child c action) = generateSuccessor (c_state c) (c_agent c) action /\
  (c_depth (child c action), c_agent (child c action))
    = next_turn (c_state c) (c_depth c) (c_agent c).
Proof.
  unfold child. destruct (next_turn _ _ _) as [d i]. split; reflexivity.
Qed.

Lemma next_turn_cases gameState depth agentIndex :
  let N := getNumAgents gameState in
  (agentIndex = 0%nat /\ next_turn gameState depth agentIndex = (depth, 1%nat)) \/
  (agentIndex <> 0%nat /\ agentIndex = (N - 1)%nat /\
     next_turn gameState depth agentIndex = ((depth + 1)%Z, 0%nat)) \/
  (agentIndex <> 0%nat /\ agentIndex <> (N - 1)%nat /\
     next_turn gameState depth agentIndex = (depth, (agentIndex + 1)%nat)).
Proof.
  unfold next_turn. destruct (Nat.eqb_spec agentIndex 0); [left; auto|right].
  destruct (Nat.eqb_spec agentIndex (getNumAgents gameState - 1)); auto.
Qed.

Lemma cutoff_false_depth c :
  cutoff c = false -> c_depth c <> self_depth.
Proof. unfold cutoff. rewrite !orb_false_iff, Z.eqb_neq. tauto. Qed.

(** A step, in terms of the fields of the two calls. *)
Ltac step_fields Hs :=
  let action := fresh "action" in
  let Hcut := fresh "Hcut" in
  let Ha := fresh "Ha" in
  let Hst := fresh "Hst" in
  let Hdi := fresh "Hdi" in
  lazymatch type of Hs with
  | step ?c _ =>
      destruct (step_inv _ _ Hs) as (action & Hcut & Ha & ->);
      destruct (child_fields c action) as [Hst Hdi];
      pose proof (cutoff_false_depth _ Hcut)
  end.

(** The call made for an action, once the turn is known. *)
Lemma child_eq s d i action d' i' :
  next_turn s d i = (d', i') ->
  child (mkCall s d i) action = mkCall (generateSuccessor s i action) d' i'.
Proof. intros E. unfold child. simpl. rewrite E. reflexivity. Qed.

(** ** The relation is the recursion of [minimax] *)

(** C12: the calls of the step relation are the calls [minimax] makes: when
    a call returns [v], each of its steps returned, at most [v] for
    Pacman (a maximum) and at least [v] for a ghost (a minimum). *)
Theorem minimax_calls (f : GS -> Q) fuel c c' v :
  MinimaxAgent.minimax f self_depth (S fuel) (c_state c) (c_depth c) (c_agent c) = Ok v ->
  step c c' ->
  exists v', MinimaxAgent.minimax f self_depth fuel (c_state c') (c_depth c') (c_agent c') = Ok v' /\
    (c_agent c = 0%nat -> v' <= v) /\ (c_agent c <> 0%nat -> v <= v').
Proof.
  intros Hv Hs. destruct (step_inv _ _ Hs) as (action & Hcut & Ha & ->).
  destruct c as [s d i]. unfold cutoff in Hcut. simpl in *. rewrite Hcut in Hv.
  destruct (next_turn_cases s d i) as [(-> & E)|[(Hi0 & HiN & E)|(Hi0 & HiN & E)]];
    rewrite (child_eq _ _ _ _ _ _ E); simpl.
  - destruct (MinimaxAgent.max_loop_child_ok _ _ _ _ action Hv Ha) as [v' Hc].
    exists v'. split; [exact Hc|]. split; [|congruence].
    intros _. exact (MinimaxAgent.max_loop_ge_child _ _ _ _ _ _ Hv Ha Hc).
  - apply Nat.eqb_neq in Hi0. rewrite Hi0 in Hv.
    destruct (MinimaxAgent.min_loop_child_ok _ _ _ _ action Hv Ha) as [v' Hc].
    pose proof (MinimaxAgent.min_loop_le_child _ _ _ _ _ _ Hv Ha Hc) as Hle.
    cbv beta in Hc. rewrite HiN, Nat.eqb_refl in Hc. rewrite <- HiN in Hc.
    exists v'. split; [exact Hc|]. split; [intros; apply Nat.eqb_neq in Hi0; congruence|].
    intros _. exact Hle.
  - apply Nat.eqb_neq in Hi0. rewrite Hi0 in Hv.
    destruct (MinimaxAgent.min_loop_child_ok _ _ _ _ action Hv Ha) as [v' Hc].
    pose proof (MinimaxAgent.min_loop_le_child _ _ _ _ _ _ Hv Ha Hc) as Hle.
    cbv beta in Hc. apply Nat.eqb_neq in HiN. rewrite HiN in Hc.
    exists v'. split; [exact Hc|]. split; [intros; apply Nat.eqb_neq in Hi0; congruence|].
    intros _. exact Hle.
Qed.

(** ** The turn order *)

(** Each step is one turn: [(self.depth - depth) * N - agentIndex] goes
    down by one. *)
Lemma step_turns_left c c' :
  step c c' ->
  turns_left (getNumAgents (c_state c)) c'
    = (turns_left (getNumAgents (c_state c)) c - 1)%Z.
Proof.
  intros Hs. step_fields Hs. unfold turns_left.
  destruct (next_turn_cases (c_state c) (c_depth c) (c_agent c))
    as [(Hi & E)|[(Hi0 & HiN & E)|(Hi0 & HiN & E)]];
    rewrite E in Hdi; injection Hdi as -> ->; [rewrite Hi; lia|nia|lia].
Qed.


Section Invariant.

(** The number of agents never changes during a game. *)
Hypothesis Hconst :
  forall s i a, getNumAgents (generateSuccessor s i a) = getNumAgents s.

(** The invariant of the reachable calls, by induction on reachability. *)
Lemma reachable_inv root c :
  (1 <= self_depth)%Z -> (2 <= getNumAgents root)%nat -> reachable root c ->
  getNumAgents (c_state c) = getNumAgents root /\
  (c_agent c < getNumAgents root)%nat /\ (0 <= c_depth c)%Z /\
  ((c_depth c < self_depth)%Z \/ (c_depth c = self_depth /\ c_agent c = 0%nat)).
Proof.
  intros HD HN Hr. induction Hr as [action Ha|c c' Hr IH Hs].
  - simpl. rewrite Hconst. lia.
  - destruct IH as (HNc & Hi & Hd0 & Hd). step_fields Hs. rewrite Hst, Hconst.
    destruct (next_turn_cases (c_state c) (c_depth c) (c_agent c))
      as [(Hi' & E)|[(Hi0 & HiN & E)|(Hi0 & HiN & E)]];
      rewrite E in Hdi; injection Hdi as -> ->; lia.
Qed.

(** C7: with a ply bound of at least 1 and at least two agents, every call
    the search makes from the root sees the root's number of agents, asks
    for the moves of an agent that exists ([agentIndex <
    getNumAgents()]), and has a depth from [0] to [self.depth], reaching
    [self.depth] only at Pacman's turn. *)
Theorem reachable_invariant root c :
  (1 <= self_depth)%Z -> (2 <= getNumAgents root)%nat -> reachable root c ->
  getNumAgents (c_state c) = getNumAgents root /\
  (c_agent c < getNumAgents root)%nat /\ (0 <= c_depth c)%Z /\
  ((c_depth c < self_depth)%Z \/ (c_depth c = self_depth /\ c_agent c = 0%nat)).
Proof. exact (reachable_inv root c). Qed.

(** Along [n] nested calls from a reachable call, the turns left go down
    by [n] and every call is reachable. *)
Lemma steps_turns root n c c' :
  reachable root c -> steps n c c' ->
  reachable root c' /\
  getNumAgents (c_state c') = getNumAgents (c_state c) /\
  turns_left (getNumAgents (c_state c)) c'
    = (turns_left (getNumAgents (c_state c)) c - Z.of_nat n)%Z.
Proof.
  intros Hr Hn. induction Hn as [c|n c c' c'' Hs Hn IH]; [split; [exact Hr|]; split; [reflexivity|lia]|].
  pose proof (step_turns_left _ _ Hs) as Ht.
  assert (HN : getNumAgents (c_state c') = getNumAgents (c_state c))
    by (step_fields Hs; rewrite Hst; apply Hconst).
  destruct (IH (reach_step _ _ _ Hr Hs)) as (Hr'' & HN'' & Ht'').
  rewrite HN in HN'', Ht''. split; [exact Hr''|]. split; [exact HN''|]. lia.
Qed.

(** A reachable call has turns left, none when at the ply bound. *)
Lemma reachable_turns_nonneg root c :
  (1 <= self_depth)%Z -> (2 <= getNumAgents root)%nat -> reachable root c ->
  (0 <= turns_left (getNumAgents root) c)%Z.
Proof.
  intros HD HN Hr. destruct (reachable_inv root c HD HN Hr) as (_ & Hi & _ & Hd).
  unfold turns_left. destruct Hd as [Hd|[-> ->]]; nia.
Qed.

(** C13: the recursion depth is bounded by the ply bound times the number
    of agents (spec, section 5): below a root call there are fewer than
    [self.depth * getNumAgents()] nested calls. *)
Theorem nested_calls_bound root action c n :
  (1 <= self_depth)%Z -> (2 <= getNumAgents root)%nat ->
  In action (getLegalActions root 0) ->
  steps n (root_call root action) c ->
  (Z.of_nat n < self_depth * Z.of_nat (getNumAgents root))%Z.
Proof.
  intros HD HN Ha Hn.
  pose proof (reach_root root action Ha) as Hr.
  destruct (steps_turns root n _ c Hr Hn) as (Hrc & _ & Ht).
  pose proof (reachable_turns_nonneg root c HD HN Hrc) as Hnn.
  simpl in Ht. rewrite Hconst in Ht. unfold turns_left in Ht, Hnn. simpl in Ht. lia.
Qed.

End Invariant.

End Calls.

(** ** Witnesses *)

Lemma example_tree_reachable : reachable 1 example_tree (root_call example_tree 0%nat).
Proof. apply reach_root. left. reflexivity. Qed.

Lemma example_tree_step :
  step 1 (root_call example_tree 0%nat) (child (root_call example_tree 0%nat) 1%nat).
Proof. constructor; [reflexivity|right; left; reflexivity]. Qed.

Lemma reachable_invariant_witness :
  let c := child (root_call example_tree 0%nat) 1%nat in
  (c_agent c < 2)%nat /\ (0 <= c_depth c)%Z /\
  ((c_depth c < 1)%Z \/ (c_depth c = 1%Z /\ c_agent c = 0%nat)).
Proof.
  destruct (reachable_invariant 1 (fun s i a => tree_game_numAgents s i a) example_tree
              (child (root_call example_tree 0%nat) 1%nat))
    as (_ & Hi & Hd); [lia|simpl; lia|
                       exact (reach_step _ _ _ _ example_tree_reachable example_tree_step)|].
  exact (conj Hi Hd).
Defined.

Lemma nested_calls_bound_witness :
  (Z.of_nat 1 < 1 * Z.of_nat (getNumAgents example_tree))%Z.
Proof.
  apply (nested_calls_bound 1 (fun s i a => tree_game_numAgents s i a) example_tree 0%nat
           (child (root_call example_tree 0%nat) 1%nat) 1); [lia|simpl; lia|left; reflexivity|].
  econstructor; [exact example_tree_step|constructor].
Defined.


Lemma minimax_calls_witness :
  exists v', MinimaxAgent.minimax gt_eval 1 2
    (c_state (child (root_call example_tree 0%nat) 1%nat))
    (c_depth (child (root_call example_tree 0%nat) 1%nat))
    (c_agent (child (root_call example_tree 0%nat) 1%nat)) = Ok v' /\ v' == 12 /\ 3 <= v'.
Proof.
  assert (Hv : MinimaxAgent.minimax gt_eval 1 3
                 (c_state (root_call example_tree 0%nat)) 0 1 = Ok 3)
    by (vm_compute; reflexivity).
  destruct (minimax_calls 1 gt_eval 2 (root_call example_tree 0%nat) _ 3 Hv example_tree_step)
    as (v' & Hc & _ & Hle).
  exists v'. vm_compute in Hc. injection Hc as <-. split; [reflexivity|].
  split; [reflexivity|apply Hle; discriminate].
Defined.

End Calls.
