(* ===== verification/Expectimax.v ===== *)
(** [ExpectimaxAgent] of [src/multiAgents.py] (lines 246-290): the methods
    [Max_Value] and [Min_Value], mutually recursive, and [getAction]'s root
    loop.  Ghosts are chance nodes valued at the mean of their successors.
    Unlike [MinimaxAgent], the recursion never tests [isWin]/[isLose], and
    [Min_Value] never tests the depth: it stops only where an agent has no
    legal action or where [Max_Value] meets [self.depth].  The theorems show
    that it terminates for [self.depth >= 1], that it does not for
    [self.depth = 0] in a game that does not end, compare its values
    with [MinimaxAgent]'s (never below them when the evaluations are
    integers, as game scores are, float rounding of the mean included),
    and describe the root's answer: an action whenever Pacman has one. *)

From Stdlib Require Import QArith Lqa List ZArith Lia Bool.
From S2P Require Import Prelude PyFloat GameState Games Minimax AlphaBeta.
Import ListNotations.
Open Scope Q_scope.
Open Scope pacman_scope.

Module ExpectimaxAgent.

Section Expectimax.

Context {GS A : Type} `{GameState GS A}.

Variable evaluationFunction : GS -> Q.
Variable self_depth : Z.

(** [sum(values) / float(num_actions)] on Python floats: the sum rounds
    each addition and the quotient is rounded ([float(num_actions)] is
    exact). *)
Definition mean (values : list Q) (num_actions : nat) : Q :=
  float_div (float_sum values) (inject_Z (Z.of_nat num_actions)).

(** Lines 270-276: [Max_Value(gameState, depth)]; lines 278-290:
    [Min_Value(gameState, agentIndex, depth)].  Each list comprehension
    calls the other method (or itself) on every successor, then takes
    [max] of the list, or its [sum] divided by the number of actions. *)
Fixpoint Max_Value (fuel : nat) (gameState : GS) (depth : Z) {struct fuel}
  : result Q :=
  match fuel with
  | O => Err OutOfFuel
  | S fuel =>
      if (depth =? self_depth)%Z
         || (length (getLegalActions gameState 0) =? 0)%nat then
        Ok (evaluationFunction gameState)
      else
        values <- map_result
                    (fun action =>
                       Min_Value fuel (generateSuccessor gameState 0 action) 1 depth)
                    (getLegalActions gameState 0);;
        py_max_list values
  end
with Min_Value (fuel : nat) (gameState : GS) (agentIndex : nat) (depth : Z)
  {struct fuel} : result Q :=
  match fuel with
  | O => Err OutOfFuel
  | S fuel =>
      let num_actions := length (getLegalActions gameState agentIndex) in
      if (num_actions =? 0)%nat then Ok (evaluationFunction gameState)
      else if (agentIndex <? getNumAgents gameState - 1)%nat then
        values <- map_result
                    (fun action =>
                       Min_Value fuel (generateSuccessor gameState agentIndex action)
                         (agentIndex + 1) depth)
                    (getLegalActions gameState agentIndex);;
        Ok (mean values num_actions)
      else
        values <- map_result
                    (fun action =>
                       Max_Value fuel (generateSuccessor gameState agentIndex action)
                         (depth + 1))
                    (getLegalActions gameState agentIndex);;
        Ok (mean values num_actions)
  end.

(** Lines 263-267: the root loop; [max_value] starts at [float('-inf')]
    and an action replaces the best one only when its value is greater. *)
Fixpoint root_loop (fuel : nat) (gameState : GS) (best : xreal * option A)
  (actions : list A) : result (xreal * option A) :=
  match actions with
  | [] => Ok best
  | action :: rest =>
      action_value <- Min_Value fuel (generateSuccessor gameState 0 action) 1 0;;
      let best := if xltb (fst best) (Fin action_value)
                  then (Fin action_value, Some action) else best in
      root_loop fuel gameState best rest
  end.

(** Lines 259-267: [max_value = float('-inf')], [max_action = None]. *)
Definition root_search (fuel : nat) (gameState : GS) : result (xreal * option A) :=
  root_loop fuel gameState (NegInf, None) (getLegalActions gameState 0).

(** Lines 251-269: [getAction] returns [max_action]. *)
Definition getAction (fuel : nat) (gameState : GS) : result (option A) :=
  best <- root_search fuel gameState;; Ok (snd best).

(** Lines 286-290: the value of one action of a chance node, the element
    of the list comprehension: the next ghost's [Min_Value], or Pacman's
    [Max_Value] one ply deeper after the last ghost. *)
Definition chance_child (fuel : nat) (gameState : GS) (agentIndex : nat) (depth : Z)
  (action : A) : result Q :=
  if (agentIndex <? getNumAgents gameState - 1)%nat then
    Min_Value fuel (generateSuccessor gameState agentIndex action) (agentIndex + 1) depth
  else
    Max_Value fuel (generateSuccessor gameState agentIndex action) (depth + 1).

(** ** The root's choice *)

(** Once an action is kept, the root returns an action: that one or a
    later one of the loop. *)
Lemma root_loop_keeps_action fuel gameState l : forall x a0 v r',
  root_loop fuel gameState (x, Some a0) l = Ok (v, r') ->
  exists a, r' = Some a /\ (a = a0 \/ In a l).
Proof.
  induction l as [|a l IH]; simpl; intros x a0 v r' Hl.
  { injection Hl as _ <-. eauto. }
  inv_ok. destruct (xltb x (Fin v0));
    destruct (IH _ _ _ _ Hl) as (b & -> & [->|Hb]); eauto.
Qed.

(** From [float('-inf')], the first action's value is greater, so the root
    returns an action whenever Pacman has one. *)
Lemma root_search_action fuel gameState r :
  root_search fuel gameState = Ok r ->
  (snd r = None <-> getLegalActions gameState 0 = []) /\
  (forall a, snd r = Some a -> In a (getLegalActions gameState 0)).
Proof.
  unfold root_search. destruct (getLegalActions gameState 0) as [|a l]; simpl.
  - intros Hr. injection Hr as <-. simpl. split; [tauto|discriminate].
  - intros Hr. inv_ok. destruct r as [w r'].
    destruct (root_loop_keeps_action _ _ _ _ _ _ _ Hr) as (b & -> & Hb). simpl.
    split; [split; discriminate|]. intros c Hc. injection Hc as <-. destruct Hb as [->|Hb]; [left|right]; auto.
Qed.

(** ** Termination *)

Section Termination.

Hypothesis Hconst :
  forall s i a, getNumAgents (generateSuccessor s i a) = getNumAgents s.

(** Each method returns when its fuel exceeds the number of calls left
    before [Max_Value] meets [self.depth]: [(self.depth - depth) * N] for
    [Max_Value], [(self.depth - depth) * N - agentIndex] for
    [Min_Value]. *)
Lemma values_terminate :
  forall fuel,
  (forall gameState depth,
     (2 <= getNumAgents gameState)%nat -> (depth <= self_depth)%Z ->
     ((self_depth - depth) * Z.of_nat (getNumAgents gameState) < Z.of_nat fuel)%Z ->
     exists v, Max_Value fuel gameState depth = Ok v) /\
  (forall gameState agentIndex depth,
     (2 <= getNumAgents gameState)%nat ->
     (1 <= agentIndex < getNumAgents gameState)%nat -> (depth < self_depth)%Z ->
     ((self_depth - depth) * Z.of_nat (getNumAgents gameState)
        - Z.of_nat agentIndex < Z.of_nat fuel)%Z ->
     exists v, Min_Value fuel gameState agentIndex depth = Ok v).
Proof.
  induction fuel as [|fuel [IHmax IHmin]]; split; intros; try nia; simpl.
  - destruct (_ || _) eqn:Hcut; [eauto|].
    rewrite orb_false_iff, Z.eqb_neq, Nat.eqb_neq in Hcut.
    destruct (map_result_total
                (fun action => Min_Value fuel (generateSuccessor gameState 0 action) 1 depth)
                (getLegalActions gameState 0)) as (vs & -> & Hlen).
    { intros a _. apply IHmin; rewrite ?Hconst; nia. }
    simpl. apply py_max_list_nonempty. intros ->. simpl in Hlen. lia.
  - destruct (length _ =? 0)%nat eqn:Hn; [eauto|].
    destruct (Nat.ltb_spec agentIndex (getNumAgents gameState - 1)).
    + destruct (map_result_total
                  (fun action => Min_Value fuel
                     (generateSuccessor gameState agentIndex action) (agentIndex + 1) depth)
                  (getLegalActions gameState agentIndex)) as (vs & -> & _).
      { intros a _. apply IHmin; rewrite ?Hconst; nia. }
      simpl. eauto.
    + destruct (map_result_total
                  (fun action => Max_Value fuel
                     (generateSuccessor gameState agentIndex action) (depth + 1))
                  (getLegalActions gameState agentIndex)) as (vs & -> & _).
      { intros a _. apply IHmax; rewrite ?Hconst; nia. }
      simpl. eauto.
Qed.

(** The root loop returns when every successor's value does. *)
Lemma root_loop_total fuel gameState best actions :
  (forall a, In a actions ->
     exists v, Min_Value fuel (generateSuccessor gameState 0 a) 1 0 = Ok v) ->
  exists r, root_loop fuel gameState best actions = Ok r.
Proof.
  revert best. induction actions as [|a l IH]; simpl; intros best Ha; [eauto|].
  destruct (Ha a (or_introl eq_refl)) as [v ->]. simpl. eauto.
Qed.

(** C6: with [self.depth >= 1], a constant number [N >= 2] of agents and
    fuel above [self.depth * N - 1], [ExpectimaxAgent.getAction] returns. *)
Theorem getAction_terminates (HD : (1 <= self_depth)%Z) fuel gameState :
  (2 <= getNumAgents gameState)%nat ->
  (self_depth * Z.of_nat (getNumAgents gameState) - 1 < Z.of_nat fuel)%Z ->
  exists r, getAction fuel gameState = Ok r.
Proof.
  intros HN Hf. unfold getAction, root_search.
  destruct (root_loop_total fuel gameState (NegInf, None) (getLegalActions gameState 0))
    as [r ->]; [|simpl; eauto].
  intros a _. apply (proj2 (values_terminate fuel)); rewrite ?Hconst; nia.
Qed.

End Termination.

(** ** Chance nodes against minimising nodes *)

(** A mean of [n > 0] values each at least an integer [m] is at least
    [m], while [n * |m| < 2^53]. *)
Lemma mean_ge_int (m : Z) (values : list Q) n :
  (forall x, In x values -> inject_Z m <= x) -> length values = n -> (0 < n)%nat ->
  (Z.of_nat n * Z.abs m < 2 ^ 53)%Z -> inject_Z m <= mean values n.
Proof.
  intros Hx <- Hn Hb. apply float_mean_ge; [|exact Hx|exact Hb].
  destruct values; simpl in Hn; [lia|discriminate].
Qed.

(** A Pacman node: minimax's running maximum from [M] stays below
    expectimax's [max] when every move does and [M] does. *)
Lemma max_node_le (cm : A -> result Q) (ce : A -> result Q) M l m values e :
  MinimaxAgent.max_loop cm M l = Ok m ->
  map_result ce l = Ok values -> py_max_list values = Ok e -> M <= e ->
  (forall a x y, In a l -> cm a = Ok x -> ce a = Ok y -> x <= y) ->
  m <= e.
Proof.
  intros Hm Hv He HM Hc.
  destruct (py_max_list_spec _ _ He) as [_ Hall].
  refine (MinimaxAgent.max_loop_preserves (fun q => q <= e) _ _ _ _ Hm HM _).
  intros a x Ha Hx. cbv beta.
  destruct (map_result_In _ _ _ _ Hv Ha) as (y & Hy & Hin).
  eapply Qle_trans; [exact (Hc a x y Ha Hx Hy) | exact (Hall y Hin)].
Qed.

(** A ghost node: minimax's minimum, an integer [z], stays below
    expectimax's mean when every move does. *)
Lemma min_node_le (cm : A -> result Q) (ce : A -> result Q) M l m values z :
  MinimaxAgent.min_loop cm M l = Ok m -> m == inject_Z z ->
  (Z.of_nat (length l) * Z.abs z < 2 ^ 53)%Z ->
  map_result ce l = Ok values -> l <> [] ->
  (forall a x y, In a l -> cm a = Ok x -> ce a = Ok y -> x <= y) ->
  m <= mean values (length l).
Proof.
  intros Hm Hz Hb Hv Hl Hc. rewrite Hz.
  apply mean_ge_int;
    [| exact (map_result_length _ _ _ Hv) | destruct l; simpl; [congruence|lia] | exact Hb].
  intros y Hy. rewrite <- Hz.
  destruct (map_result_In_inv _ _ _ _ Hv Hy) as (a & Ha & Hce).
  destruct (MinimaxAgent.min_loop_child_ok _ _ _ _ _ Hm Ha) as (x & Hcm).
  eapply Qle_trans; [exact (MinimaxAgent.min_loop_le_child _ _ _ _ _ _ Hm Ha Hcm)|].
  exact (Hc a x y Ha Hcm Hce).
Qed.

Section Dominance.

Context {WF : WellFormedGame GS A}.

(** The evaluations are integers within the sentinels, as the game
    scores of [scoreEvaluationFunction] are, and an agent has fewer than
    [2^53 / 9999999] moves (Pacman's agents have at most five): the float
    sums of a chance node then add integers exactly. *)
Hypothesis Hint : forall s,
  exists z, evaluationFunction s == inject_Z z /\ (-9999999 <= z <= 9999999)%Z.
Hypothesis Hbranch : forall s i,
  (Z.of_nat (length (getLegalActions s i)) * 9999999 < 2 ^ 53)%Z.

(** A number that is an integer within the sentinels. *)
Definition sentinel_int (q : Q) : Prop :=
  exists z, q == inject_Z z /\ (-9999999 <= z <= 9999999)%Z.

Lemma Hlow s : -9999999 <= evaluationFunction s.
Proof.
  destruct (Hint s) as (z & E & Hz). rewrite E.
  change (-9999999) with (inject_Z (-9999999)). rewrite <- Zle_Qle. lia.
Qed.

(** Every minimax value is such an integer: the evaluations are, and so
    are the loops' start values. *)
Lemma minimax_sentinel_int fuel s d i v :
  MinimaxAgent.minimax evaluationFunction self_depth fuel s d i = Ok v -> sentinel_int v.
Proof.
  apply MinimaxAgent.minimax_preserves; [exact Hint| |];
    eexists; (split; [reflexivity|lia]).
Qed.

(** With evaluations at least [-9999999], so are the values of both
    methods: [max] and the float mean of values at least the integer
    [-9999999] are. *)
Lemma values_lower :
  forall fuel,
  (forall gameState depth v, Max_Value fuel gameState depth = Ok v -> -9999999 <= v) /\
  (forall gameState agentIndex depth v,
     Min_Value fuel gameState agentIndex depth = Ok v -> -9999999 <= v).
Proof.
  induction fuel as [|fuel [IHmax IHmin]]; split; intros s; simpl;
    try discriminate.
  - intros d v Hv. destruct (_ || _); inv_ok; [apply Hlow|].
    destruct (py_max_list_spec _ _ Hv) as [Hin _].
    destruct (map_result_In_inv _ _ _ _ Hm Hin) as (a & _ & Ha). eauto.
  - intros i d v Hv. destruct (length _ =? 0)%nat eqn:Hn; inv_ok; [apply Hlow|].
    apply Nat.eqb_neq in Hn.
    destruct (_ <? _)%nat; inv_ok;
      (apply (mean_ge_int (-9999999));
         [ | eapply map_result_length; eassumption | lia | apply (Hbranch s i) ]);
      intros y Hy; destruct (map_result_In_inv _ _ _ _ Hm Hy) as (a & _ & Ha); eauto.
Qed.

(** C5: in a game that follows the simulator's laws, with evaluations
    that are integers within the sentinels (the game scores of the
    default [scoreEvaluationFunction]) and fewer than [2^53 / 9999999]
    moves per agent, the expectimax value of every node below the ply
    bound is at least its minimax value, at Pacman's nodes and at the
    ghosts', although each chance node rounds its float sum and quotient:
    averaging over a ghost's moves is never more pessimistic than assuming
    the worst one.  (With fractional evaluations the rounding can make a
    mean fall below the least value, see [rounded_mean_below_min].) *)
Theorem minimax_le_expectimax :
  forall fuelE,
  (forall fuelM gameState depth m e,
     (depth <= self_depth)%Z -> (2 <= getNumAgents gameState)%nat ->
     MinimaxAgent.minimax evaluationFunction self_depth fuelM gameState depth 0 = Ok m ->
     Max_Value fuelE gameState depth = Ok e -> m <= e) /\
  (forall fuelM gameState agentIndex depth m e,
     (depth < self_depth)%Z -> (1 <= agentIndex < getNumAgents gameState)%nat ->
     MinimaxAgent.minimax evaluationFunction self_depth fuelM gameState depth agentIndex
       = Ok m ->
     Min_Value fuelE gameState agentIndex depth = Ok e -> m <= e).
Proof.
  induction fuelE as [|fE [IHmax IHmin]]; split;
    intros [|fM] s; simpl; try discriminate.
  - intros d m e Hd HN Hm He.
    destruct (Z.eqb_spec d self_depth) as [->|Hne].
    { rewrite orb_true_r in Hm. rewrite orb_true_l in He. inv_ok. apply Qle_refl. }
    rewrite orb_false_r in Hm. simpl in He.
    pose proof (legal_nil_iff_over s 0 ltac:(lia)) as Hlaw.
    destruct (isWin s || isLose s) eqn:HT.
    { rewrite (proj2 Hlaw eq_refl) in He. simpl in *. inv_ok. apply Qle_refl. }
    assert (Hne0 : getLegalActions s 0 <> []) by (intros E; now apply Hlaw in E).
    rewrite (length_eqb_0_nonempty _ Hne0) in He. inv_ok.
    eapply max_node_le; [exact Hm | eassumption | eassumption | |].
    + destruct (py_max_list_spec _ _ He) as [Hin _].
      destruct (map_result_In_inv _ _ _ _ Hm0 Hin) as (a & _ & Ha).
      exact (proj2 (values_lower fE) _ _ _ _ Ha).
    + intros a x y _ Hx Hy. eapply IHmin; [ | | exact Hx | exact Hy ];
        rewrite ?numAgents_successor; lia.
  - intros i d m e Hd Hi Hm He.
    replace (d =? self_depth)%Z with false in Hm by (symmetry; apply Z.eqb_neq; lia).
    replace (i =? 0)%nat with false in Hm by (symmetry; apply Nat.eqb_neq; lia).
    rewrite orb_false_r in Hm.
    pose proof (legal_nil_iff_over s i ltac:(lia)) as Hlaw.
    destruct (isWin s || isLose s) eqn:HT.
    { rewrite (proj2 Hlaw eq_refl) in He. simpl in *. inv_ok. apply Qle_refl. }
    assert (Hne : getLegalActions s i <> []) by (intros E; now apply Hlaw in E).
    rewrite (length_eqb_0_nonempty _ Hne) in He.
    assert (Hz : sentinel_int m).
    { refine (MinimaxAgent.min_loop_preserves sentinel_int _ _ _ _ Hm _ _);
        [exists 9999999%Z; split; [reflexivity|lia]|].
      intros a w _ Hw. cbv beta in Hw.
      destruct (_ =? _)%nat; eapply minimax_sentinel_int; exact Hw. }
    destruct Hz as (z & Ez & Hzb).
    assert (Hb : (Z.of_nat (length (getLegalActions s i)) * Z.abs z < 2 ^ 53)%Z)
      by (pose proof (Hbranch s i); nia).
    destruct (Nat.ltb_spec i (getNumAgents s - 1)); inv_ok;
      (eapply (min_node_le _ _ _ _ _ _ z);
         [exact Hm | exact Ez | exact Hb | eassumption | exact Hne |]);
      intros a x y _ Hx Hy; cbv beta in Hx.
    + replace (i =? getNumAgents s - 1)%nat with false in Hx
        by (symmetry; apply Nat.eqb_neq; lia).
      eapply IHmin; [ | | exact Hx | exact Hy ]; rewrite ?numAgents_successor; lia.
    + replace (i =? getNumAgents s - 1)%nat with true in Hx
        by (symmetry; apply Nat.eqb_eq; lia).
      eapply IHmax; [ | | exact Hx | exact Hy ]; rewrite ?numAgents_successor; lia.
Qed.

End Dominance.

End Expectimax.

End ExpectimaxAgent.

(** ** Depth zero: the recursion does not stop

    [Max_Value] stops on depth only when [depth == self.depth], and the
    root calls it first with depth 1: with [self.depth <= 0] the depth
    never matches, and the search runs until the game offers no move. *)

Lemma endless_out_of_fuel (evaluationFunction : nat -> Q) (D : Z) :
  forall fuel,
  (forall n d, (D < d)%Z ->
     ExpectimaxAgent.Max_Value evaluationFunction D fuel n d = Err OutOfFuel) /\
  (forall n i d, (D <= d)%Z ->
     ExpectimaxAgent.Min_Value evaluationFunction D fuel n i d = Err OutOfFuel).
Proof.
  induction fuel as [|fuel [IHmax IHmin]]; split; intros; simpl; try reflexivity.
  - replace (d =? D)%Z with false by (symmetry; apply Z.eqb_neq; lia).
    simpl. rewrite IHmin by lia. reflexivity.
  - destruct (i <? 1)%nat; [rewrite IHmin by lia | rewrite IHmax by lia]; reflexivity.
Qed.

(** C17: in a game that never ends, [ExpectimaxAgent.getAction] configured
    with a depth [<= 0] runs out of any fuel: it does not terminate, where
    [MinimaxAgent] at depth 0 makes the one-ply decision. *)
Theorem getAction_depth0_diverges (evaluationFunction : nat -> Q) (D : Z)
  (HD : (D <= 0)%Z) fuel n :
  ExpectimaxAgent.getAction evaluationFunction D fuel n = Err OutOfFuel.
Proof.
  unfold ExpectimaxAgent.getAction, ExpectimaxAgent.root_search. simpl.
  rewrite (proj2 (endless_out_of_fuel evaluationFunction D fuel)) by lia.
  reflexivity.
Qed.

Lemma getAction_depth0_diverges_witness :
  ExpectimaxAgent.getAction (fun _ => 0) 0 1000 0%nat = Err OutOfFuel.
Proof. apply (getAction_depth0_diverges (fun _ => 0) 0 ltac:(lia) 1000 0). Defined.

Lemma getAction_terminates_witness :
  exists r, ExpectimaxAgent.getAction gt_eval 1 3 example_tree = Ok r.
Proof.
  apply (ExpectimaxAgent.getAction_terminates gt_eval 1 tree_game_numAgents);
    vm_compute; try reflexivity; try discriminate.
Defined.

(** On the textbook tree the ghost nodes are worth the means
    [23/3], [4] and [7] of their leaves, and expectimax takes the first. *)
Example example_tree_expectimax :
  ExpectimaxAgent.root_search gt_eval 1 3 example_tree = Ok (Fin (float_div 23 3), Some 0%nat).
Proof. vm_compute. reflexivity. Qed.

(** Where a ghost's moves are not all equal, averaging and minimising
    can choose differently: on [risky_tree] minimax keeps the safe first
    move (worth 3 against 2) and expectimax the second (worth 202/3
    against 3). *)
Example risky_tree_decisions :
  MinimaxAgent.getAction gt_eval 1 3 risky_tree = Ok (Some 0%nat) /\
  ExpectimaxAgent.getAction gt_eval 1 3 risky_tree = Ok (Some 1%nat).
Proof. split; vm_compute; reflexivity. Qed.

Lemma minimax_le_expectimax_witness :
  3 <= float_div 23 3.
Proof.
  apply (proj1 (ExpectimaxAgent.minimax_le_expectimax ft_eval 1 ft_eval_int ft_branching 3%nat)
           3%nat example_ftree 0%Z).
  - lia.
  - simpl. lia.
  - vm_compute. reflexivity.
  - vm_compute. reflexivity.
Defined.

(** Python's rounding at work: a ghost whose three moves are all worth
    the float [0.7] is worth [sum([0.7, 0.7, 0.7]) / 3.0 =
    0.6999999999999998] under expectimax, below the [0.7] minimax gives
    it, where the spec's arithmetic mean (section 5) is [0.7]. *)
Example rounded_mean_below_min :
  MinimaxAgent.minimax gt_eval 1 2 (nth 0 (gt_kids point7_tree) point7_tree) 0 1
    = Ok float_0_7 /\
  ExpectimaxAgent.Min_Value gt_eval 1 2 (nth 0 (gt_kids point7_tree) point7_tree) 1 0
    = Ok (6305039478318693 # 9007199254740992) /\
  6305039478318693 # 9007199254740992 < float_0_7.
Proof. repeat split; vm_compute; reflexivity. Qed.

(** [ExpectimaxAgent] never tests [isWin]/[isLose]: after a winning
    move it keeps searching while moves are offered, where [MinimaxAgent]
    scores the won state (50) at once. *)
Example expectimax_ignores_win :
  MinimaxAgent.root_search gt_eval 1 3 won_tree = Ok (50, Some 0%nat) /\
  ExpectimaxAgent.root_search gt_eval 1 3 won_tree = Ok (Fin (float_div 3 2), Some 0%nat).
Proof. split; vm_compute; reflexivity. Qed.

(** The spec (section 8) says expectimax's root value must differ from
    minimax's on any tree where a chance node's values are not uniform.
    On [nonuniform_tree] the second ghost node averages [0] and [2] to [1]
    (the [2 # 2] below) where minimax takes [0], yet both roots are worth [10], reached by the
    first move: the non-uniform node is not the one Pacman chooses. *)
Example nonuniform_equal_roots :
  ExpectimaxAgent.Min_Value gt_eval 1 2 (nth 1 (gt_kids nonuniform_tree) nonuniform_tree) 1 0
    = Ok (float_div 2 2) /\
  MinimaxAgent.minimax gt_eval 1 2 (nth 1 (gt_kids nonuniform_tree) nonuniform_tree) 0 1
    = Ok 0 /\
  MinimaxAgent.root_search gt_eval 1 3 nonuniform_tree = Ok (10, Some 0%nat) /\
  ExpectimaxAgent.root_search gt_eval 1 3 nonuniform_tree = Ok (Fin (float_div 20 2), Some 0%nat).
Proof. repeat split; vm_compute; reflexivity. Qed.

(** The type of the three agents' answers: minimax and alpha-beta
    return a legal action or the placeholder [''] ([None]), and they
    return [''] on [sentinel_tree] although Pacman has a move, because no
    value exceeds their start value [-9999999]; expectimax, which starts
    at [float('-inf')], returns an action there. *)
Example getAction_placeholder :
  getLegalActions sentinel_tree 0 = [0%nat] /\
  MinimaxAgent.getAction gt_score 1 3 sentinel_tree = Ok None /\
  AlphaBetaAgent.getAction gt_score 1 3 sentinel_tree = Ok None /\
  ExpectimaxAgent.getAction gt_score 1 3 sentinel_tree = Ok (Some 0%nat).
Proof. repeat split; vm_compute; reflexivity. Qed.
