(* ===== verification/ExpectimaxCalls.v ===== *)
(** The calls the expectimax recursion makes (lines 259-290), as a step
    relation on the calls [(gameState, depth, agentIndex)] of
    [Calls]: [Max_Value(gameState, depth)] is the call of agent [0],
    [Min_Value(gameState, agentIndex, depth)] the call of a ghost.
    Expectimax has its own cutoffs (the ply bound for Pacman, an empty
    move list for everybody, never [isWin]/[isLose]) and its own turn
    order: a ghost passes to the next ghost while [agentIndex <
    getNumAgents() - 1], where minimax tests [agentIndex ==
    getNumAgents() - 1] the other way round.  The theorems: the two
    methods are one recursion over this relation (a call is worth the
    maximum or the mean of its steps); the turn order is minimax's for
    every agent that exists, and differs for one that does not; every
    call reached from the root asks for an agent that exists when there
    are at least two. *)

From Stdlib Require Import QArith Lqa ZArith Lia List Bool.
From S2P Require Import Prelude GameState Games Expectimax Calls.
Import ListNotations.

Module ExpectimaxCalls.

Section ExpectimaxCalls.

Context {GS A : Type} `{GameState GS A}.

Variable self_depth : Z.

(** Lines 273 and 282-284: Pacman's call stops at [depth == self.depth]
    or without a move, a ghost's call only without a move. *)
Definition cutoff (c : Calls.call) : bool :=
  if (Calls.c_agent c =? 0)%nat then
    (Calls.c_depth c =? self_depth)%Z
    || (length (getLegalActions (Calls.c_state c) 0) =? 0)%nat
  else (length (getLegalActions (Calls.c_state c) (Calls.c_agent c)) =? 0)%nat.

(** Lines 276, 287 and 290: Pacman calls agent 1 at the same depth; a
    ghost calls the next ghost while [agentIndex < getNumAgents() - 1],
    and otherwise Pacman one ply deeper. *)
Definition next_turn (gameState : GS) (depth : Z) (agentIndex : nat) : Z * nat :=
  if (agentIndex =? 0)%nat then (depth, 1%nat)
  else if (agentIndex <? getNumAgents gameState - 1)%nat then (depth, (agentIndex + 1)%nat)
  else ((depth + 1)%Z, 0%nat).

(** Lines 276, 287 and 290: the call made for one legal action. *)
Definition child (c : Calls.call) (action : A) : Calls.call :=
  let '(d, i) := next_turn (Calls.c_state c) (Calls.c_depth c) (Calls.c_agent c) in
  Calls.mkCall (generateSuccessor (Calls.c_state c) (Calls.c_agent c) action) d i.

Inductive step (c : Calls.call) : Calls.call -> Prop :=
| step_child action :
    cutoff c = false -> In action (getLegalActions (Calls.c_state c) (Calls.c_agent c)) ->
    step c (child c action).

(** Line 264: the root calls [Min_Value(successor, 1, 0)] for each of
    Pacman's actions, the root calls of minimax. *)
Inductive reachable (root : GS) : Calls.call -> Prop :=
| reach_root action :
    In action (getLegalActions root 0) -> reachable root (Calls.root_call root action)
| reach_step c c' : reachable root c -> step c c' -> reachable root c'.

(** The method a call stands for: [Max_Value] for agent [0],
    [Min_Value] for a ghost. *)
Definition value (evaluationFunction : GS -> Q) (fuel : nat) (c : Calls.call) : result Q :=
  if (Calls.c_agent c =? 0)%nat then
    ExpectimaxAgent.Max_Value evaluationFunction self_depth fuel (Calls.c_state c) (Calls.c_depth c)
  else
    ExpectimaxAgent.Min_Value evaluationFunction self_depth fuel
      (Calls.c_state c) (Calls.c_agent c) (Calls.c_depth c).

(** ** Lemmas *)

Lemma e_child_eq s d i action d' i' :
  next_turn s d i = (d', i') ->
  child (Calls.mkCall s d i) action = Calls.mkCall (generateSuccessor s i action) d' i'.
Proof. intros E. unfold child. simpl. rewrite E. reflexivity. Qed.

(** For an agent that exists, the turn after it is minimax's. *)
Lemma next_turn_agrees gameState depth agentIndex :
  (agentIndex < getNumAgents gameState)%nat ->
  next_turn gameState depth agentIndex = Calls.next_turn gameState depth agentIndex.
Proof.
  intros Hi. unfold next_turn, Calls.next_turn.
  destruct (Nat.eqb_spec agentIndex 0); [reflexivity|].
  destruct (Nat.ltb_spec agentIndex (getNumAgents gameState - 1));
    destruct (Nat.eqb_spec agentIndex (getNumAgents gameState - 1)); f_equal; lia.
Qed.

(** The calls of a ghost's list comprehension, whichever branch of
    line 286 it takes. *)
Lemma ghost_children f fuel s i d :
  (i <> 0)%nat ->
  (fun action => value f fuel (child (Calls.mkCall s d i) action))
  = ExpectimaxAgent.chance_child f self_depth fuel s i d.
Proof.
  intros Hi. unfold child, next_turn, value, ExpectimaxAgent.chance_child. simpl.
  apply Nat.eqb_neq in Hi. rewrite Hi.
  destruct (i <? getNumAgents s - 1)%nat eqn:Hlt; simpl.
  - replace (i + 1 =? 0)%nat with false by (symmetry; apply Nat.eqb_neq; lia). reflexivity.
  - reflexivity.
Qed.

(** [Min_Value] on a ghost with moves averages [chance_child] over them. *)
Lemma Min_Value_unfold f fuel s i d :
  ExpectimaxAgent.Min_Value f self_depth (S fuel) s i d =
  if (length (getLegalActions s i) =? 0)%nat then Ok (f s)
  else (values <- map_result (ExpectimaxAgent.chance_child f self_depth fuel s i d)
                    (getLegalActions s i);;
        Ok (ExpectimaxAgent.mean values (length (getLegalActions s i)))).
Proof.
  cbn [ExpectimaxAgent.Min_Value]. unfold ExpectimaxAgent.chance_child.
  destruct (length _ =? 0)%nat; [reflexivity|]. destruct (_ <? _)%nat; reflexivity.
Qed.

Lemma cutoff_false_pacman c :
  Calls.c_agent c = 0%nat -> cutoff c = false -> Calls.c_depth c <> self_depth.
Proof. intros Hi. unfold cutoff. rewrite Hi. simpl. rewrite orb_false_iff, Z.eqb_neq. tauto. Qed.

(** ** The relation is the recursion of [Max_Value] and [Min_Value] *)

(** The two methods are one recursion over the step relation: a call
    that is cut off returns the evaluation of its state, and any other
    call evaluates the calls of its steps, in the order of
    [getLegalActions], and returns their [max] for Pacman and their mean
    for a ghost. *)
Lemma expectimax_calls f fuel c :
  (cutoff c = true -> value f (S fuel) c = Ok (f (Calls.c_state c))) /\
  (cutoff c = false ->
   value f (S fuel) c =
     (values <- map_result (fun action => value f fuel (child c action))
                  (getLegalActions (Calls.c_state c) (Calls.c_agent c));;
      if (Calls.c_agent c =? 0)%nat then py_max_list values
      else Ok (ExpectimaxAgent.mean values
                 (length (getLegalActions (Calls.c_state c) (Calls.c_agent c)))))).
Proof.
  destruct c as [s d i]. unfold cutoff. simpl. destruct (Nat.eqb_spec i 0) as [->|Hi].
  - change (value f (S fuel) (Calls.mkCall s d 0))
      with (ExpectimaxAgent.Max_Value f self_depth (S fuel) s d).
    cbn [ExpectimaxAgent.Max_Value]. destruct (_ || _); split; intros Hc; try discriminate; reflexivity.
  - change (value f (S fuel) (Calls.mkCall s d i))
      with (if (i =? 0)%nat then ExpectimaxAgent.Max_Value f self_depth (S fuel) s d
            else ExpectimaxAgent.Min_Value f self_depth (S fuel) s i d).
    apply Nat.eqb_neq in Hi as Hi'. rewrite Hi'. clear Hi'.
    rewrite Min_Value_unfold, (ghost_children f fuel s i d Hi).
    destruct (_ =? 0)%nat; split; intros Hc; try discriminate; reflexivity.
Qed.

(** ** The turn order *)

(** C15: expectimax's turn order (a ghost passes on while [agentIndex <
    getNumAgents() - 1]) is minimax's ([agentIndex == getNumAgents() -
    1] ends the ply) for every agent that exists, but not for a ghost
    index at or beyond [getNumAgents()]: expectimax then ends the ply,
    where minimax calls the next index at the same depth. *)
Theorem turn_order gameState depth agentIndex :
  ((agentIndex < getNumAgents gameState)%nat ->
     next_turn gameState depth agentIndex = Calls.next_turn gameState depth agentIndex) /\
  ((1 <= agentIndex)%nat -> (getNumAgents gameState <= agentIndex)%nat ->
     next_turn gameState depth agentIndex = ((depth + 1)%Z, 0%nat) /\
     Calls.next_turn gameState depth agentIndex = (depth, (agentIndex + 1)%nat)).
Proof.
  split; [apply next_turn_agrees|]. intros H1 HN. unfold next_turn, Calls.next_turn.
  replace (agentIndex =? 0)%nat with false by (symmetry; apply Nat.eqb_neq; lia).
  replace (agentIndex <? _)%nat with false by (symmetry; apply Nat.ltb_ge; lia).
  replace (agentIndex =? _)%nat with false by (symmetry; apply Nat.eqb_neq; lia).
  split; reflexivity.
Qed.

Section Invariant.

(** The number of agents never changes during a game. *)
Hypothesis Hconst :
  forall s i a, getNumAgents (generateSuccessor s i a) = getNumAgents s.

(** C8: with a ply bound of at least 1 and at least two agents, every call
    expectimax makes from the root sees the root's number of agents, is
    for an agent that exists ([agentIndex < getNumAgents()]), and has a
    depth from [0] to [self.depth], reaching [self.depth] only in
    [Max_Value]. *)
Theorem expectimax_reachable_invariant root c :
  (1 <= self_depth)%Z -> (2 <= getNumAgents root)%nat -> reachable root c ->
  getNumAgents (Calls.c_state c) = getNumAgents root /\
  (Calls.c_agent c < getNumAgents root)%nat /\ (0 <= Calls.c_depth c)%Z /\
  ((Calls.c_depth c < self_depth)%Z \/
   (Calls.c_depth c = self_depth /\ Calls.c_agent c = 0%nat)).
Proof.
  intros HD HN Hr. induction Hr as [action Ha|c c' Hr IH Hs].
  - simpl. rewrite Hconst. lia.
  - destruct IH as (HNc & Hi & Hd0 & Hd). destruct Hs as [action Hcut Ha].
    pose proof (cutoff_false_pacman c) as Hpac. destruct c as [s d i]. simpl in *.
    assert (E : next_turn s d i = Calls.next_turn s d i) by (apply next_turn_agrees; lia).
    destruct (Calls.next_turn_cases s d i) as [(Hi' & E')|[(Hi0 & HiN & E')|(Hi0 & HiN & E')]];
      rewrite E' in E; rewrite (e_child_eq _ _ _ _ _ _ E); simpl; rewrite Hconst.
    + specialize (Hpac Hi' Hcut). lia.
    + lia.
    + lia.
Qed.

End Invariant.

End ExpectimaxCalls.

(** ** Witnesses *)

Lemma e_example_tree_reachable : reachable 1 example_tree (Calls.root_call example_tree 0%nat).
Proof. apply reach_root. left. reflexivity. Qed.

Lemma e_example_tree_step :
  step 1 (Calls.root_call example_tree 0%nat) (child (Calls.root_call example_tree 0%nat) 1%nat).
Proof. constructor; [reflexivity|right; left; reflexivity]. Qed.

Lemma turn_order_witness :
  next_turn example_tree 0 2 = ((0 + 1)%Z, 0%nat) /\
  Calls.next_turn example_tree 0 2 = (0%Z, (2 + 1)%nat).
Proof. apply (proj2 (turn_order example_tree 0 2)); simpl; lia. Defined.

Lemma expectimax_reachable_invariant_witness :
  let c := child (Calls.root_call example_tree 0%nat) 1%nat in
  (Calls.c_agent c < 2)%nat /\ (0 <= Calls.c_depth c)%Z /\
  ((Calls.c_depth c < 1)%Z \/ (Calls.c_depth c = 1%Z /\ Calls.c_agent c = 0%nat)).
Proof.
  destruct (expectimax_reachable_invariant 1 (fun s i a => tree_game_numAgents s i a)
              example_tree (child (Calls.root_call example_tree 0%nat) 1%nat))
    as (_ & Hi & Hd);
    [lia|simpl; lia|exact (reach_step _ _ _ _ e_example_tree_reachable e_example_tree_step)|].
  exact (conj Hi Hd).
Defined.

End ExpectimaxCalls.
