(* ===== verification/Evaluation.v ===== *)
(** The evaluation functions of [src/multiAgents.py]:
    [ReflexAgent.evaluationFunction] (lines 54-93) with its infinities and
    its division, [ReflexAgent.getAction] (lines 32-52) with the set its
    [random.choice] draws from, [scoreEvaluationFunction] (lines 95-103)
    and [betterEvaluationFunction] (lines 292-336).  They read a state
    through the [PacmanState] observations. *)

From Stdlib Require Import QArith Qabs Lqa List ZArith Lia Bool.
From S2P Require Import Prelude GameState Games.
Import ListNotations.
Open Scope Q_scope.
Open Scope pacman_scope.

(** ** The reflex agent *)

Module ReflexAgent.

Section Reflex.

Context {GS A : Type} `{PacmanState GS A}.

(** Lines 89-91: one turn of the loop over [foodList]. *)
Definition nearest_step (newPos : Pos) (distance : xreal) (x : Pos) : xreal :=
  let tempDistance := Fin (manhattanDistance newPos x) in
  if xltb tempDistance distance then tempDistance else distance.

(** Lines 77-91: [distance = float('inf')], then the smallest Manhattan
    distance from [newPos] to a food, replaced only when strictly smaller. *)
Definition nearest_food (newPos : Pos) (foodList : list Pos) : xreal :=
  fold_left (nearest_step newPos) foodList PosInf.

(** Line 93: [1.0/distance]; [1.0/float('inf')] is [0.0]. *)
Definition reciprocal (distance : xreal) : result Q :=
  match distance with
  | Fin d => py_div 1 d
  | _ => Ok 0
  end.

(** Lines 54-93: [evaluationFunction(currentGameState, action)]. *)
Definition evaluationFunction (currentGameState : GS) (action : A) : result xreal :=
  let successorGameState := generatePacmanSuccessor currentGameState action in
  let newPos := getPacmanPosition successorGameState in
  let newFood := getFood successorGameState in
  let newGhostStates := getGhostStates successorGameState in
  if isWin successorGameState then Ok PosInf
  else if existsb (fun state => pos_eqb (ghostPosition state) newPos
                                && (scaredTimer state =? 0)%Z) newGhostStates
  then Ok NegInf
  else
    r <- reciprocal (nearest_food newPos newFood);;
    Ok (Fin (r + getScore successorGameState)).

(** Line 47: the indices whose score equals [bestScore]. *)
Definition bestIndices (scores : list xreal) (bestScore : xreal) : list nat :=
  filter (fun index => match nth_error scores index with
                       | Some score => xeqb score bestScore
                       | None => false
                       end)
         (seq 0 (length scores)).

(** Lines 42-48: the actions [random.choice] picks from: [legalMoves]
    at the best indices.  [max(scores)] fails with [ValueError] when Pacman
    has no legal move. *)
Definition getAction_choices (gameState : GS) : result (list A) :=
  let legalMoves := getLegalActions gameState 0 in
  scores <- map_result (evaluationFunction gameState) legalMoves;;
  bestScore <- xmax_list scores;;
  Ok (flat_map (fun chosenIndex => match nth_error legalMoves chosenIndex with
                                   | Some action => [action]
                                   | None => []
                                   end)
               (bestIndices scores bestScore)).

(** Lines 32-52: [getAction] returns one of those actions, chosen at
    random: the relation between a state and every action it may return. *)
Definition getAction (gameState : GS) (action : A) : Prop :=
  exists choices, getAction_choices gameState = Ok choices /\ In action choices.

(** *** The nearest food *)

(** The loop of lines 88-91 from a finite start [a]: it ends on [a] or on
    the distance of a food, below [a] and below every food's distance. *)
Lemma nearest_food_from (newPos : Pos) (foodList : list Pos) (a : Q) :
  exists d, fold_left (nearest_step newPos) foodList (Fin a) = Fin d /\
    (d = a \/ exists x, In x foodList /\ d = manhattanDistance newPos x) /\
    d <= a /\ (forall x, In x foodList -> d <= manhattanDistance newPos x).
Proof.
  revert a. induction foodList as [|f fs IH]; cbn [fold_left]; intros a.
  - exists a. split; [reflexivity|]. split; [auto|]. split; [apply Qle_refl|contradiction].
  - set (df := manhattanDistance newPos f).
    replace (nearest_step newPos (Fin a) f) with (if Qltb df a then Fin df else Fin a)
      by reflexivity.
    destruct (Qltb df a) eqn:E; [apply Qltb_true in E|apply Qltb_false in E];
      [destruct (IH df) as (d & Hd & Hor & Hle & Hall)
      |destruct (IH a) as (d & Hd & Hor & Hle & Hall)];
      exists d; rewrite Hd; (split; [reflexivity|]).
    + split; [|split; [lra|]; intros x [<-|Hx]; [exact Hle|auto]].
      right. destruct Hor as [->|(x & Hx & ->)].
      * exists f. split; [left|]; reflexivity.
      * exists x. split; [right; exact Hx|reflexivity].
    + split; [|split; [exact Hle|]; intros x [<-|Hx]; [unfold df in *; lra|auto]].
      destruct Hor as [->|(x & Hx & ->)]; [left; reflexivity|right].
      exists x. split; [right; exact Hx|reflexivity].
Qed.

(** On a non-empty food list the loop ends on the smallest distance. *)
Lemma nearest_food_min (newPos : Pos) (foodList : list Pos) :
  foodList <> [] ->
  exists d, nearest_food newPos foodList = Fin d /\
    (exists x, In x foodList /\ d = manhattanDistance newPos x) /\
    (forall x, In x foodList -> d <= manhattanDistance newPos x).
Proof.
  destruct foodList as [|f fs]; [congruence|]. intros _. unfold nearest_food.
  cbn [fold_left]. change (nearest_step newPos PosInf f) with (Fin (manhattanDistance newPos f)).
  destruct (nearest_food_from newPos fs (manhattanDistance newPos f))
    as (d & Hd & Hor & Hle & Hall).
  exists d. rewrite Hd. split; [reflexivity|]. split.
  - destruct Hor as [->|(x & Hx & ->)]; eauto with datatypes.
  - intros x [<-|Hx]; auto.
Qed.

(** The nearest-food loop yields [float('inf')] on an empty food
    list, and otherwise the smallest Manhattan distance from [newPos] to a
    food, which is the distance of one of them. *)
Theorem nearest_food_spec (newPos : Pos) (foodList : list Pos) :
  (foodList = [] -> nearest_food newPos foodList = PosInf) /\
  (foodList <> [] ->
   exists d, nearest_food newPos foodList = Fin d /\
     (exists x, In x foodList /\ d = manhattanDistance newPos x) /\
     (forall x, In x foodList -> d <= manhattanDistance newPos x)).
Proof. split; [intros ->; reflexivity|apply nearest_food_min]. Qed.

(** *** The branches of [evaluationFunction] *)

(** No ghost that is not scared stands on [newPos] (lines 84-86). *)
Definition no_collision (successorGameState : GS) : Prop :=
  forall state, In state (getGhostStates successorGameState) ->
    pos_eqb (ghostPosition state) (getPacmanPosition successorGameState) = true ->
    scaredTimer state <> 0%Z.

Lemma no_collision_existsb successorGameState :
  no_collision successorGameState ->
  existsb (fun state => pos_eqb (ghostPosition state) (getPacmanPosition successorGameState)
                        && (scaredTimer state =? 0)%Z)
          (getGhostStates successorGameState) = false.
Proof.
  intros Hno. apply not_true_iff_false. rewrite existsb_exists.
  intros (state & Hin & Hst). apply andb_true_iff in Hst as [Hp Ht].
  apply Z.eqb_eq in Ht. exact (Hno state Hin Hp Ht).
Qed.

(** C25: the reflex evaluation is [float('inf')] exactly on the moves
    that win, whatever the ghosts do: the test of line 80 comes before the
    ghosts are looked at, so a winning move onto a ghost that is not
    scared is still [float('inf')], against the spec's "negative infinity
    regardless of other factors"; and no other branch returns
    [float('inf')] ([1.0/distance] and the score are finite). *)
Theorem evaluationFunction_win currentGameState action :
  evaluationFunction currentGameState action = Ok PosInf <->
  isWin (generatePacmanSuccessor currentGameState action) = true.
Proof.
  unfold evaluationFunction. destruct (isWin _); split; intros Hv;
    try reflexivity; try discriminate.
  destruct (existsb _ _); [discriminate|].
  destruct (reciprocal _); discriminate.
Qed.

(** C24: a move that does not win and puts Pacman on a ghost that is not
    scared is worth [float('-inf')]. *)
Theorem evaluationFunction_collision currentGameState action state :
  let successorGameState := generatePacmanSuccessor currentGameState action in
  isWin successorGameState = false ->
  In state (getGhostStates successorGameState) ->
  pos_eqb (ghostPosition state) (getPacmanPosition successorGameState) = true ->
  scaredTimer state = 0%Z ->
  evaluationFunction currentGameState action = Ok NegInf.
Proof.
  intros succ Hw Hin Hp Ht. unfold evaluationFunction. fold succ. rewrite Hw.
  replace (existsb _ _) with true; [reflexivity|].
  symmetry. apply existsb_exists. exists state. split; [exact Hin|].
  rewrite Hp, Ht. reflexivity.
Qed.

(** C9: otherwise the evaluation fails with [ZeroDivisionError] exactly
    when a food lies at Manhattan distance 0 from Pacman's new position:
    the code relies on the simulator having eaten it. *)
Theorem evaluationFunction_zero_division currentGameState action :
  let successorGameState := generatePacmanSuccessor currentGameState action in
  isWin successorGameState = false -> no_collision successorGameState ->
  (evaluationFunction currentGameState action = Err ZeroDivisionError <->
   exists x, In x (getFood successorGameState) /\
             manhattanDistance (getPacmanPosition successorGameState) x == 0).
Proof.
  intros succ Hw Hno. unfold evaluationFunction. fold succ.
  rewrite Hw, (no_collision_existsb _ Hno). cbv zeta.
  pose proof (nearest_food_min (getPacmanPosition succ) (getFood succ)) as Hcons.
  destruct (getFood succ) as [|f fs] eqn:Hf.
  - simpl. split; [discriminate|intros (x & [] & _)].
  - destruct Hcons as (d & -> & (x & Hx & ->) & Hall); [discriminate|].
    simpl. unfold py_div. destruct (Qeq_bool _ 0) eqn:E.
    + apply Qeq_bool_iff in E. split; [eauto|reflexivity].
    + apply Qeq_bool_neq in E. split; [discriminate|].
      intros (y & Hy & Hy0). exfalso. apply E.
      pose proof (Hall y Hy). pose proof (manhattanDistance_nonneg
        (getPacmanPosition succ) x). lra.
Qed.

(** C23: and when no food lies there, it is the score of the successor
    plus the reciprocal of the distance to the nearest food, or plus 0
    when no food is left. *)
Theorem evaluationFunction_value currentGameState action :
  let successorGameState := generatePacmanSuccessor currentGameState action in
  let newPos := getPacmanPosition successorGameState in
  isWin successorGameState = false -> no_collision successorGameState ->
  (forall x, In x (getFood successorGameState) -> ~ manhattanDistance newPos x == 0) ->
  exists r, evaluationFunction currentGameState action
              = Ok (Fin (r + getScore successorGameState)) /\
    (getFood successorGameState = [] -> r = 0) /\
    (getFood successorGameState <> [] ->
     exists d, r == / d /\ 0 < d /\
       (exists x, In x (getFood successorGameState) /\ d = manhattanDistance newPos x) /\
       (forall x, In x (getFood successorGameState) -> d <= manhattanDistance newPos x)).
Proof.
  intros succ newPos Hw Hno Hfood. unfold evaluationFunction. fold succ.
  rewrite Hw, (no_collision_existsb _ Hno). cbv zeta. fold newPos.
  pose proof (nearest_food_min newPos (getFood succ)) as Hcons.
  destruct (getFood succ) as [|f fs] eqn:Hf.
  - exists 0. split; [reflexivity|].
    split; [reflexivity|congruence].
  - destruct Hcons as (d & -> & (x & Hx & Hdx) & Hall); [discriminate|].
    assert (Hd : ~ d == 0) by (subst d; exact (Hfood x Hx)).
    pose proof (manhattanDistance_nonneg newPos x).
    simpl. unfold py_div.
    destruct (Qeq_bool d 0) eqn:E; [apply Qeq_bool_iff in E; contradiction|].
    exists (1 / d). split; [reflexivity|]. split; [discriminate|].
    intros _. exists d. split; [|split; [subst d; lra|eauto]].
    unfold Qdiv. ring.
Qed.

(** *** The random choice of [getAction] *)

Lemma in_choices (legalMoves : list A) (idx : list nat) action :
  In action (flat_map (fun chosenIndex => match nth_error legalMoves chosenIndex with
                                          | Some action => [action]
                                          | None => []
                                          end) idx) <->
  exists chosenIndex, In chosenIndex idx /\ nth_error legalMoves chosenIndex = Some action.
Proof.
  rewrite in_flat_map. split.
  - intros (i & Hi & Ha). destruct (nth_error legalMoves i) eqn:E; [|contradiction].
    destruct Ha as [<-|[]]. eauto.
  - intros (i & Hi & Ha). exists i. rewrite Ha. simpl. auto.
Qed.

Lemma in_bestIndices scores bestScore index :
  In index (bestIndices scores bestScore) <->
  exists score, nth_error scores index = Some score /\ xeqb score bestScore = true.
Proof.
  unfold bestIndices. rewrite filter_In, in_seq. split.
  - intros [_ Hf]. destruct (nth_error scores index) eqn:E; [eauto|discriminate].
  - intros (score & E & Hs). rewrite E. split; [|exact Hs].
    assert (index < length scores)%nat by (apply nth_error_Some; congruence). lia.
Qed.

(** C19: every action the reflex agent may return is a legal move whose
    evaluation is at least the evaluation of every legal move. *)
Theorem getAction_best gameState action :
  getAction gameState action ->
  In action (getLegalActions gameState 0) /\
  exists score, evaluationFunction gameState action = Ok score /\
    forall action' score', In action' (getLegalActions gameState 0) ->
      evaluationFunction gameState action' = Ok score' -> xleb score' score = true.
Proof.
  intros (choices & Hc & Hin). unfold getAction_choices in Hc. inv_ok.
  rename v into scores, v0 into bestScore.
  apply in_choices in Hin as (i & Hi & Ha).
  apply in_bestIndices in Hi as (score & Hs & Heq).
  destruct (map_result_nth_error _ _ _ Hm _ _ Hs) as (a' & Ha' & Hev).
  rewrite Ha in Ha'. injection Ha' as <-.
  split; [eapply nth_error_In; exact Ha|].
  exists score. split; [exact Hev|]. intros a2 s2 Ha2 Hs2.
  destruct (map_result_In _ _ _ _ Hm Ha2) as (s2' & Hs2' & Hin2).
  rewrite Hs2 in Hs2'. injection Hs2' as <-.
  eapply xleb_xeqb; [exact Heq|]. exact (proj2 (xmax_list_spec _ _ Hm0) _ Hin2).
Qed.

(** C26: when Pacman has a legal move and every move's evaluation
    returns, the reflex agent has an action to return; with no legal move,
    [max(scores)] raises [ValueError]. *)
Theorem getAction_exists gameState :
  (getLegalActions gameState 0 <> [] ->
   (forall a, In a (getLegalActions gameState 0) ->
      exists v, evaluationFunction gameState a = Ok v) ->
   exists action, getAction gameState action) /\
  (getLegalActions gameState 0 = [] -> getAction_choices gameState = Err ValueError).
Proof.
  unfold getAction, getAction_choices. split; [|intros ->; reflexivity].
  intros Hne Hall.
  destruct (map_result_total _ _ Hall) as (scores & Hsc & Hlen). rewrite Hsc. simpl.
  destruct scores as [|s0 rest] eqn:Es;
    [destruct (getLegalActions gameState 0); simpl in Hlen; congruence|].
  rewrite <- Es in *. simpl.
  destruct (xmax_list_spec scores (fold_left xmax rest s0)) as [Hbin _];
    [subst; reflexivity|].
  apply In_nth_error in Hbin as (i & Hi).
  assert (Hlt : (i < length (getLegalActions gameState 0))%nat)
    by (rewrite <- Hlen; apply nth_error_Some; congruence).
  destruct (nth_error (getLegalActions gameState 0) i) as [a|] eqn:Ea;
    [|apply nth_error_None in Ea; lia].
  exists a. eexists. split; [subst; reflexivity|]. apply in_choices.
  exists i. split; [|exact Ea]. apply in_bestIndices.
  exists (fold_left xmax rest s0). split; [subst; exact Hi|apply xeqb_refl].
Qed.

End Reflex.

End ReflexAgent.

(** ** The evaluation functions of the search agents *)

Section Evaluation.

Context {GS A : Type} `{PacmanState GS A}.

(** Lines 95-103: [scoreEvaluationFunction]. *)
Definition scoreEvaluationFunction (currentGameState : GS) : Q :=
  getScore currentGameState.

(** Lines 306-310: [foodDistance], the distances to every food after a
    leading [0]. *)
Definition foodDistance (currentGameState : GS) : list Q :=
  0 :: map (manhattanDistance (getPacmanPosition currentGameState))
           (getFood currentGameState).

(** Lines 313-318: [ghostDistance], the distances to every ghost after a
    leading [0]. *)
Definition ghostDistance (currentGameState : GS) : list Q :=
  0 :: map (manhattanDistance (getPacmanPosition currentGameState))
           (map ghostPosition (getGhostStates currentGameState)).

(** Lines 303 and 323: [sum(newScaredTimes)]. *)
Definition sumScaredTimes (currentGameState : GS) : Z :=
  fold_left Z.add (map scaredTimer (getGhostStates currentGameState)) 0%Z.

(** Lines 320-328: [1.0 / max(foodDistance)] when [sum(foodDistance) > 0],
    else [0]: the reciprocal distance to the farthest food. *)
Definition reciprocalfoodDistance (currentGameState : GS) : result Q :=
  if Qltb 0 (py_sum (foodDistance currentGameState)) then
    m <- py_max_list (foodDistance currentGameState);; py_div 1 m
  else Ok 0.

(** Lines 292-336: [betterEvaluationFunction(currentGameState)]. *)
Definition betterEvaluationFunction (currentGameState : GS) : result Q :=
  let numberofPowerPellets :=
    inject_Z (Z.of_nat (length (getCapsules currentGameState))) in
  let sumGhostDistance := py_sum (ghostDistance currentGameState) in
  r <- reciprocalfoodDistance currentGameState;;
  let score := 0 + (getScore currentGameState + r) in
  if (0 <? sumScaredTimes currentGameState)%Z then
    Ok (score + (inject_Z (sumScaredTimes currentGameState)
                 + (-1 * numberofPowerPellets) + (-1 * sumGhostDistance)))
  else
    Ok (score + (sumGhostDistance + numberofPowerPellets)).

(** Line 339: the abbreviation [better = betterEvaluationFunction]. *)
Definition better : GS -> result Q := betterEvaluationFunction.

(** Every entry of [foodDistance] is non-negative. *)
Lemma foodDistance_nonneg currentGameState x :
  In x (foodDistance currentGameState) -> 0 <= x.
Proof.
  unfold foodDistance. intros [<-|Hx]; [apply Qle_refl|].
  apply in_map_iff in Hx as (y & <- & _). apply manhattanDistance_nonneg.
Qed.

(** While some food is at a positive distance, the farthest distance is
    positive. *)
Lemma max_foodDistance_pos currentGameState m :
  0 < py_sum (foodDistance currentGameState) ->
  py_max_list (foodDistance currentGameState) = Ok m -> 0 < m.
Proof.
  intros Hs Hm. destruct (py_max_list_spec _ _ Hm) as [_ Hall].
  apply Qnot_le_lt. intros Hle.
  pose proof (fold_plus_le 0 (foodDistance currentGameState) 0
                (fun x Hx => Qle_trans _ _ _ (Hall x Hx) Hle)).
  unfold py_sum, inject_Z in *. lra.
Qed.

(** [betterEvaluationFunction] never raises. *)
Lemma betterEvaluationFunction_ok currentGameState :
  exists q, betterEvaluationFunction currentGameState = Ok q.
Proof.
  unfold betterEvaluationFunction, reciprocalfoodDistance.
  destruct (Qltb 0 _) eqn:E; [apply Qltb_true in E|].
  - destruct (py_max_list_nonempty (foodDistance currentGameState)) as [m Hm];
      [discriminate|].
    pose proof (max_foodDistance_pos _ _ E Hm). rewrite Hm. simpl. unfold py_div.
    destruct (Qeq_bool m 0) eqn:Em; [apply Qeq_bool_iff in Em; lra|].
    simpl. destruct (0 <? _)%Z; eauto.
  - simpl. destruct (0 <? _)%Z; eauto.
Qed.

(** C20: [betterEvaluationFunction]'s reciprocal never divides by zero;
    it is [0] when every food is at distance 0 (or none is left), and
    otherwise the reciprocal of the distance to the farthest food. *)
Theorem reciprocalfoodDistance_farthest currentGameState :
  let newPos := getPacmanPosition currentGameState in
  let foodList := getFood currentGameState in
  exists r, reciprocalfoodDistance currentGameState = Ok r /\
    ((forall x, In x foodList -> manhattanDistance newPos x == 0) -> r == 0) /\
    (forall x, In x foodList -> ~ manhattanDistance newPos x == 0 ->
       exists m, r == / m /\ 0 < m /\
         (exists y, In y foodList /\ m = manhattanDistance newPos y) /\
         (forall y, In y foodList -> manhattanDistance newPos y <= m)).
Proof.
  intros newPos foodList. subst newPos foodList. unfold reciprocalfoodDistance.
  pose proof (foodDistance_nonneg currentGameState) as Hnn.
  assert (Hin : forall x, In x (getFood currentGameState) ->
            In (manhattanDistance (getPacmanPosition currentGameState) x)
               (foodDistance currentGameState))
    by (intros x Hx; right; apply in_map; exact Hx).
  destruct (Qltb 0 _) eqn:E; [apply Qltb_true in E|apply Qltb_false in E].
  - destruct (py_max_list_nonempty (foodDistance currentGameState)) as [m Hm];
      [discriminate|].
    destruct (py_max_list_spec _ _ Hm) as [Hmin Hall].
    pose proof (max_foodDistance_pos _ _ E Hm) as Hpos. rewrite Hm. simpl.
    unfold py_div. destruct (Qeq_bool m 0) eqn:Em;
      [apply Qeq_bool_iff in Em; lra|].
    exists (1 / m). split; [reflexivity|]. split.
    + intros Hz. exfalso.
      pose proof (fold_plus_le 0 (foodDistance currentGameState) 0) as Hs.
      assert (Hle : forall x, In x (foodDistance currentGameState) -> x <= 0).
      { intros x [<-|Hx]; [apply Qle_refl|].
        apply in_map_iff in Hx as (y & <- & Hy). pose proof (Hz y Hy). lra. }
      specialize (Hs Hle). unfold py_sum, inject_Z in *. lra.
    + intros x _ _. exists m. split; [unfold Qdiv; ring|]. split; [exact Hpos|].
      split; [|intros y Hy; exact (Hall _ (Hin y Hy))].
      destruct Hmin as [<-|Hmin]; [lra|].
      apply in_map_iff in Hmin as (y & <- & Hy). eauto.
  - exists 0. split; [reflexivity|]. split; [intros; apply Qeq_refl|].
    intros x Hx Hnz. exfalso.
    pose proof (fold_plus_ge_elem _ 0 _ Hnn (Hin x Hx)).
    pose proof (manhattanDistance_nonneg (getPacmanPosition currentGameState) x).
    unfold py_sum in E. apply Hnz. lra.
Qed.

(** C21: two states that differ only in where the ghosts stand (same
    score, same food around the same position, same number of capsules,
    same sum of scared timers): while some ghost is scared, the state
    closer to the ghosts scores higher; while none is, the farther one
    does. *)
Theorem betterEvaluationFunction_ghost_sign s1 s2 v1 v2 :
  getScore s1 == getScore s2 -> foodDistance s1 = foodDistance s2 ->
  length (getCapsules s1) = length (getCapsules s2) ->
  sumScaredTimes s1 = sumScaredTimes s2 ->
  py_sum (ghostDistance s1) < py_sum (ghostDistance s2) ->
  betterEvaluationFunction s1 = Ok v1 -> betterEvaluationFunction s2 = Ok v2 ->
  if (0 <? sumScaredTimes s1)%Z then v2 < v1 else v1 < v2.
Proof.
  intros Hsc Hfd Hcap Hst Hg H1 H2.
  unfold betterEvaluationFunction, reciprocalfoodDistance in *.
  rewrite Hfd, Hcap, Hst in H1.
  destruct (if Qltb 0 _ then _ else _) as [r|e]; simpl in *; [|discriminate].
  rewrite Hst. destruct (0 <? sumScaredTimes s2)%Z; inv_ok; lra.
Qed.

End Evaluation.

(** ** Witnesses on the concrete world *)

(** The spec's scenario: with a ghost two cells east and a food one
    cell west, the reflex evaluation prefers the west move (the food is
    eaten: score 9, nearest food 4 away) to the east move (score -1,
    nearest food 2 away), and [getAction] can only choose it. *)
Example spec_world_reflex :
  ReflexAgent.evaluationFunction spec_world West = Ok (Fin (1 / 4 + 9)) /\
  ReflexAgent.evaluationFunction spec_world East = Ok (Fin (1 / 2 + -1)) /\
  ReflexAgent.getAction_choices spec_world = Ok [West].
Proof. vm_compute. repeat split; reflexivity. Qed.

(** Eating the last food wins, and the move is worth
    [float('inf')] although a ghost that is not scared stands on that
    cell: the spec's "negative infinity regardless of other factors" does
    not hold of the code. *)
Example last_food_win_on_ghost :
  ReflexAgent.evaluationFunction last_food_world West = Ok PosInf /\
  pos_eqb (ghostPosition (mkGhostState (1, 1) 0))
          (getPacmanPosition (generatePacmanSuccessor last_food_world West)) = true.
Proof. split; vm_compute; reflexivity. Qed.

Lemma evaluationFunction_win_witness :
  ReflexAgent.evaluationFunction last_food_world West = Ok PosInf.
Proof. apply (proj2 (ReflexAgent.evaluationFunction_win last_food_world West)).
  vm_compute. reflexivity. Defined.

Lemma evaluationFunction_collision_witness :
  ReflexAgent.evaluationFunction
    (mkWorld (3, 1) [mkGhostState (4, 1) 0] [(1, 1)] [] 0) East = Ok NegInf.
Proof.
  apply (ReflexAgent.evaluationFunction_collision _ _ (mkGhostState (4, 1) 0));
    vm_compute; auto.
Defined.

Lemma evaluationFunction_zero_division_witness :
  let successorGameState := generatePacmanSuccessor spec_world East in
  ReflexAgent.evaluationFunction spec_world East = Err ZeroDivisionError <->
  exists x, In x (getFood successorGameState) /\
            manhattanDistance (getPacmanPosition successorGameState) x == 0.
Proof.
  apply (ReflexAgent.evaluationFunction_zero_division spec_world East).
  - vm_compute. reflexivity.
  - intros st Hst. vm_compute in Hst. destruct Hst as [<-|[]]. vm_compute. discriminate.
Defined.

Lemma evaluationFunction_value_witness :
  let successorGameState := generatePacmanSuccessor spec_world West in
  let newPos := getPacmanPosition successorGameState in
  exists r, ReflexAgent.evaluationFunction spec_world West
              = Ok (Fin (r + getScore successorGameState)) /\
    (getFood successorGameState = [] -> r = 0) /\
    (getFood successorGameState <> [] ->
     exists d, r == / d /\ 0 < d /\
       (exists x, In x (getFood successorGameState) /\ d = manhattanDistance newPos x) /\
       (forall x, In x (getFood successorGameState) -> d <= manhattanDistance newPos x)).
Proof.
  apply (ReflexAgent.evaluationFunction_value spec_world West).
  - vm_compute. reflexivity.
  - intros st Hst. vm_compute in Hst. destruct Hst as [<-|[]]. vm_compute. discriminate.
  - intros x Hx. vm_compute in Hx. destruct Hx as [<-|[]]. vm_compute. discriminate.
Defined.

Lemma getAction_best_witness :
  In West (getLegalActions spec_world 0) /\
  exists score, ReflexAgent.evaluationFunction spec_world West = Ok score /\
    forall action' score', In action' (getLegalActions spec_world 0) ->
      ReflexAgent.evaluationFunction spec_world action' = Ok score' ->
      xleb score' score = true.
Proof.
  apply ReflexAgent.getAction_best.
  exists [West]. split; [vm_compute; reflexivity|left; reflexivity].
Defined.

Lemma getAction_exists_witness : exists action, ReflexAgent.getAction spec_world action.
Proof.
  apply (proj1 (ReflexAgent.getAction_exists spec_world)).
  - discriminate.
  - intros a _. destruct a; vm_compute; eauto.
Defined.

Lemma betterEvaluationFunction_ghost_sign_witness :
  exists v1 v2, betterEvaluationFunction scared_near = Ok v1 /\
                betterEvaluationFunction scared_far = Ok v2 /\
                if (0 <? sumScaredTimes scared_near)%Z then v2 < v1 else v1 < v2.
Proof.
  do 2 eexists. split; [vm_compute; reflexivity|]. split; [vm_compute; reflexivity|].
  apply (betterEvaluationFunction_ghost_sign scared_near scared_far);
    vm_compute; reflexivity.
Defined.
