(* ===== verification/Agents.v ===== *)
(** The configuration of the search agents, [MultiAgentSearchAgent.__init__]
    (lines 105-123): Pacman's index, the evaluation function resolved by
    name with [util.lookup] in the module's [globals()], and the depth read
    with [int].  The theorems say which names configure which evaluation
    function (the alias [better] of line 339 included), in which order the
    two failures are raised, that the namespace has no name conflict
    (Python 3's [lookup] searches no module), and
    what the configured agents do on the spec's world: the default agents
    choose the same move, and an agent configured with a negative depth
    never returns.  The section [Choices] states the type of the three
    search agents' answers: a legal action or the placeholder. *)

From Stdlib Require Import QArith Lqa ZArith Lia List Bool Ascii String.
From S2P Require Import Prelude GameState Games PyInt Minimax AlphaBeta Expectimax Evaluation.
Import ListNotations.
Local Open Scope string_scope.

Module MultiAgentSearchAgent.

Section Config.

Context {GS A : Type} `{PacmanState GS A}.

(** The values bound at the top level of [multiAgents.py] that [lookup]
    can return: a function of one game state returning a number, the
    two-argument [manhattanDistance], a class or a module. *)
Inductive py_object : Type :=
| PyFunction (f : GS -> Q)
| PyFunction2 (name : string)
| PyClass (name : string)
| PyModule (name : string)
| PyValue (name : string).

(** [betterEvaluationFunction] as the number it returns: it never raises
    ([Evaluation.betterEvaluationFunction_ok]). *)
Definition better_value (currentGameState : GS) : Q :=
  match betterEvaluationFunction currentGameState with
  | Ok q => q
  | Err _ => 0
  end.

(** [globals()] of the module once it has run: the attributes every
    module has, the imports of lines 15-19, the classes and functions it
    defines, and the alias [better] of line 339. *)
Definition globals : list (string * py_object) :=
  [ ("__name__", PyValue "__name__"); ("__doc__", PyValue "__doc__");
    ("__package__", PyValue "__package__"); ("__loader__", PyValue "__loader__");
    ("__spec__", PyValue "__spec__"); ("__file__", PyValue "__file__");
    ("__cached__", PyValue "__cached__"); ("__builtins__", PyModule "builtins");
    ("manhattanDistance", PyFunction2 "manhattanDistance");
    ("Directions", PyClass "Directions");
    ("random", PyModule "random"); ("util", PyModule "util");
    ("Agent", PyClass "Agent");
    ("ReflexAgent", PyClass "ReflexAgent");
    ("scoreEvaluationFunction", PyFunction scoreEvaluationFunction);
    ("MultiAgentSearchAgent", PyClass "MultiAgentSearchAgent");
    ("MinimaxAgent", PyClass "MinimaxAgent");
    ("AlphaBetaAgent", PyClass "AlphaBetaAgent");
    ("ExpectimaxAgent", PyClass "ExpectimaxAgent");
    ("betterEvaluationFunction", PyFunction better_value);
    ("better", PyFunction (fun currentGameState =>
                 match better currentGameState with Ok q => q | Err _ => 0 end)) ].

(** [util.lookup(name, namespace)] for a name without a dot: the entries
    bound to [name]; one is returned, none raises "not found", several a
    name conflict.  (The modules of the namespace are searched too, but
    the test [str(type(obj)) == "<type 'module'>"] selects none under
    Python 3.) *)
Definition lookup (name : string) (namespace : list (string * py_object))
  : result py_object :=
  match filter (fun kv => String.eqb (fst kv) name) namespace with
  | [(_, o)] => Ok o
  | [] => Err NotFound
  | _ => Err NameConflict
  end.

(** The configuration of a search agent. *)
Record agent : Type := mkAgent {
  index : nat;
  evaluationFunction : py_object;
  depth : Z
}.

(** Lines 120-123: [__init__(self, evalFn, depth)]: the index first, then
    the lookup, then [int(depth)]. *)
Definition __init__ (evalFn depth : string) : result agent :=
  f <- lookup evalFn globals;;
  d <- py_int depth;;
  Ok (mkAgent 0 f d).

(** The default arguments of line 120. *)
Definition __init___default : result agent :=
  __init__ "scoreEvaluationFunction" "2".

(** ** The namespace *)

Lemma filter_key_notin (ns : list (string * py_object)) name :
  ~ In name (map fst ns) ->
  filter (fun kv => String.eqb (fst kv) name) ns = [].
Proof.
  induction ns as [|[k o] ns IH]; simpl; [reflexivity|]. intros Hn.
  destruct (String.eqb_spec k name); [tauto|]. apply IH. tauto.
Qed.

Lemma filter_key_in (ns : list (string * py_object)) name :
  NoDup (map fst ns) -> In name (map fst ns) ->
  exists o, filter (fun kv => String.eqb (fst kv) name) ns = [(name, o)] /\ In (name, o) ns.
Proof.
  induction ns as [|[k o] ns IH]; simpl; [tauto|]. intros Hnd Hin.
  inversion Hnd as [|? ? Hk Hnd']; subst.
  destruct (String.eqb_spec k name) as [<-|Hne].
  - exists o. rewrite filter_key_notin by exact Hk. auto.
  - destruct IH as (o' & -> & Ho'); [exact Hnd'|destruct Hin; [congruence|assumption]|].
    eauto.
Qed.

(** [lookup] in a namespace whose names are distinct (a dict): the value
    bound to a name that is present, "not found" otherwise. *)
Lemma lookup_spec (ns : list (string * py_object)) name :
  NoDup (map fst ns) ->
  (In name (map fst ns) -> exists o, lookup name ns = Ok o /\ In (name, o) ns) /\
  (~ In name (map fst ns) -> lookup name ns = Err NotFound).
Proof.
  intros Hnd. unfold lookup. split.
  - intros Hin. destruct (filter_key_in ns name Hnd Hin) as (o & -> & Ho). eauto.
  - intros Hn. rewrite filter_key_notin by exact Hn. reflexivity.
Qed.

Lemma globals_nodup : NoDup (map fst globals).
Proof.
  simpl. repeat (constructor;
    [simpl; intros Hin; repeat (destruct Hin as [Hin|Hin]; [discriminate Hin|]); exact Hin|]).
  constructor.
Qed.

Lemma init_ok name s o d :
  lookup name globals = Ok o -> py_int s = Ok d ->
  __init__ name s = Ok (mkAgent 0 o d).
Proof. intros Ho Hd. unfold __init__. rewrite Ho. simpl. rewrite Hd. reflexivity. Qed.

(** The names that configure an evaluation function:
    [scoreEvaluationFunction], and [betterEvaluationFunction] or its alias
    [better] (line 339), which configure the same function; with a depth
    string that [int] reads as [d], the agent is Pacman's with depth [d]. *)
Theorem init_evaluationFunction name f s d :
  In (name, f) [("scoreEvaluationFunction", scoreEvaluationFunction);
                ("betterEvaluationFunction", better_value);
                ("better", better_value)] ->
  py_int s = Ok d ->
  __init__ name s = Ok (mkAgent 0 (PyFunction f) d).
Proof.
  intros Hin Hd. apply init_ok; [|exact Hd].
  destruct Hin as [E|[E|[E|[]]]]; injection E as <- <-; reflexivity.
Qed.

(** [__init__] fails exactly in two ways, and in the code's order: an
    evaluation-function name that is not bound in the module raises
    "not found" whatever the depth; a bound name with a depth string
    [int] rejects raises [int]'s error.  No name conflict is ever
    raised. *)
Theorem init_errors name s e :
  __init__ name s = Err e <->
  (~ In name (map fst globals) /\ e = NotFound) \/
  (In name (map fst globals) /\ py_int s = Err e).
Proof.
  destruct (lookup_spec globals name globals_nodup) as [Hin Hout].
  unfold __init__. destruct (in_dec String.string_dec name (map fst globals)) as [Hn|Hn].
  - destruct (Hin Hn) as (o & -> & _). simpl.
    destruct (py_int s) as [d|e']; simpl; split; intros E.
    + discriminate.
    + destruct E as [[Hx _]|[_ E]]; [tauto|discriminate].
    + right. split; [exact Hn|congruence].
    + destruct E as [[Hx _]|[_ E]]; [tauto|congruence].
  - rewrite (Hout Hn). simpl. split; intros E.
    + left. split; [exact Hn|congruence].
    + destruct E as [[_ ->]|[Hx _]]; [reflexivity|exfalso; exact (Hn Hx)].
Qed.

(** [util.lookup] in the module's namespace never raises a name
    conflict: [globals()] binds every name once. *)
Theorem globals_no_conflict name : lookup name globals <> Err NameConflict.
Proof.
  destruct (lookup_spec globals name globals_nodup) as [Hin Hout].
  destruct (in_dec String.string_dec name (map fst globals)) as [Hn|Hn].
  - destruct (Hin Hn) as (o & -> & _). discriminate.
  - rewrite (Hout Hn). discriminate.
Qed.

End Config.

Arguments py_object GS : clear implicits.
Arguments agent GS : clear implicits.

(** ** The type of the search agents' answers *)

Section Choices.

Context {GS A : Type} `{GameState GS A}.

(** Lines 125, 188 and 246: the three subclasses of
    [MultiAgentSearchAgent]. *)
Inductive search_agent : Type :=
| MinimaxAgentClass
| AlphaBetaAgentClass
| ExpectimaxAgentClass.

(** [agent.getAction(gameState)]: Python runs the [getAction] of the
    agent's class (lines 130, 194 and 251), which reads
    [self.evaluationFunction] and [self.depth]. *)
Definition getAction (cls : search_agent) (f : GS -> Q) (D : Z) (fuel : nat)
  (gameState : GS) : result (option A) :=
  match cls with
  | MinimaxAgentClass => MinimaxAgent.getAction f D fuel gameState
  | AlphaBetaAgentClass => AlphaBetaAgent.getAction f D fuel gameState
  | ExpectimaxAgentClass => ExpectimaxAgent.getAction f D fuel gameState
  end.

(** C16: whatever the evaluation function and depth, every search agent's
    [getAction] answers an action of [gameState.getLegalActions(0)] or the
    placeholder ([''] for minimax and alpha-beta, [None] for expectimax);
    expectimax answers the placeholder exactly when Pacman has no legal
    action. *)
Theorem search_agents_legal (cls : search_agent) (f : GS -> Q) (D : Z) fuel gameState :
  (forall a, getAction cls f D fuel gameState = Ok (Some a) ->
     In a (getLegalActions gameState 0)) /\
  (cls = ExpectimaxAgentClass -> forall r, getAction cls f D fuel gameState = Ok r ->
     (r = None <-> getLegalActions gameState 0 = [])).
Proof.
  destruct cls; split; try (intros Hc; discriminate); [intros a Hg; simpl in Hg..|].
  - unfold MinimaxAgent.getAction in Hg. inv_ok. destruct v as [v r].
    destruct (MinimaxAgent.root_loop_first_best _ _ _ _ _ _ _ _ _ Hm)
      as [_ [[_ E]|(pre & b & post & -> & _ & E & _)]]; simpl in Hg; [congruence|].
    rewrite Hg in E. injection E as ->. apply in_or_app. right. left. reflexivity.
  - unfold AlphaBetaAgent.getAction, AlphaBetaAgent.root_search in Hg.
    inv_ok. destruct v as [v r].
    destruct (AlphaBetaAgent.root_loop_action _ _ _ _ _ _ _ _ _ _ _ Hm)
      as [E|(b & E & Hb)]; simpl in Hg; rewrite Hg in E; [discriminate|].
    injection E as ->. exact Hb.
  - unfold ExpectimaxAgent.getAction in Hg. inv_ok.
    exact (proj2 (ExpectimaxAgent.root_search_action _ _ _ _ _ Hm) a Hg).
  - intros _ r Hg. simpl in Hg. unfold ExpectimaxAgent.getAction in Hg. inv_ok.
    exact (proj1 (ExpectimaxAgent.root_search_action _ _ _ _ _ Hm)).
Qed.

End Choices.

(** ** The configured agents on the spec's world *)

(** Along the northward path of column 2 the search never reaches a node
    where [depth == self.depth] when [self.depth < 0]: Pacman's first move
    and every ghost's first move lead to another such node, so the first
    call of every loop runs out of fuel. *)
Lemma minimax_column2 (f : world -> Q) (D : Z) :
  (D < 0)%Z -> forall fuel w d i, on_column2 w -> (0 <= d)%Z ->
  MinimaxAgent.minimax f D fuel w d i = Err OutOfFuel.
Proof.
  intros HD fuel. induction fuel as [|fuel IH]; intros w d i Hw Hd; [reflexivity|].
  cbn [MinimaxAgent.minimax]. destruct (on_column2_playing w Hw) as [-> ->].
  replace (d =? D)%Z with false by (symmetry; apply Z.eqb_neq; lia).
  cbn [orb]. change (getLegalActions w i) with [North; South; East; West; Stop].
  destruct (i =? 0)%nat; cbn [MinimaxAgent.max_loop MinimaxAgent.min_loop].
  - rewrite IH by auto using on_column2_north. reflexivity.
  - destruct (i =? _)%nat; rewrite IH by (auto using on_column2_north; lia); reflexivity.
Qed.

Lemma alphabeta_column2 (f : world -> Q) (D : Z) :
  (D < 0)%Z -> forall fuel w d alpha beta i, on_column2 w -> (0 <= d)%Z ->
  AlphaBetaAgent.minimax f D fuel w d alpha beta i = Err OutOfFuel.
Proof.
  intros HD fuel. induction fuel as [|fuel IH]; intros w d alpha beta i Hw Hd;
    [reflexivity|].
  cbn [AlphaBetaAgent.minimax]. destruct (on_column2_playing w Hw) as [-> ->].
  replace (d =? D)%Z with false by (symmetry; apply Z.eqb_neq; lia).
  cbn [orb]. change (getLegalActions w i) with [North; South; East; West; Stop].
  destruct (i =? 0)%nat; cbn [AlphaBetaAgent.max_loop AlphaBetaAgent.min_loop].
  - rewrite IH by auto using on_column2_north. reflexivity.
  - destruct (i =? _)%nat; rewrite IH by (auto using on_column2_north; lia); reflexivity.
Qed.

(** C18: [int] accepts a negative depth, and a minimax or alpha-beta agent
    configured with one never returns a move on the spec's world: the test
    [depth == self.depth] is never true, Pacman can walk north forever, and
    the search follows that path first (the code ends in a
    [RecursionError]). *)
Theorem negative_depth_never_returns (s : string) (d : Z) fuel :
  py_int s = Ok d -> (d < 0)%Z ->
  __init__ "scoreEvaluationFunction" s
    = Ok (mkAgent 0 (PyFunction scoreEvaluationFunction) d) /\
  MinimaxAgent.getAction scoreEvaluationFunction d fuel spec_world = Err OutOfFuel /\
  AlphaBetaAgent.getAction scoreEvaluationFunction d fuel spec_world = Err OutOfFuel.
Proof.
  intros Hs Hd. split; [apply init_ok; [reflexivity|exact Hs]|].
  pose proof (on_column2_north spec_world 0 on_column2_spec_world) as Hn.
  split.
  - unfold MinimaxAgent.getAction, MinimaxAgent.root_search.
    change (getLegalActions spec_world 0) with [North; South; East; West; Stop].
    cbn [MinimaxAgent.root_loop]. rewrite minimax_column2 by (auto; lia). reflexivity.
  - unfold AlphaBetaAgent.getAction, AlphaBetaAgent.root_search.
    change (getLegalActions spec_world 0) with [North; South; East; West; Stop].
    cbn [AlphaBetaAgent.root_loop]. rewrite alphabeta_column2 by (auto; lia). reflexivity.
Qed.

(** The agents of the default configuration ([__init__()]: the score,
    depth 2) and those configured with [better] all choose [West] on the
    spec's world, where the food is one step west and the ghost two steps
    east: minimax, alpha-beta and expectimax agree. *)
Example default_agents_spec_world :
  __init___default = Ok (mkAgent 0 (PyFunction scoreEvaluationFunction) 2) /\
  __init__ "better" "2" = Ok (mkAgent 0 (PyFunction better_value) 2) /\
  (forall f, In f [scoreEvaluationFunction; better_value] ->
     MinimaxAgent.getAction f 2 10 spec_world = Ok (Some West) /\
     AlphaBetaAgent.getAction f 2 10 spec_world = Ok (Some West) /\
     ExpectimaxAgent.getAction f 2 10 spec_world = Ok (Some West)).
Proof.
  split; [reflexivity|]. split; [reflexivity|].
  intros f [<-|[<-|[]]]; vm_compute; repeat split.
Qed.

Lemma negative_depth_never_returns_witness :
  py_int "-1" = Ok (-1)%Z /\ (-1 < 0)%Z /\
  MinimaxAgent.getAction scoreEvaluationFunction (-1) 100 spec_world = Err OutOfFuel.
Proof.
  split; [reflexivity|]. split; [lia|].
  apply (negative_depth_never_returns "-1" (-1) 100); [reflexivity|lia].
Defined.

Lemma init_evaluationFunction_witness :
  __init__ "better" "3" = Ok (mkAgent 0 (PyFunction better_value) 3).
Proof.
  apply init_evaluationFunction; [right; right; left; reflexivity|reflexivity].
Defined.

Lemma search_agents_legal_witness :
  In 0%nat (getLegalActions example_tree 0).
Proof.
  assert (Hg : getAction ExpectimaxAgentClass gt_eval 1 3 example_tree = Ok (Some 0%nat))
    by (vm_compute; reflexivity).
  exact (proj1 (search_agents_legal ExpectimaxAgentClass gt_eval 1 3 example_tree) _ Hg).
Defined.

End MultiAgentSearchAgent.
